(** * PubMed MCP server: rate-limited request core and History session manager

    A shallow embedding of
      - [src/utils/error_handler.py]   (exception hierarchy, status mapping),
      - [src/utils/rate_limiter.py]    (token bucket, retry schedule),
      - [src/clients/base.py]          (the [_request] retry loop),
      - [src/clients/session_manager.py] (Entrez History pipeline),
    together with the properties the specification states about them.

    Conventions.  Python [float]s are idealised as exact rationals ([Q]):
    rounding, infinities and NaN are outside the model; the one float
    operation of this code that raises, [**] leaving the double range, is
    modelled by [py_pow].  Python
    exceptions are values of [Exn] carried by [Raise]; a coroutine is a
    function on an explicit world (mutable object state plus a log of the
    effects it performed).  Logging is advisory and left out, and so are
    the methods no stated property depends on ([fetch_results], [close],
    the [get]/[post] wrappers). *)

From Stdlib Require Import QArith Qminmax Qabs Lqa.
From stdpp Require Import base list strings gmap pretty.

Set Default Proof Using "Type".
Open Scope string_scope.

(** ** Python values and results *)

Module Py.

(** The dynamically typed values that flow through the modelled code. *)
Inductive PyVal : Type :=
| PyNone
| PyBool (b : bool)
| PyInt (z : Z)
| PyFloat (q : Q)
| PyStr (s : string).

(** Truth value testing, as used by [if x:] and [not x]. *)
Definition truthy (v : PyVal) : bool :=
  match v with
  | PyNone => false
  | PyBool b => b
  | PyInt z => negb (z =? 0)%Z
  | PyFloat q => negb (Qeq_bool q 0)
  | PyStr s => negb (String.eqb s "")
  end.

(** Why a call raised [TypeError]. *)
Inductive TypeErrorReason : Type :=
| UnexpectedKeyword (callee : string) (kw : string)
| MissingArgument (callee : string) (param : string).

(** Exceptions.  [Instance] is an instance of a class of the repository's
    own hierarchy, with its attribute dictionary. *)
Inductive Exn : Type :=
| Instance (cls : string) (attrs : gmap string PyVal)
| TypeError (why : TypeErrorReason)
| ZeroDivisionError
| OverflowError
| ValueError (arg : string).

Inductive Result (A : Type) : Type :=
| Ok (a : A)
| Raise (e : Exn).
Arguments Ok {A} a.
Arguments Raise {A} e.

Definition rbind {A B} (r : Result A) (k : A -> Result B) : Result B :=
  match r with
  | Ok a => k a
  | Raise e => Raise e
  end.

(** [dict.get(key, default)] *)
Definition dict_get {V} (d : gmap string V) (k : string) (default : V) : V :=
  match d !! k with
  | Some v => v
  | None => default
  end.

(** [s[:n]] on a string *)
Definition str_take (n : nat) (s : string) : string := String.substring 0 n s.

(** [str(n)] / [f"{n}"] for an integer *)
Definition str_of_int (z : Z) : string := pretty z.

End Py.
Import Py.

#[global] Instance result_ret : MRet Result := fun _ a => Ok a.
#[global] Instance result_bind : MBind Result := fun _ _ k r => rbind r k.

(** ** src/utils/error_handler.py *)

Module ErrorHandler.

(** The classes of the hierarchy, all deriving from [PubMedError]. *)
Inductive ErrClass : Type :=
| PubMedError
| RateLimitError
| InvalidQueryError
| ArticleNotFoundError
| ServiceUnavailableError
| InvalidIDError
| BatchSizeError
| NetworkError.

Definition class_name (c : ErrClass) : string :=
  match c with
  | PubMedError => "PubMedError"
  | RateLimitError => "RateLimitError"
  | InvalidQueryError => "InvalidQueryError"
  | ArticleNotFoundError => "ArticleNotFoundError"
  | ServiceUnavailableError => "ServiceUnavailableError"
  | InvalidIDError => "InvalidIDError"
  | BatchSizeError => "BatchSizeError"
  | NetworkError => "NetworkError"
  end.

(** The parameters of each [__init__] after [self], with their defaults
    ([None] here marks a parameter without default). *)
Definition init_signature (c : ErrClass) : list (string * option PyVal) :=
  match c with
  | PubMedError =>
      [("message", None); ("details", Some PyNone)]
  | RateLimitError =>
      [("message", Some (PyStr "Rate limit exceeded")); ("retry_after", Some PyNone)]
  | InvalidQueryError =>
      [("message", Some (PyStr "Invalid query syntax"));
       ("query", Some PyNone); ("suggestion", Some PyNone)]
  | ArticleNotFoundError =>
      [("message", Some (PyStr "Article not found"));
       ("identifier", Some PyNone); ("id_type", Some PyNone)]
  | ServiceUnavailableError =>
      [("message", Some (PyStr "NCBI service temporarily unavailable"));
       ("retry_after", Some (PyFloat 60))]
  | InvalidIDError =>
      [("message", Some (PyStr "Invalid identifier format"));
       ("identifier", Some PyNone); ("expected_format", Some PyNone)]
  | BatchSizeError =>
      [("message", Some (PyStr "Batch size too large"));
       ("requested_size", Some PyNone); ("max_size", Some PyNone)]
  | NetworkError =>
      [("message", Some (PyStr "Network error occurred"));
       ("original_error", Some PyNone)]
  end.

Definition kw_lookup (kwargs : list (string * PyVal)) (name : string) : option PyVal :=
  snd <$> List.find (fun kv => String.eqb (fst kv) name) kwargs.

(** Python's binding of keyword arguments to parameters: a keyword the
    callee does not declare is a [TypeError], and so is a parameter left
    without value. *)
Fixpoint check_keywords (callee : string) (params : list string)
         (kwargs : list (string * PyVal)) : Result unit :=
  match kwargs with
  | [] => Ok tt
  | (k, _) :: rest =>
      if existsb (String.eqb k) params
      then check_keywords callee params rest
      else Raise (TypeError (UnexpectedKeyword callee k))
  end.

Fixpoint bind_params (callee : string) (sig : list (string * option PyVal))
         (kwargs : list (string * PyVal)) : Result (list (string * PyVal)) :=
  match sig with
  | [] => Ok []
  | (p, dflt) :: sig' =>
      match kw_lookup kwargs p, dflt with
      | Some v, _ | None, Some v =>
          bound ← bind_params callee sig' kwargs;
          Ok ((p, v) :: bound)
      | None, None => Raise (TypeError (MissingArgument callee p))
      end
  end.

(** Instantiating a class with keyword arguments.  Every subclass calls
    [super().__init__(message)], which leaves [details] at [None], and
    then stores its own parameters as attributes. *)
Definition new (c : ErrClass) (kwargs : list (string * PyVal)) : Result Exn :=
  let callee := class_name c ++ ".__init__" in
  _ ← check_keywords callee (fst <$> init_signature c) kwargs;
  bound ← bind_params callee (init_signature c) kwargs;
  Ok (Instance (class_name c)
        (match c with
         | PubMedError => list_to_map bound
         | _ => <["details" := PyNone]> (list_to_map bound)
         end)).

Definition error_mapping_keys : list Z := [400; 401; 404; 429; 500; 502; 503; 504]%Z.

(** [map_http_status_to_error(status_code, response_text)].  The dictionary
    display is evaluated entry by entry before [.get] is called, and the
    default argument of [.get] is evaluated before the lookup. *)
Definition map_http_status_to_error (status_code : Z) (response_text : PyVal)
  : Result Exn :=
  e400 ← new InvalidQueryError
            [("message", PyStr "Bad request - check query syntax");
             ("details", response_text)];
  e401 ← new PubMedError
            [("message", PyStr "Authentication error - check API key");
             ("details", response_text)];
  e404 ← new ArticleNotFoundError
            [("message", PyStr "Resource not found");
             ("details", response_text)];
  e429 ← new RateLimitError
            [("message", PyStr "Rate limit exceeded - retry with backoff");
             ("retry_after", PyFloat 60)];
  e500 ← new ServiceUnavailableError
            [("message", PyStr "NCBI internal server error");
             ("retry_after", PyFloat 60)];
  e502 ← new ServiceUnavailableError
            [("message", PyStr "NCBI gateway error");
             ("retry_after", PyFloat 30)];
  e503 ← new ServiceUnavailableError
            [("message", PyStr "NCBI service temporarily unavailable");
             ("retry_after", PyFloat 60)];
  e504 ← new ServiceUnavailableError
            [("message", PyStr "NCBI gateway timeout");
             ("retry_after", PyFloat 30)];
  let error_mapping : gmap Z Exn :=
    list_to_map (zip error_mapping_keys
                     [e400; e401; e404; e429; e500; e502; e503; e504]) in
  dflt ← new PubMedError
            [("message", PyStr ("HTTP error " ++ str_of_int status_code));
             ("details", response_text)];
  Ok (match error_mapping !! status_code with
      | Some e => e
      | None => dflt
      end).

End ErrorHandler.

(** ** src/utils/rate_limiter.py *)

Open Scope Q_scope.

(** [min(a, b)] returns its first argument unless the second is smaller. *)
Definition py_min (a b : Q) : Q := if Qlt_le_dec b a then b else a.

(** True division: [ZeroDivisionError] on a zero divisor. *)
Definition py_div (a b : Q) : Result Q :=
  if Qeq_bool b 0 then Raise ZeroDivisionError else Ok (a / b).

(** From this magnitude on a double rounds to infinity: the largest
    finite double plus half a unit in its last place. *)
Definition double_overflow : Q := 2 ^ 1024 - 2 ^ 970.

Definition in_double_range (q : Q) : Prop := Qabs q < double_overflow.

(** [b ** n] for a float [b] and a non-negative integer [n]:
    [OverflowError] when the result leaves the double range. *)
Definition py_pow (b : Q) (n : nat) : Result Q :=
  if Qlt_le_dec (Qabs (b ^ Z.of_nat n)) double_overflow
  then Ok (b ^ Z.of_nat n)
  else Raise OverflowError.

Module RateLimiter.

(** The attributes of a [RateLimiter]; [max_requests] is an [int], the
    others are floats.  The lock only serialises callers and has no
    counterpart in a sequential model. *)
Record t : Type := mk {
  max_requests : Z;
  window : Q;
  tokens : Q;
  last_update : Q
}.

(** [RateLimiter(max_requests, window)] created when the clock reads [now]. *)
Definition init (max_requests : Z) (window : Q) (now : Q) : t :=
  {| max_requests := max_requests; window := window;
     tokens := inject_Z max_requests; last_update := now |}.

(** What one [acquire] did: whether it raised, the limiter afterwards, and
    the duration handed to [asyncio.sleep], if it slept. *)
Record Acquired : Type := mkAcquired {
  result : Result unit;
  after : t;
  slept : option Q
}.

(** [acquire()] when [time.monotonic()] reads [now]. *)
Definition acquire (l : t) (now : Q) : Acquired :=
  let elapsed := now - last_update l in
  match py_div (inject_Z (max_requests l)) (window l) with
  | Raise e => mkAcquired (Raise e) l None
  | Ok rate =>
      let refilled :=
        py_min (inject_Z (max_requests l)) (tokens l + elapsed * rate) in
      let l1 := mk (max_requests l) (window l) refilled now in
      if Qlt_le_dec refilled 1 then
        match py_div (window l) (inject_Z (max_requests l)) with
        | Raise e => mkAcquired (Raise e) l1 None
        | Ok per_token =>
            let wait_time := (1 - refilled) * per_token in
            mkAcquired (Ok tt) (mk (max_requests l) (window l) 0 now)
                       (Some wait_time)
        end
      else
        mkAcquired (Ok tt) (mk (max_requests l) (window l) (refilled - 1) now)
                   None
  end.

(** [update_limit(new_limit)] *)
Definition update_limit (l : t) (new_limit : Z) : t :=
  mk new_limit (window l) (tokens l) (last_update l).

(** The [available_tokens] property read when the clock shows [now]. *)
Definition available_tokens (l : t) (now : Q) : Result Q :=
  let elapsed := now - last_update l in
  rate ← py_div (inject_Z (max_requests l)) (window l);
  Ok (py_min (inject_Z (max_requests l)) (tokens l + elapsed * rate)).

(** The specification's description of the same algorithm, in its own
    words: capacity [C], window [W], [available], [last_refill_instant]. *)
Definition spec_refill (C W available last_refill_instant now : Q) : Q :=
  Qmin C (available + (now - last_refill_instant) * C / W).

Definition spec_wait (C W available : Q) : Q :=
  (1 - available) * W / C.

(** One unit taken from [l] when the clock reads [now], in the
    specification's terms: the bucket is refilled and stamped, and then
    either it held less than one token, the caller slept [spec_wait] and
    the bucket is left at 0, or one token is gone and nobody slept. *)
Definition took_one_unit (l : t) (now : Q) (nap : option Q) (l' : t) : Prop :=
  let C := inject_Z (max_requests l) in
  let W := window l in
  let available := spec_refill C W (tokens l) (last_update l) now in
  max_requests l' = max_requests l /\
  window l' = window l /\
  last_update l' = now /\
  (available < 1 ->
     tokens l' = 0 /\ exists d, nap = Some d /\ d == spec_wait C W available) /\
  (~ available < 1 ->
     tokens l' == available - 1 /\ nap = None).


(** The states a limiter passes through: created full, then any
    interleaving of [acquire] (the clock never runs backwards, and has
    advanced by at least the time slept) and [update_limit] to a positive
    limit.  The second component is the clock reading at that point. *)
Inductive reachable (C0 : Z) (W : Q) : t -> Q -> Prop :=
| reach_init now :
    reachable C0 W (init C0 W now) now
| reach_later l now now' :
    reachable C0 W l now -> now <= now' ->
    reachable C0 W l now'
| reach_acquire l now :
    reachable C0 W l now ->
    reachable C0 W (after (acquire l now))
              (now + match slept (acquire l now) with
                     | Some d => Qmax 0 d
                     | None => 0
                     end)
| reach_update l now new_limit :
    reachable C0 W l now -> (0 < new_limit)%Z ->
    reachable C0 W (update_limit l new_limit) now.

(** A limiter whose two divisions are defined. *)
Definition configured (l : t) : Prop :=
  max_requests l <> 0%Z /\ ~ window l == 0.

(** What every reachable state satisfies when the clock reads [now]. *)
Definition inv (W : Q) (l : t) (now : Q) : Prop :=
  (0 < max_requests l)%Z /\ window l = W /\ 0 <= tokens l /\ last_update l <= now.

End RateLimiter.

Module RetryHandler.

Record t : Type := mk {
  max_retries : Z;
  base_delay : Q;
  backoff_factor : Q;
  max_delay : Q
}.

(** [get_delay(attempt)]; [attempt] is a loop index of [range], hence a
    natural number.  The power is computed first and may raise. *)
Definition get_delay (h : t) (attempt : nat) : Result Q :=
  power ← py_pow (backoff_factor h) attempt;
  let delay := base_delay h * power in
  Ok (py_min delay (max_delay h)).

(** [wait(attempt)]: the duration handed to [asyncio.sleep], unless
    [get_delay] raised. *)
Definition wait (h : t) (attempt : nat) : Result Q := get_delay h attempt.

(** The schedule as the specification words it. *)
Definition spec_delay (base_delay backoff_factor max_delay : Q) (attempt : nat) : Q :=
  Qmin (base_delay * backoff_factor ^ Z.of_nat attempt) max_delay.


End RetryHandler.

(** ** src/clients/base.py *)

Module BaseClient.
Import ErrorHandler.

(** The part of an [httpx.Response] the request loop reads. *)
Record Response : Type := mkResponse {
  status_code : Z;
  text : string;
  headers : list (string * string)
}.

Definition lower_ascii (c : Ascii.ascii) : Ascii.ascii :=
  let n := Ascii.nat_of_ascii c in
  if ((65 <=? n) && (n <=? 90))%nat then Ascii.ascii_of_nat (n + 32) else c.

Fixpoint lower (s : string) : string :=
  match s with
  | EmptyString => EmptyString
  | String c rest => String (lower_ascii c) (lower rest)
  end.

(** [sep.join(parts)] *)
Fixpoint join_values (sep : string) (parts : list string) : string :=
  match parts with
  | [] => ""
  | [p] => p
  | p :: rest => p ++ sep ++ join_values sep rest
  end.

(** [response.headers.get(name)]: header names compare without case, and
    the values of all lines of that name are joined with a comma and a
    space; [None] when there is no such line. *)
Definition headers_get (hs : list (string * string)) (name : string) : option string :=
  match List.filter (fun kv => String.eqb (lower (fst kv)) (lower name)) hs with
  | [] => None
  | items => Some (join_values ", " (snd <$> items))
  end.

(** What one call of the HTTP client does: it returns a response or raises
    one of the two [httpx] exceptions the loop handles. *)
Inductive Outcome : Type :=
| Responded (r : Response)
| TimeoutException (e : string)
| RequestError (e : string).

(** The effects of [_request], in the order they happen. *)
Inductive Event : Type :=
| EvAcquire (waited : option Q)
| EvHttp (attempt : nat)
| EvRetryWait (attempt : nat) (delay : Q).

Definition is_http (e : Event) : bool :=
  match e with EvHttp _ => true | _ => false end.
Definition is_acquire (e : Event) : bool :=
  match e with EvAcquire _ => true | _ => false end.
Definition is_retry_wait (e : Event) : bool :=
  match e with EvRetryWait _ _ => true | _ => false end.

(** The mutable state [_request] works on, and its effect log. *)
Record World : Type := mkWorld {
  rate_limiter : RateLimiter.t;
  trace : list Event
}.

Definition log (w : World) (e : Event) : World :=
  mkWorld (rate_limiter w) (trace w ++ [e]).

(** How one iteration of the loop ends. *)
Inductive Step : Type :=
| Return (r : Response)
| Fail (e : Exn)
| Continue.

(** [raise C(...)]: raises the new instance, or whatever creating it raised. *)
Definition raised (r : Result Exn) : Exn :=
  match r with
  | Ok e => e
  | Raise e => e
  end.

Definition raise (r : Result Exn) : Step := Fail (raised r).

Section Request.
(** The builtin [float] on strings ([None]: it raises [ValueError]). *)
Variable float_of_str : string -> option Q.
(** [time.monotonic()] as read by the limiter during each attempt. *)
Variable monotonic : nat -> Q.
(** The transport: what the HTTP call of each attempt does. *)
Variable send : nat -> Outcome.
Variable retry_handler : RetryHandler.t.
Variable retry_on_rate_limit : bool.

(** [float(response.headers.get("Retry-After", 60))] *)
Definition retry_after_of (response : Response) : Result Q :=
  match headers_get (headers response) "Retry-After" with
  | Some s =>
      match float_of_str s with
      | Some q => Ok q
      | None => Raise (ValueError s)
      end
  | None => Ok 60
  end.

Definition retries_remain (attempt : nat) : bool :=
  (Z.of_nat attempt <? RetryHandler.max_retries retry_handler)%Z.

(** [await self.retry_handler.wait(attempt); continue]: an exception
    of [wait] is not one the loop handles. *)
Definition backoff (attempt : nat) (w : World) : Step * World :=
  match RetryHandler.wait retry_handler attempt with
  | Ok delay => (Continue, log w (EvRetryWait attempt delay))
  | Raise e => (Fail e, w)
  end.

(** The classification of a response, lines 151-179. *)
Definition classify (attempt : nat) (response : Response) (w : World)
  : Step * World :=
  if (status_code response =? 429)%Z then
    if retry_on_rate_limit && retries_remain attempt then
      backoff attempt w
    else
      (raise (retry_after ← retry_after_of response;
              new RateLimitError
                  [("message", PyStr "Rate limit exceeded after retries");
                   ("retry_after", PyFloat retry_after)]), w)
  else if (500 <=? status_code response)%Z then
    if retries_remain attempt then
      backoff attempt w
    else
      (raise (new ServiceUnavailableError
                  [("message",
                    PyStr ("Server error: " ++ str_of_int (status_code response)));
                   ("retry_after", PyFloat 60)]), w)
  else if (400 <=? status_code response)%Z then
    (raise (map_http_status_to_error
              (status_code response)
              (PyStr (str_take 500 (text response)))), w)
  else
    (Return response, w).

(** One iteration of the [for] loop: the [try] body and its two
    [except] clauses. *)
Definition attempt_once (attempt : nat) (w : World) : Step * World :=
  let acq := RateLimiter.acquire (rate_limiter w) (monotonic attempt) in
  let w1 := mkWorld (RateLimiter.after acq)
                    (trace w ++ [EvAcquire (RateLimiter.slept acq)]) in
  match RateLimiter.result acq with
  | Raise e => (Fail e, w1)
  | Ok _ =>
      let w2 := log w1 (EvHttp attempt) in
      match send attempt with
      | Responded response => classify attempt response w2
      | TimeoutException e =>
          if retries_remain attempt then backoff attempt w2
          else (raise (new NetworkError
                           [("message", PyStr "Request timed out");
                            ("original_error", PyStr e)]), w2)
      | RequestError e =>
          if retries_remain attempt then backoff attempt w2
          else (raise (new NetworkError
                           [("message", PyStr "Network request failed");
                            ("original_error", PyStr e)]), w2)
      end
  end.

(** [for attempt in range(...)], with [remaining] iterations to go. *)
Fixpoint request_loop (remaining : nat) (attempt : nat) (w : World)
  : Result Response * World :=
  match remaining with
  | O =>
      (Raise (raised (new PubMedError [("message", PyStr "Max retries exceeded")])), w)
  | S remaining' =>
      match attempt_once attempt w with
      | (Return r, w') => (Ok r, w')
      | (Fail e, w') => (Raise e, w')
      | (Continue, w') => request_loop remaining' (S attempt) w'
      end
  end.

(** [_request(method, endpoint, params, data, retry_on_rate_limit)] *)
Definition _request (w : World) : Result Response * World :=
  request_loop (Z.to_nat (RetryHandler.max_retries retry_handler + 1)) 0 w.

End Request.

(** The effects of [calls] consecutive iterations of the loop, the first
    one numbered [attempt], on a limiter [l]: every iteration takes one
    unit from the limiter and then makes its HTTP call, and every
    iteration but the last then waits its backoff delay.  The last
    argument is the limiter they leave. *)
Inductive attempts_run (monotonic : nat -> Q) (h : RetryHandler.t)
  : nat -> nat -> RateLimiter.t -> list Event -> RateLimiter.t -> Prop :=
| run_last (attempt : nat) (l l' : RateLimiter.t) (nap : option Q) :
    RateLimiter.took_one_unit l (monotonic attempt) nap l' ->
    attempts_run monotonic h attempt 1 l [EvAcquire nap; EvHttp attempt] l'
| run_more (attempt calls : nat) (l l' l'' : RateLimiter.t) (nap : option Q)
           (delay : Q) (events : list Event) :
    RateLimiter.took_one_unit l (monotonic attempt) nap l' ->
    RetryHandler.get_delay h attempt = Ok delay ->
    attempts_run monotonic h (S attempt) calls l' events l'' ->
    attempts_run monotonic h attempt (S calls) l
                 (EvAcquire nap :: EvHttp attempt :: EvRetryWait attempt delay
                            :: events) l''.

(** The world once an attempt has taken its token and issued its call. *)
Definition sent (monotonic : nat -> Q) (attempt : nat) (w : World) : World :=
  let acq := RateLimiter.acquire (rate_limiter w) (monotonic attempt) in
  log (mkWorld (RateLimiter.after acq)
               (trace w ++ [EvAcquire (RateLimiter.slept acq)]))
      (EvHttp attempt).

(** The errors the loop raises itself. *)
Definition service_unavailable (status : Z) : Exn :=
  Instance "ServiceUnavailableError"
           {[ "message" := PyStr ("Server error: " ++ str_of_int status);
              "details" := PyNone;
              "retry_after" := PyFloat 60 ]}.

Definition rate_limit_exceeded (retry_after : Q) : Exn :=
  Instance "RateLimitError"
           {[ "message" := PyStr "Rate limit exceeded after retries";
              "details" := PyNone;
              "retry_after" := PyFloat retry_after ]}.

(** What building the status table raises. *)
Definition unexpected_details : Exn :=
  TypeError (UnexpectedKeyword "InvalidQueryError.__init__" "details").

(** A stand-in for [float] on the strings used in examples: unsigned
    decimal integers. *)
Definition digit_value (c : Ascii.ascii) : option Z :=
  let n := Ascii.nat_of_ascii c in
  if ((48 <=? n) && (n <=? 57))%nat then Some (Z.of_nat (n - 48)) else None.

Fixpoint digits_value (acc : Z) (s : string) : option Z :=
  match s with
  | EmptyString => Some acc
  | String c rest =>
      match digit_value c with
      | Some d => digits_value (10 * acc + d) rest
      | None => None
      end
  end.

Definition float_of_digits (s : string) : option Q :=
  match s with
  | EmptyString => None
  | _ => inject_Z <$> digits_value 0 s
  end.

(** The reading of the 429 rule under which the wait before the next
    attempt is the server's hint whenever the response carries one. *)
Definition waits_for_server_hint : Prop :=
  forall (float_of_str : string -> option Q) (monotonic : nat -> Q)
         (send : nat -> Outcome) (h : RetryHandler.t)
         (attempt : nat) (w : World) (r : Response) (s : string) (hint : Q),
    RateLimiter.configured (rate_limiter w) ->
    send attempt = Responded r ->
    status_code r = 429%Z ->
    retries_remain h attempt = true ->
    headers_get (headers r) "Retry-After" = Some s ->
    float_of_str s = Some hint ->
    exists w' delay,
      attempt_once float_of_str monotonic send h true attempt w = (Continue, w') /\
      last (trace w') = Some (EvRetryWait attempt delay) /\
      delay == hint.

Definition http_attempts (w : World) : nat := length (List.filter is_http (trace w)).
Definition units_acquired (w : World) : nat := length (List.filter is_acquire (trace w)).

End BaseClient.


(** ** src/clients/session_manager.py *)

Module SessionManager.
Import ErrorHandler.

(** The [PipelineStep] dataclass.  [query_key] and [result_count] hold
    whatever the client's result dictionary held. *)
Record PipelineStep : Type := mkStep {
  step_number : Z;
  operation : string;
  database : string;
  query_key : PyVal;
  result_count : PyVal;
  parameters : gmap string PyVal
}.

(** The attributes of a [SessionManager] besides its client. *)
Record t : Type := mk {
  web_env : PyVal;
  steps : list PipelineStep;
  _step_counter : Z
}.

(** [SessionManager(client)] *)
Definition init : t := mk PyNone [] 0%Z.

(** One entry of a link result's ["linksets"] list; [None] is a
    dictionary without that key. *)
Record LinkSet : Type := mkLinkSet { ids : option (list string) }.
Record LinkResult : Type := mkLinkResult { linksets : option (list LinkSet) }.

(** A call on the injected client, with the arguments it was given. *)
Inductive NetCall : Type :=
| CallSearch (db query : string) (usehistory : bool)
| CallLink (dbfrom db cmd : string) (query_key web_env linkname : PyVal).

(** The injected client.  Its answer may depend on the calls it has
    received before; it returns a result dictionary or raises. *)
Record Client : Type := mkClient {
  search : list NetCall -> string -> string -> bool -> Result (gmap string PyVal);
  link : list NetCall -> string -> string -> string -> PyVal -> PyVal -> PyVal
         -> Result LinkResult
}.

(** The manager together with the log of calls made on its client. *)
Record World : Type := mkWorld {
  mgr : t;
  net : list NetCall
}.

Definition fresh : World := mkWorld init [].

(** [Optional[str]] and [Optional[int]] arguments as Python values. *)
Definition py_opt_str (o : option string) : PyVal :=
  match o with Some s => PyStr s | None => PyNone end.
Definition py_opt_int (o : option Z) : PyVal :=
  match o with Some z => PyInt z | None => PyNone end.

(** [start_session(db, query)] *)
Definition start_session (c : Client) (db query : string) (w : World)
  : Result PipelineStep * World :=
  let m := mgr w in
  let net1 := (net w ++ [CallSearch db query true])%list in
  match search c (net w) db query true with
  | Raise e => (Raise e, mkWorld m net1)
  | Ok result =>
      let web := dict_get result "web_env" PyNone in
      let qk := dict_get result "query_key" PyNone in
      let m1 := mk web (steps m) (_step_counter m) in
      if negb (truthy web) || negb (truthy qk) then
        (Raise (BaseClient.raised
                  (new PubMedError
                       [("message",
                         PyStr "Failed to start session: no History data returned")])),
         mkWorld m1 net1)
      else
        let counter := (_step_counter m + 1)%Z in
        let step := mkStep counter "search" db qk
                           (dict_get result "count" (PyInt 0))
                           {[ "query" := PyStr query ]} in
        (Ok step, mkWorld (mk web (steps m ++ [step]) counter) net1)
  end.

(** The query [add_search_step] sends: lines 121-123. *)
Definition combined_query (query : string) (combine_with : option string)
           (combine_operator : string) : string :=
  if truthy (py_opt_str combine_with)
  then "#" ++ default "" combine_with ++ " " ++ combine_operator
           ++ " (" ++ query ++ ")"
  else query.

(** [add_search_step(db, query, combine_with, combine_operator)] *)
Definition add_search_step (c : Client) (db query : string)
           (combine_with : option string) (combine_operator : string)
           (w : World) : Result PipelineStep * World :=
  let m := mgr w in
  if negb (truthy (web_env m)) then
    start_session c db query w
  else
    let full_query := combined_query query combine_with combine_operator in
    let net1 := (net w ++ [CallSearch db full_query true])%list in
    match search c (net w) db full_query true with
    | Raise e => (Raise e, mkWorld m net1)
    | Ok result =>
        let web :=
          if truthy (dict_get result "web_env" PyNone)
          then dict_get result "web_env" PyNone
          else web_env m in
        let qk := dict_get result "query_key" PyNone in
        let counter := (_step_counter m + 1)%Z in
        let step := mkStep counter "search" db qk
                           (dict_get result "count" (PyInt 0))
                           {[ "query" := PyStr query;
                              "combined_with" := py_opt_str combine_with;
                              "operator" := PyStr combine_operator ]} in
        (Ok step, mkWorld (mk web (steps m ++ [step]) counter) net1)
    end.

(** A [PubMedError] created with a message only. *)
Definition pubmed_error (message : string) : Exn :=
  Instance "PubMedError" {[ "message" := PyStr message; "details" := PyNone ]}.

Definition no_active_session : Exn :=
  BaseClient.raised
    (new PubMedError [("message", PyStr "Cannot add link step: no active session")]).

Definition step_not_found (from_step : Z) : Exn :=
  BaseClient.raised
    (new PubMedError
         [("message",
           PyStr ("Step " ++ str_of_int from_step ++ " not found in pipeline"))]).

Definition no_previous_steps : Exn :=
  BaseClient.raised
    (new PubMedError [("message", PyStr "No previous steps in pipeline")]).

(** The source step's query key: lines 180-196 of [add_link_step]. *)
Definition resolve_query_key (m : t) (from_step : option Z) : Result PyVal :=
  if truthy (py_opt_int from_step) then
    let n := default 0%Z from_step in
    match List.find (fun s => (step_number s =? n)%Z) (steps m) with
    | None => Raise (step_not_found n)
    | Some source_step => Ok (query_key source_step)
    end
  else
    match last (steps m) with
    | None => Raise no_previous_steps
    | Some s => Ok (query_key s)
    end.

(** [sum(len(ls.get("ids", [])) for ls in linksets)] *)
Definition total_linked (result : LinkResult) : Z :=
  foldr (fun ls acc => (Z.of_nat (length (default [] (ids ls))) + acc)%Z) 0%Z
        (default [] (linksets result)).

(** [add_link_step(from_db, to_db, link_name, from_step)] *)
Definition add_link_step (c : Client) (from_db to_db : string)
           (link_name : option string) (from_step : option Z)
           (w : World) : Result PipelineStep * World :=
  let m := mgr w in
  if negb (truthy (web_env m)) then
    (Raise no_active_session, w)
  else
    match resolve_query_key m from_step with
    | Raise e => (Raise e, w)
    | Ok qk =>
        let request :=
          CallLink from_db to_db "neighbor_history" qk (web_env m)
                   (py_opt_str link_name) in
        let net1 := (net w ++ [request])%list in
        match link c (net w) from_db to_db "neighbor_history" qk (web_env m)
                   (py_opt_str link_name) with
        | Raise e => (Raise e, mkWorld m net1)
        | Ok result =>
            let new_query_key :=
              PyStr (str_of_int (Z.of_nat (length (steps m)) + 1)) in
            let counter := (_step_counter m + 1)%Z in
            let step := mkStep counter "link" to_db new_query_key
                               (PyInt (total_linked result))
                               {[ "from_db" := PyStr from_db;
                                  "link_name" := py_opt_str link_name;
                                  "from_step" := py_opt_int from_step ]} in
            (Ok step, mkWorld (mk (web_env m) (steps m ++ [step]) counter) net1)
        end
    end.

(** The dictionary [get_pipeline_summary()] returns.  Each entry of its
    ["steps"] list repeats the six fields of a step (the number under the
    key ["step"]), so the entries are kept as [PipelineStep]s. *)
Record Summary : Type := mkSummary {
  summary_web_env : PyVal;
  total_steps : Z;
  summary_steps : list PipelineStep;
  final_result_count : PyVal
}.

Definition get_pipeline_summary (m : t) : Summary :=
  mkSummary (web_env m)
            (Z.of_nat (length (steps m)))
            (steps m)
            (match last (steps m) with
             | Some s => result_count s
             | None => PyInt 0
             end).

(** [reset()] *)
Definition reset (m : t) : t := mk PyNone [] 0%Z.

(** A pipeline description: the calls a caller makes on one manager. *)
Inductive Call : Type :=
| StartSession (db query : string)
| AddSearchStep (db query : string) (combine_with : option string)
                (combine_operator : string)
| AddLinkStep (from_db to_db : string) (link_name : option string)
              (from_step : option Z).

Definition run_call (c : Client) (call : Call) (w : World)
  : Result PipelineStep * World :=
  match call with
  | StartSession db query => start_session c db query w
  | AddSearchStep db query cw op => add_search_step c db query cw op w
  | AddLinkStep from_db to_db ln fs => add_link_step c from_db to_db ln fs w
  end.

(** The calls in order, each on the state the previous one left; a call
    that raises leaves the manager to the next one as it is. *)
Fixpoint run_calls (c : Client) (calls : list Call) (w : World)
  : list (Result PipelineStep) * World :=
  match calls with
  | [] => ([], w)
  | call :: rest =>
      let '(r, w1) := run_call c call w in
      let '(rs, w2) := run_calls c rest w1 in
      (r :: rs, w2)
  end.

(** The steps the successful calls returned, in call order. *)
Definition returned (rs : list (Result PipelineStep)) : list PipelineStep :=
  omap (fun r => match r with Ok s => Some s | Raise _ => None end) rs.

Definition succeeded {A} (r : Result A) : bool :=
  match r with Ok _ => true | Raise _ => false end.

(** [1, 2, ..., n] *)
Definition one_to (n : nat) : list Z := Z.of_nat <$> seq 1 n.

(** The numbering discipline: the steps carry 1, 2, ... in list order and
    the counter is the number of steps. *)
Definition numbered (m : t) : Prop :=
  step_number <$> steps m = one_to (length (steps m)) /\
  _step_counter m = Z.of_nat (length (steps m)).

(** What a call that returned [r] did to the step list. *)
Definition appended (r : Result PipelineStep) (m m' : t) : Prop :=
  match r with
  | Ok step =>
      steps m' = (steps m ++ [step])%list /\
      step_number step = (_step_counter m + 1)%Z /\
      _step_counter m' = (_step_counter m + 1)%Z
  | Raise _ =>
      steps m' = steps m /\ _step_counter m' = _step_counter m
  end.

(** A client for examples: every search stores its result under the next
    query key of session ["ENV1"] and counts 500 records; every link
    finds three records. *)
Definition example_client : Client :=
  mkClient
    (fun history db query usehistory =>
       Ok {[ "web_env" := PyStr "ENV1";
             "query_key" := PyStr (str_of_int (Z.of_nat (length history) + 1));
             "count" := PyInt 500 ]})
    (fun history dbfrom db cmd query_key web_env linkname =>
       Ok (mkLinkResult (Some [mkLinkSet (Some ["11"; "12"; "13"])]))).

(** A client whose search answers with a session handle but no query key. *)
Definition keyless_client : Client :=
  mkClient
    (fun history db query usehistory => Ok {[ "web_env" := PyStr "ENV1" ]})
    (fun history dbfrom db cmd query_key web_env linkname =>
       Ok (mkLinkResult (Some []))).

End SessionManager.

(** * Further code of the same files *)

From Stdlib Require Import Qpower.

(** ** Callers' use of the limiter *)

Module Burst.
Import RateLimiter.

(** [k] calls of [acquire] one after the other while the clock reads
    [now]: the limiter afterwards and what each call slept. *)
Fixpoint acquire_all (k : nat) (l : t) (now : Q) : t * list (option Q) :=
  match k with
  | O => (l, [])
  | S k' =>
      let a := acquire l now in
      let '(l', naps) := acquire_all k' (after a) now in
      (l', slept a :: naps)
  end.

End Burst.

(** ** Reading the effect log of a request *)

Module RequestLog.
Import BaseClient.

(** The delays of the backoff waits, in order. *)
Definition retry_waits (w : World) : list Q :=
  omap (fun e => match e with EvRetryWait _ d => Some d | _ => None end) (trace w).

(** The outcomes after which the loop tries again while retries remain:
    429 when retrying on rate limits is enabled, any status from 500 up,
    a timeout, a request error. *)
Definition retryable (retry_on_rate_limit : bool) (o : Outcome) : bool :=
  match o with
  | Responded r =>
      if (status_code r =? 429)%Z then retry_on_rate_limit
      else (500 <=? status_code r)%Z
  | TimeoutException _ => true
  | RequestError _ => true
  end.

Definition network_error (message original_error : string) : Exn :=
  Instance "NetworkError"
           {[ "message" := PyStr message;
              "details" := PyNone;
              "original_error" := PyStr original_error ]}.

Definition max_retries_exceeded : Exn :=
  Instance "PubMedError"
           {[ "message" := PyStr "Max retries exceeded"; "details" := PyNone ]}.

End RequestLog.

(** ** src/utils/error_handler.py: [to_dict] *)

Module ErrorDict.
Import ErrorHandler.

Definition all_classes : list ErrClass :=
  [PubMedError; RateLimitError; InvalidQueryError; ArticleNotFoundError;
   ServiceUnavailableError; InvalidIDError; BatchSizeError; NetworkError].

(** The attributes each subclass adds to the dictionary when they are
    truthy, with the key they go under, in the order of its [to_dict]. *)
Definition own_fields (c : ErrClass) : list (string * string) :=
  match c with
  | PubMedError => []
  | RateLimitError => [("retry_after", "retry_after_seconds")]
  | InvalidQueryError => [("query", "query"); ("suggestion", "suggestion")]
  | ArticleNotFoundError => [("identifier", "identifier"); ("id_type", "id_type")]
  | ServiceUnavailableError => [("retry_after", "retry_after_seconds")]
  | InvalidIDError =>
      [("identifier", "identifier"); ("expected_format", "expected_format")]
  | BatchSizeError => [("requested_size", "requested_size"); ("max_size", "max_size")]
  | NetworkError => [("original_error", "original_error")]
  end.

(** [PubMedError.to_dict] *)
Definition base_to_dict (c : ErrClass) (attrs : gmap string PyVal)
  : gmap string PyVal :=
  let result : gmap string PyVal :=
    {[ "error" := PyStr (class_name c);
       "message" := dict_get attrs "message" PyNone ]} in
  if truthy (dict_get attrs "details" PyNone)
  then <["details" := dict_get attrs "details" PyNone]> result
  else result.

(** [to_dict] of class [c] on an instance with attributes [attrs]: the
    base dictionary, then one [if self.x: result[key] = self.x] per own
    field. *)
Definition to_dict (c : ErrClass) (attrs : gmap string PyVal)
  : gmap string PyVal :=
  foldl (fun result '(attr, key) =>
           if truthy (dict_get attrs attr PyNone)
           then <[key := dict_get attrs attr PyNone]> result
           else result)
        (base_to_dict c attrs) (own_fields c).

End ErrorDict.

(** ** src/config.py and src/clients/base.py: construction and parameters *)

Module ClientSetup.

(** The configuration values that come from the environment. *)
Record Config : Type := mkConfig {
  NCBI_API_KEY : option string;
  TOOL_NAME : string;
  TOOL_EMAIL : string
}.

(** The constants of [Config]. *)
Definition MAX_RETRIES : Z := 3.
Definition RETRY_BACKOFF_FACTOR : Q := 3 # 2.
Definition MAX_SEARCH_RESULTS : Z := 10000.

(** [a or b] on optional strings. *)
Definition py_or (a b : option string) : option string :=
  if truthy (SessionManager.py_opt_str a) then a else b.

(** The attributes [BaseClient.__init__] sets that the request path
    reads. *)
Record Client : Type := mkClient {
  api_key : option string;
  rate_limiter : RateLimiter.t;
  retry_handler : RetryHandler.t
}.

(** [BaseClient(base_url, api_key, timeout)], created when the clock
    reads [now]. *)
Definition init (cfg : Config) (key : option string) (now : Q) : Client :=
  let effective := py_or key (NCBI_API_KEY cfg) in
  let rate_limit := if truthy (SessionManager.py_opt_str effective)
                    then 10%Z else 3%Z in
  mkClient effective
           (RateLimiter.init rate_limit 1 now)
           (RetryHandler.mk MAX_RETRIES 1 RETRY_BACKOFF_FACTOR 60).

(** A keyword argument of [get]/[post]: a value or a list of values. *)
Inductive Arg : Type :=
| ArgVal (v : PyVal)
| ArgList (items : list PyVal).

Section Params.
(** The builtin [str] on floats. *)
Variable str_of_float : Q -> string.

(** [str(v)] *)
Definition py_str (v : PyVal) : string :=
  match v with
  | PyNone => "None"
  | PyBool true => "True"
  | PyBool false => "False"
  | PyInt z => str_of_int z
  | PyFloat q => str_of_float q
  | PyStr s => s
  end.

(** [sep.join(parts)] *)
Fixpoint join (sep : string) (parts : list string) : string :=
  match parts with
  | [] => ""
  | [p] => p
  | p :: rest => p ++ sep ++ join sep rest
  end.

(** One turn of the loop of [_build_params], lines 98-105. *)
Definition add_param (params : gmap string string) (kv : string * Arg)
  : gmap string string :=
  match snd kv with
  | ArgVal PyNone => params
  | ArgVal (PyBool b) => <[fst kv := if b then "y" else "n"]> params
  | ArgVal v => <[fst kv := py_str v]> params
  | ArgList items => <[fst kv := join "," (py_str <$> items)]> params
  end.

(** [_build_params] on the keyword arguments in call order. *)
Definition _build_params (cfg : Config) (c : Client)
           (kwargs : list (string * Arg)) : gmap string string :=
  let params : gmap string string :=
    {[ "tool" := TOOL_NAME cfg; "email" := TOOL_EMAIL cfg ]} in
  let params :=
    match api_key c with
    | Some k => if truthy (PyStr k) then <["api_key" := k]> params else params
    | None => params
    end in
  foldl add_param params kwargs.

End Params.

(** What a keyword argument is sent as, if it is sent. *)
Definition rendered (str_of_float : Q -> string) (a : Arg) : option string :=
  match a with
  | ArgVal PyNone => None
  | ArgVal (PyBool b) => Some (if b then "y" else "n")
  | ArgVal v => Some (py_str str_of_float v)
  | ArgList items => Some (join "," (py_str str_of_float <$> items))
  end.

End ClientSetup.

(** ** src/clients/eutilities.py: the keyword arguments handed to [get] *)

Module EUtilities.
Import ClientSetup.

Definition opt_arg (name : string) (o : option string) : list (string * Arg) :=
  if truthy (SessionManager.py_opt_str o)
  then [(name, ArgVal (SessionManager.py_opt_str o))]
  else [].

(** [search]: the [params] dictionary of lines 78-92, in insertion
    order. *)
Definition search_kwargs (db query : string) (retmax retstart : Z)
           (sort : string) (usehistory : bool) (rettype : string)
           (datetype mindate maxdate : option string) : list (string * Arg) :=
  [ ("db", ArgVal (PyStr db));
    ("term", ArgVal (PyStr query));
    ("retmax", ArgVal (PyInt (Z.min retmax MAX_SEARCH_RESULTS)));
    ("retstart", ArgVal (PyInt retstart));
    ("sort", ArgVal (PyStr sort));
    ("usehistory", ArgVal (PyBool usehistory));
    ("retmode", ArgVal (PyStr rettype)) ]
  ++ opt_arg "datetype" datetype
  ++ opt_arg "mindate" mindate
  ++ opt_arg "maxdate" maxdate.

(** [if ids:] on an optional list *)
Definition has_ids (ids : option (list string)) : bool :=
  match ids with
  | Some (_ :: _) => true
  | _ => false
  end.

(** The source of a fetch or link: explicit ids first, else the history
    reference when both of its parts are truthy. *)
Definition source_kwargs (ids : option (list string)) (query_key web_env : PyVal)
  : option (list (string * Arg)) :=
  if has_ids ids then
    Some [("id", ArgVal (PyStr (join "," (default [] ids))))]
  else if truthy query_key && truthy web_env then
    Some [("query_key", ArgVal query_key); ("WebEnv", ArgVal web_env)]
  else None.

(** [fetch]: lines 270-283; it raises before any request when it has no
    source. *)
Definition fetch_kwargs (db : string) (ids : option (list string))
           (rettype retmode : string) (query_key web_env : PyVal)
           (retmax retstart : Z) : Result (list (string * Arg)) :=
  let params := [ ("db", ArgVal (PyStr db));
                  ("rettype", ArgVal (PyStr rettype));
                  ("retmode", ArgVal (PyStr retmode));
                  ("retmax", ArgVal (PyInt retmax));
                  ("retstart", ArgVal (PyInt retstart)) ] in
  match source_kwargs ids query_key web_env with
  | Some source => Ok (params ++ source)%list
  | None => Raise (ValueError "Either ids or query_key/web_env must be provided")
  end.

(** [link]: lines 350-364; without a source it goes on all the same. *)
Definition link_kwargs (dbfrom db : string) (ids : option (list string))
           (cmd : string) (linkname : option string)
           (query_key web_env : PyVal) (retmode : string)
  : list (string * Arg) :=
  [ ("dbfrom", ArgVal (PyStr dbfrom));
    ("db", ArgVal (PyStr db));
    ("cmd", ArgVal (PyStr cmd));
    ("retmode", ArgVal (PyStr retmode)) ]
  ++ default [] (source_kwargs ids query_key web_env)
  ++ opt_arg "linkname" linkname.

Section Sent.
Variable str_of_float : Q -> string.
Variable cfg : Config.
Variable c : Client.

(** The query parameters of the request each method makes. *)
Definition search_params db query retmax retstart sort usehistory rettype
           datetype mindate maxdate : gmap string string :=
  _build_params str_of_float cfg c
                (search_kwargs db query retmax retstart sort usehistory rettype
                               datetype mindate maxdate).

Definition fetch_params db ids rettype retmode query_key web_env retmax retstart
  : Result (gmap string string) :=
  kwargs ← fetch_kwargs db ids rettype retmode query_key web_env retmax retstart;
  Ok (_build_params str_of_float cfg c kwargs).

Definition link_params dbfrom db ids cmd linkname query_key web_env retmode
  : gmap string string :=
  _build_params str_of_float cfg c
                (link_kwargs dbfrom db ids cmd linkname query_key web_env retmode).

End Sent.

End EUtilities.

(** ** src/clients/session_manager.py: [fetch_results] *)

Module SessionFetch.
Import ErrorHandler SessionManager.

(** The keyword arguments of the [client.fetch] call. *)
Record FetchRequest : Type := mkFetchRequest {
  fetch_db : string;
  fetch_query_key : PyVal;
  fetch_web_env : PyVal;
  fetch_retmax : Z;
  fetch_retstart : Z;
  fetch_rettype : string;
  fetch_retmode : string
}.

Definition no_steps : Exn :=
  BaseClient.raised (new PubMedError [("message", PyStr "No steps in pipeline")]).

Definition cannot_fetch : Exn :=
  BaseClient.raised
    (new PubMedError [("message", PyStr "Cannot fetch: no active session")]).

(** The step to fetch from: lines 259-274. *)
Definition resolve_step (m : t) (step : option Z) : Result PipelineStep :=
  if truthy (py_opt_int step) then
    let n := default 0%Z step in
    match List.find (fun s => (step_number s =? n)%Z) (steps m) with
    | None => Raise (step_not_found n)
    | Some source_step => Ok source_step
    end
  else
    match last (steps m) with
    | None => Raise no_steps
    | Some s => Ok s
    end.

(** [fetch_results(step, retmax, retstart, rettype, retmode)] with the
    client's [fetch] as [fetch]: the result, and the calls made on the
    client. *)
Definition fetch_results (fetch : FetchRequest -> Result string) (m : t)
           (step : option Z) (retmax retstart : Z) (rettype retmode : string)
  : Result string * list FetchRequest :=
  if negb (truthy (web_env m)) then (Raise cannot_fetch, [])
  else
    match resolve_step m step with
    | Raise e => (Raise e, [])
    | Ok source_step =>
        let request :=
          mkFetchRequest (database source_step) (query_key source_step)
                         (web_env m) retmax retstart rettype retmode in
        (fetch request, [request])
    end.

(** The keyword arguments [EUtilitiesClient.fetch] derives from such a
    call (it is called without ids). *)
Definition client_fetch_kwargs (request : FetchRequest)
  : Result (list (string * ClientSetup.Arg)) :=
  EUtilities.fetch_kwargs (fetch_db request) None
                          (fetch_rettype request) (fetch_retmode request)
                          (fetch_query_key request) (fetch_web_env request)
                          (fetch_retmax request) (fetch_retstart request).

(** The keyword arguments [EUtilitiesClient.link] derives from a call
    logged by [add_link_step]. *)
Definition client_link_kwargs (call : NetCall)
  : option (list (string * ClientSetup.Arg)) :=
  match call with
  | CallLink dbfrom db cmd query_key web_env linkname =>
      Some (EUtilities.link_kwargs
              dbfrom db None cmd
              (match linkname with PyStr s => Some s | _ => None end)
              query_key web_env "json")
  | CallSearch _ _ _ => None
  end.

(** The manager after [calls], a [reset] and [more] calls. *)
Definition run_reset_run (c : Client) (calls more : list Call) : World :=
  let w := (run_calls c calls fresh).2 in
  (run_calls c more (mkWorld (reset (mgr w)) (net w))).2.

End SessionFetch.

(** * Properties *)

(** ** Arithmetic of the two builtins *)

Lemma py_min_Qmin (a b : Q) : py_min a b = Qmin a b.
Proof.
  unfold py_min, Qmin, GenericMinMax.gmin.
  destruct (Qlt_le_dec b a) as [Hlt | Hle].
  - apply Qgt_alt in Hlt. now rewrite Hlt.
  - destruct (a ?= b) eqn:Hc; try reflexivity.
    apply Qgt_alt in Hc. exfalso. apply (Qlt_irrefl b). eapply Qlt_le_trans; eauto.
Qed.

Lemma py_div_ok (a b : Q) : ~ b == 0 -> py_div a b = Ok (a / b).
Proof.
  intros Hb. unfold py_div.
  destruct (Qeq_bool b 0) eqn:E; [|reflexivity].
  apply Qeq_bool_iff in E. contradiction.
Qed.


Lemma inject_Z_nonzero (z : Z) : z <> 0%Z -> ~ inject_Z z == 0.
Proof.
  intros Hz H. apply Hz. unfold Qeq in H. simpl in H. lia.
Qed.

(** ** The token bucket *)

Module RateLimiterFacts.
Import RateLimiter.

Lemma acquire_result (l : t) (now : Q) :
  configured l -> result (acquire l now) = Ok tt.
Proof.
  intros [HC HW]. unfold acquire.
  rewrite (py_div_ok _ _ HW).
  rewrite (py_div_ok _ _ (inject_Z_nonzero _ HC)).
  destruct (Qlt_le_dec _ 1); reflexivity.
Qed.

Lemma acquire_config (l : t) (now : Q) :
  max_requests (after (acquire l now)) = max_requests l /\
  window (after (acquire l now)) = window l.
Proof.
  unfold acquire.
  destruct (py_div (inject_Z (max_requests l)) (window l)); [|auto].
  destruct (Qlt_le_dec _ 1); [|auto].
  destruct (py_div (window l) _); auto.
Qed.

Lemma acquire_configured (l : t) (now : Q) :
  configured l -> configured (after (acquire l now)).
Proof.
  unfold configured. destruct (acquire_config l now) as [-> ->]. auto.
Qed.

Lemma acquire_last_update (l : t) (now : Q) :
  configured l -> last_update (after (acquire l now)) = now.
Proof.
  intros [HC HW]. unfold acquire.
  rewrite (py_div_ok _ _ HW).
  rewrite (py_div_ok _ _ (inject_Z_nonzero _ HC)).
  destruct (Qlt_le_dec _ 1); reflexivity.
Qed.



(** The source's refill expression is the specification's. *)
Lemma refill_spec (l : t) (now : Q) :
  ~ window l == 0 ->
  py_min (inject_Z (max_requests l))
         (tokens l + (now - last_update l) * (inject_Z (max_requests l) / window l))
  == spec_refill (inject_Z (max_requests l)) (window l)
                 (tokens l) (last_update l) now.
Proof.
  intros HW. rewrite py_min_Qmin. unfold spec_refill.
  apply Q.min_compat; [reflexivity|]. field. exact HW.
Qed.

End RateLimiterFacts.

Module RateLimiterSpec.
Import RateLimiter RateLimiterFacts.

(** On a configured limiter [acquire] takes one unit, as the
    specification describes it. *)
Lemma acquire_took_one_unit (l : t) (now : Q) :
  configured l ->
  took_one_unit l now (slept (acquire l now)) (after (acquire l now)).
Proof.
  intros [HC HW]. unfold took_one_unit.
  set (C := inject_Z (max_requests l)). set (W := window l).
  set (available := spec_refill C W (tokens l) (last_update l) now).
  pose proof (inject_Z_nonzero _ HC) as HC'.
  pose proof (refill_spec l now HW) as Hre.
  fold C W available in Hre.
  unfold acquire.
  rewrite (py_div_ok _ _ HW), (py_div_ok _ _ HC'). fold C W.
  set (refilled := py_min C _) in *.
  destruct (Qlt_le_dec refilled 1) as [Hlt | Hge]; cbn.
  - do 3 (split; [reflexivity|]). split.
    + intros _. split; [reflexivity|].
      exists ((1 - refilled) * (W / C)). split; [reflexivity|].
      unfold spec_wait. rewrite <- Hre. field. exact HC'.
    + intros Hn. exfalso. apply Hn. now rewrite <- Hre.
  - do 3 (split; [reflexivity|]). split.
    + intros Hlt. exfalso. rewrite <- Hre in Hlt. apply (Qlt_irrefl 1).
      eapply Qle_lt_trans; eauto.
    + intros _. split; [|reflexivity]. now rewrite Hre.
Qed.




End RateLimiterSpec.

(** ** The retry schedule *)

Module RetryHandlerSpec.
Import RetryHandler.

Lemma py_pow_in_range (b : Q) (n : nat) :
  in_double_range (b ^ Z.of_nat n) -> py_pow b n = Ok (b ^ Z.of_nat n).
Proof.
  intros Hr. unfold py_pow, in_double_range in *.
  destruct (Qlt_le_dec _ double_overflow) as [_ | Hge]; [reflexivity|].
  exfalso. apply (Qlt_irrefl double_overflow). eapply Qle_lt_trans; eauto.
Qed.

Lemma py_pow_overflow (b : Q) (n : nat) :
  ~ in_double_range (b ^ Z.of_nat n) -> py_pow b n = Raise OverflowError.
Proof.
  intros Hr. unfold py_pow, in_double_range in *.
  destruct (Qlt_le_dec _ double_overflow) as [Hlt | _]; [contradiction|reflexivity].
Qed.

Lemma get_delay_in_range (h : t) (attempt : nat) :
  in_double_range (backoff_factor h ^ Z.of_nat attempt) ->
  get_delay h attempt
  = Ok (spec_delay (base_delay h) (backoff_factor h) (max_delay h) attempt).
Proof.
  intros Hr. unfold get_delay. rewrite (py_pow_in_range _ _ Hr).
  unfold spec_delay. cbn. now rewrite py_min_Qmin.
Qed.

Lemma get_delay_overflow (h : t) (attempt : nat) :
  ~ in_double_range (backoff_factor h ^ Z.of_nat attempt) ->
  get_delay h attempt = Raise OverflowError.
Proof.
  intros Hr. unfold get_delay. now rewrite (py_pow_overflow _ _ Hr).
Qed.




End RetryHandlerSpec.

(** ** The refill invariant *)

Module RateLimiterInvariant.
Import RateLimiter RateLimiterFacts.

Lemma inject_Z_pos (z : Z) : (0 < z)%Z -> 0 < inject_Z z.
Proof. intros Hz. unfold Qlt. simpl. lia. Qed.

Lemma rate_pos (C W : Q) : 0 < C -> 0 < W -> 0 < C / W.
Proof. intros HC HW. apply Qlt_shift_div_l; [exact HW | lra]. Qed.

Lemma grow_nonneg (tok dt rate : Q) :
  0 <= tok -> 0 <= dt -> 0 < rate -> 0 <= tok + dt * rate.
Proof.
  intros Ht Hd Hr.
  assert (0 <= dt * rate) by (apply Qmult_le_0_compat; lra). lra.
Qed.

Lemma inv_configured (W : Q) (l : t) (now : Q) :
  0 < W -> inv W l now -> configured l.
Proof.
  intros HW (HC & Hw & _). split; [lia|]. rewrite Hw. lra.
Qed.

(** The value a refill computes lies between 0 and the capacity. *)
Lemma refill_bounds (W : Q) (l : t) (now T : Q) :
  0 < W -> inv W l now -> now <= T ->
  let C := inject_Z (max_requests l) in
  0 <= py_min C (tokens l + (T - last_update l) * (C / window l)) <= C.
Proof.
  intros HW (HC & Hw & Ht & Hl) HT C. rewrite Hw, py_min_Qmin.
  pose proof (inject_Z_pos _ HC) as HC'. fold C in HC'.
  pose proof (rate_pos C W HC' HW) as Hr.
  split.
  - apply Q.min_glb; [lra|]. apply grow_nonneg; lra.
  - apply Q.le_min_l.
Qed.

(** Later readings of the clock give no smaller refill. *)
Lemma refill_mono (W : Q) (l : t) (now T1 T2 : Q) :
  0 < W -> inv W l now -> now <= T1 -> T1 <= T2 ->
  let C := inject_Z (max_requests l) in
  py_min C (tokens l + (T1 - last_update l) * (C / window l))
  <= py_min C (tokens l + (T2 - last_update l) * (C / window l)).
Proof.
  intros HW (HC & Hw & Ht & Hl) H1 H2 C. rewrite Hw, !py_min_Qmin.
  pose proof (inject_Z_pos _ HC) as HC'. fold C in HC'.
  pose proof (rate_pos C W HC' HW) as Hr.
  apply Q.min_le_compat_l.
  assert ((T1 - last_update l) * (C / W) <= (T2 - last_update l) * (C / W)).
  { apply Qmult_le_compat_r; lra. }
  lra.
Qed.

Lemma acquire_tokens_nonneg (W : Q) (l : t) (now T : Q) :
  0 < W -> inv W l now -> now <= T ->
  0 <= tokens (after (acquire l T)) <= inject_Z (max_requests l).
Proof.
  intros HW Hinv HT.
  pose proof (refill_bounds W l now T HW Hinv HT) as Hb. cbv zeta in Hb.
  pose proof (inv_configured W l now HW Hinv) as [HC Hw0].
  destruct Hinv as (HCpos & _).
  pose proof (inject_Z_pos _ HCpos) as HC'.
  unfold acquire.
  rewrite (py_div_ok _ _ Hw0), (py_div_ok _ _ (inject_Z_nonzero _ HC)).
  destruct (Qlt_le_dec _ 1) as [Hlt | Hge]; cbn; lra.
Qed.

Lemma reachable_inv (C0 : Z) (W : Q) (l : t) (now : Q) :
  (0 < C0)%Z -> 0 < W -> reachable C0 W l now -> inv W l now.
Proof.
  intros HC0 HW Hr. induction Hr as [now | l now now' _ IH Hle | l now _ IH | l now c _ IH Hc].
  - unfold inv, init; cbn. repeat split; try lra; try assumption.
    apply Qlt_le_weak, inject_Z_pos, HC0.
  - destruct IH as (? & ? & ? & ?). repeat split; try assumption. lra.
  - pose proof (acquire_tokens_nonneg W l now now HW IH (Qle_refl _)) as [Ht _].
    pose proof (inv_configured W l now HW IH) as Hcfg.
    destruct (acquire_config l now) as [Hm Hw].
    destruct IH as (HC & HwW & _ & Hl).
    unfold inv. rewrite Hm, Hw.
    rewrite (acquire_last_update l now Hcfg).
    repeat split; try assumption.
    assert (0 <= match slept (acquire l now) with
                 | Some d => Qmax 0 d
                 | None => 0
                 end).
    { destruct (slept (acquire l now)); [apply Q.le_max_l | lra]. }
    lra.
  - destruct IH as (? & ? & ? & ?). unfold inv, update_limit; cbn. auto.
Qed.

(** C6.  For a limiter created with positive capacity and window, in
    every state it can reach and at every later reading [T] of the
    monotonic clock: the refilled value ([available_tokens], which is
    also what [acquire] starts from) lies between 0 and the capacity, and
    so does the count [acquire] leaves behind; and with no acquisition in
    between, the value read at [T2 > T1] is at least the value read at
    [T1] and at most the capacity. *)
Theorem refill_bounded_and_monotone (C0 : Z) (W : Q) (l : t) (now : Q) :
  (0 < C0)%Z -> 0 < W -> reachable C0 W l now ->
  let C := inject_Z (max_requests l) in
  (forall T, now <= T ->
     exists v, available_tokens l T = Ok v /\ 0 <= v <= C) /\
  (forall T, now <= T ->
     0 <= tokens (after (acquire l T)) <= C) /\
  (forall T1 T2, now <= T1 -> T1 < T2 ->
     exists v1 v2,
       available_tokens l T1 = Ok v1 /\ available_tokens l T2 = Ok v2 /\
       v1 <= v2 /\ v2 <= C).
Proof.
  intros HC0 HW Hr C.
  pose proof (reachable_inv C0 W l now HC0 HW Hr) as Hinv.
  pose proof (inv_configured W l now HW Hinv) as [_ Hw0].
  assert (Hav : forall T,
             available_tokens l T
             = Ok (py_min C (tokens l + (T - last_update l) * (C / window l)))).
  { intros T. unfold available_tokens. now rewrite (py_div_ok _ _ Hw0). }
  split; [|split].
  - intros T HT. eexists. split; [apply Hav|].
    exact (refill_bounds W l now T HW Hinv HT).
  - intros T HT. exact (acquire_tokens_nonneg W l now T HW Hinv HT).
  - intros T1 T2 H1 H2. do 2 eexists.
    split; [apply Hav|]. split; [apply Hav|]. split.
    + apply (refill_mono W l now T1 T2 HW Hinv H1). lra.
    + apply (refill_bounds W l now T2 HW Hinv). lra.
Qed.

(** A three-per-second limiter after one [acquire] at time 0: two tokens
    are left, a quarter of a second later the refill reads 11/4, and the
    bucket is full again from one third of a second on. *)
Lemma refill_bounded_and_monotone_witness :
  (0 < 3)%Z /\ 0 < 1 /\
  reachable 3 1 (after (acquire (init 3 1 0) 0)) (0 + 0) /\
  exists v1 v2,
    available_tokens (after (acquire (init 3 1 0) 0)) (1 # 4) = Ok v1 /\
    available_tokens (after (acquire (init 3 1 0) 0)) (1 # 2) = Ok v2 /\
    v1 <= v2 /\ v2 <= 3.
Proof.
  assert (Hr : reachable 3 1 (after (acquire (init 3 1 0) 0)) (0 + 0)).
  { exact (reach_acquire 3 1 (init 3 1 0) 0 (reach_init 3 1 0)). }
  split; [reflexivity|]. split; [reflexivity|]. split; [exact Hr|].
  destruct (refill_bounded_and_monotone 3 1 _ _ eq_refl eq_refl Hr)
    as (_ & _ & Hmono).
  apply (Hmono (1 # 4) (1 # 2)); reflexivity || discriminate.
Defined.

End RateLimiterInvariant.

(** ** The status table *)

Module ErrorHandlerFacts.
Import ErrorHandler BaseClient.

(** The first entry of the table passes [details] to a constructor that
    does not take it, so no call of the function returns. *)
Lemma map_http_status_to_error_raises (status_code : Z) (response_text : PyVal) :
  map_http_status_to_error status_code response_text = Raise unexpected_details.
Proof. reflexivity. Qed.

Lemma new_service_unavailable (status : Z) :
  new ServiceUnavailableError
      [("message", PyStr ("Server error: " ++ str_of_int status));
       ("retry_after", PyFloat 60)]
  = Ok (service_unavailable status).
Proof. vm_compute. reflexivity. Qed.

Lemma new_rate_limit_exceeded (q : Q) :
  new RateLimitError
      [("message", PyStr "Rate limit exceeded after retries");
       ("retry_after", PyFloat q)]
  = Ok (rate_limit_exceeded q).
Proof. vm_compute. reflexivity. Qed.

End ErrorHandlerFacts.

(** ** The request loop *)

Module BaseClientFacts.
Import ErrorHandler BaseClient ErrorHandlerFacts.
Import RateLimiter RateLimiterFacts.

Section Loop.
Variable float_of_str : string -> option Q.
Variable monotonic : nat -> Q.
Variable send : nat -> Outcome.
Variable h : RetryHandler.t.
Variable retry_on_rate_limit : bool.

Local Abbreviation attempt_once :=
  (attempt_once float_of_str monotonic send h retry_on_rate_limit).
Local Abbreviation classify :=
  (classify float_of_str h retry_on_rate_limit).
Local Abbreviation sent := (sent monotonic).

Lemma sent_configured (attempt : nat) (w : World) :
  configured (rate_limiter w) -> configured (rate_limiter (sent attempt w)).
Proof. intros Hc. cbn. now apply acquire_configured. Qed.

Lemma sent_took_one_unit (attempt : nat) (w : World) :
  configured (rate_limiter w) ->
  took_one_unit (rate_limiter w) (monotonic attempt)
                (slept (acquire (rate_limiter w) (monotonic attempt)))
                (rate_limiter (sent attempt w)).
Proof. intros Hc. now apply RateLimiterSpec.acquire_took_one_unit. Qed.

Lemma sent_trace (attempt : nat) (w : World) :
  trace (sent attempt w)
  = (trace w ++ [EvAcquire (slept (acquire (rate_limiter w) (monotonic attempt)));
                 EvHttp attempt])%list.
Proof. cbn. now rewrite <- app_assoc. Qed.

(** With a configured limiter an attempt always gets as far as its
    HTTP call. *)
Lemma attempt_once_sent (attempt : nat) (w : World) :
  configured (rate_limiter w) ->
  attempt_once attempt w
  = match send attempt with
    | Responded response => classify attempt response (sent attempt w)
    | TimeoutException e =>
        if retries_remain h attempt then backoff h attempt (sent attempt w)
        else (raise (new NetworkError
                         [("message", PyStr "Request timed out");
                          ("original_error", PyStr e)]), sent attempt w)
    | RequestError e =>
        if retries_remain h attempt then backoff h attempt (sent attempt w)
        else (raise (new NetworkError
                         [("message", PyStr "Network request failed");
                          ("original_error", PyStr e)]), sent attempt w)
    end.
Proof.
  intros Hc. unfold BaseClient.attempt_once.
  now rewrite (acquire_result _ (monotonic attempt) Hc).
Qed.

Lemma classify_client_error (attempt : nat) (r : Response) (w : World) :
  (400 <= status_code r < 500)%Z -> status_code r <> 429%Z ->
  classify attempt r w = (Fail unexpected_details, w).
Proof.
  intros Hr Hn. unfold BaseClient.classify.
  destruct (Z.eqb_spec (status_code r) 429); [contradiction|].
  destruct (Z.leb_spec 500 (status_code r)); [lia|].
  destruct (Z.leb_spec 400 (status_code r)); [|lia].
  reflexivity.
Qed.

Lemma classify_server_error (attempt : nat) (r : Response) (w : World) :
  (500 <= status_code r)%Z ->
  classify attempt r w
  = if retries_remain h attempt
    then backoff h attempt w
    else (Fail (service_unavailable (status_code r)), w).
Proof.
  intros Hr. unfold BaseClient.classify.
  destruct (Z.eqb_spec (status_code r) 429); [lia|].
  destruct (Z.leb_spec 500 (status_code r)); [|lia].
  destruct (retries_remain h attempt); [reflexivity|].
  now rewrite new_service_unavailable.
Qed.

Lemma classify_rate_limited (attempt : nat) (r : Response) (w : World) :
  status_code r = 429%Z ->
  classify attempt r w
  = if retry_on_rate_limit && retries_remain h attempt
    then backoff h attempt w
    else (Fail (raised (retry_after ← retry_after_of float_of_str r;
                        new RateLimitError
                            [("message", PyStr "Rate limit exceeded after retries");
                             ("retry_after", PyFloat retry_after)])), w).
Proof.
  intros Hr. unfold BaseClient.classify. rewrite Hr. reflexivity.
Qed.

Lemma log_trace (w : World) (e : Event) :
  trace (log w e) = (trace w ++ [e])%list.
Proof. reflexivity. Qed.

Lemma log_configured (w : World) (e : Event) :
  configured (rate_limiter w) -> configured (rate_limiter (log w e)).
Proof. intros Hc. exact Hc. Qed.

(** One attempt against a server answering 503. *)
Lemma attempt_once_503 (attempt : nat) (w : World) :
  configured (rate_limiter w) ->
  (exists r, send attempt = Responded r /\ status_code r = 503%Z) ->
  attempt_once attempt w
  = if retries_remain h attempt
    then backoff h attempt (sent attempt w)
    else (Fail (service_unavailable 503), sent attempt w).
Proof.
  intros Hc (r & Hs & Hr).
  rewrite (attempt_once_sent _ _ Hc), Hs.
  rewrite classify_server_error by lia. now rewrite Hr.
Qed.

(** A [Retry-After] value that [float] rejects surfaces as
    [ValueError] when the terminal error is built. *)
Lemma classify_rate_limited_bad_header (attempt : nat) (r : Response)
      (w : World) (s : string) :
  status_code r = 429%Z ->
  retry_on_rate_limit && retries_remain h attempt = false ->
  headers_get (headers r) "Retry-After" = Some s ->
  float_of_str s = None ->
  classify attempt r w = (Fail (ValueError s), w).
Proof.
  intros Hr Hn Hh Hf. rewrite (classify_rate_limited _ _ _ Hr), Hn.
  unfold retry_after_of. now rewrite Hh, Hf.
Qed.

Local Abbreviation request_loop :=
  (request_loop float_of_str monotonic send h retry_on_rate_limit).

Lemma backoff_waits (attempt : nat) (w : World) (delay : Q) :
  RetryHandler.get_delay h attempt = Ok delay ->
  backoff h attempt w = (Continue, log w (EvRetryWait attempt delay)).
Proof. intros Hd. unfold backoff, RetryHandler.wait. now rewrite Hd. Qed.

Lemma backoff_raises (attempt : nat) (w : World) (e : Exn) :
  RetryHandler.get_delay h attempt = Raise e ->
  backoff h attempt w = (Fail e, w).
Proof. intros Hd. unfold backoff, RetryHandler.wait. now rewrite Hd. Qed.

Lemma request_loop_503_retry (remaining attempt : nat) (w : World) (delay : Q) :
  configured (rate_limiter w) ->
  (exists r, send attempt = Responded r /\ status_code r = 503%Z) ->
  retries_remain h attempt = true ->
  RetryHandler.get_delay h attempt = Ok delay ->
  request_loop (S remaining) attempt w
  = request_loop remaining (S attempt)
                 (log (sent attempt w) (EvRetryWait attempt delay)).
Proof.
  intros Hc Hs Hr Hd. cbn [BaseClient.request_loop].
  now rewrite (attempt_once_503 _ _ Hc Hs), Hr, (backoff_waits _ _ _ Hd).
Qed.

Lemma request_loop_503_last (remaining attempt : nat) (w : World) :
  configured (rate_limiter w) ->
  (exists r, send attempt = Responded r /\ status_code r = 503%Z) ->
  retries_remain h attempt = false ->
  request_loop (S remaining) attempt w
  = (Raise (service_unavailable 503), sent attempt w).
Proof.
  intros Hc Hs Hr. cbn [BaseClient.request_loop].
  now rewrite (attempt_once_503 _ _ Hc Hs), Hr.
Qed.

Lemma http_attempts_sent (attempt : nat) (w : World) :
  http_attempts (sent attempt w) = S (http_attempts w).
Proof.
  unfold http_attempts. rewrite sent_trace, List.filter_app, length_app.
  cbn. lia.
Qed.

Lemma http_attempts_log_wait (attempt : nat) (d : Q) (w : World) :
  http_attempts (log w (EvRetryWait attempt d)) = http_attempts w.
Proof.
  unfold http_attempts. rewrite log_trace, List.filter_app, length_app.
  cbn. lia.
Qed.

(** Against a server that always answers 503 the loop uses every
    iteration it has, as long as its delays can be computed:
    [max_retries + 1] calls in all. *)
Lemma request_loop_503_count (remaining attempt : nat) (w : World) :
  configured (rate_limiter w) ->
  (forall i, exists r, send i = Responded r /\ status_code r = 503%Z) ->
  (forall i, (Z.of_nat i < RetryHandler.max_retries h)%Z ->
             exists delay, RetryHandler.get_delay h i = Ok delay) ->
  (Z.of_nat attempt + Z.of_nat (S remaining)
   = RetryHandler.max_retries h + 1)%Z ->
  exists w',
    request_loop (S remaining) attempt w = (Raise (service_unavailable 503), w') /\
    http_attempts w' = (http_attempts w + S remaining)%nat.
Proof.
  intros Hc H503 Hdelay. revert attempt w Hc.
  induction remaining as [|k IH]; intros attempt w Hc Hsum.
  - exists (sent attempt w). split.
    + apply request_loop_503_last; [exact Hc | apply H503 |].
      unfold retries_remain. apply Z.ltb_ge. lia.
    + rewrite http_attempts_sent. lia.
  - destruct (Hdelay attempt ltac:(lia)) as (delay & Hd).
    rewrite (request_loop_503_retry _ _ _ delay); [| exact Hc | apply H503 | | exact Hd].
    + destruct (IH (S attempt) (log (sent attempt w) (EvRetryWait attempt delay)))
        as (w' & Hrun & Hn).
      * apply log_configured, sent_configured, Hc.
      * lia.
      * exists w'. split; [exact Hrun|].
        rewrite Hn, http_attempts_log_wait, http_attempts_sent. lia.
    + unfold retries_remain. apply Z.ltb_lt. lia.
Qed.

End Loop.

End BaseClientFacts.

Module RequestCoreSpec.
Import ErrorHandler BaseClient ErrorHandlerFacts BaseClientFacts.
Import RateLimiter RateLimiterFacts.

(** C1 (what the code does).  A response with a status from 400 to 499
    other than 429 ends [_request] on its first occurrence, after
    exactly one attempt and without any retry wait, but not with an
    error chosen by status: building the status table raises
    [TypeError], whatever the status and the body, and that is what
    [_request] raises. *)
Theorem client_error_raises_type_error
        (float_of_str : string -> option Q) (monotonic : nat -> Q)
        (send : nat -> Outcome) (h : RetryHandler.t)
        (retry_on_rate_limit : bool) (w : World) (r : Response) :
  configured (rate_limiter w) ->
  (0 <= RetryHandler.max_retries h)%Z ->
  send O = Responded r ->
  (400 <= status_code r < 500)%Z ->
  status_code r <> 429%Z ->
  _request float_of_str monotonic send h retry_on_rate_limit w
  = (Raise unexpected_details, sent monotonic O w) /\
  http_attempts (sent monotonic O w) = S (http_attempts w) /\
  List.filter is_retry_wait (trace (sent monotonic O w))
  = List.filter is_retry_wait (trace w).
Proof.
  intros Hc Hm Hs Hr Hn. split; [|split].
  - unfold _request.
    destruct (Z.to_nat (RetryHandler.max_retries h + 1)) as [|k] eqn:Hk; [lia|].
    cbn [request_loop].
    rewrite (attempt_once_sent _ _ _ _ _ _ _ Hc), Hs.
    now rewrite (classify_client_error _ _ _ _ _ _ Hr Hn).
  - unfold http_attempts. rewrite sent_trace, List.filter_app, length_app.
    cbn. lia.
  - rewrite sent_trace, List.filter_app. cbn. now rewrite app_nil_r.
Qed.

(** A 404 with a short body, on a fresh client without API key. *)
Lemma client_error_raises_type_error_witness :
  _request float_of_digits (fun _ => 0)
           (fun _ => Responded (mkResponse 404 "no such record" []))
           (RetryHandler.mk 3 1 (3 # 2) 60) true
           (mkWorld (RateLimiter.init 3 1 0) [])
  = (Raise unexpected_details,
     mkWorld (RateLimiter.mk 3 1 2 0) [EvAcquire None; EvHttp 0]).
Proof.
  assert (Hc : configured (rate_limiter (mkWorld (RateLimiter.init 3 1 0) []))).
  { split; [discriminate | intros H; discriminate H]. }
  destruct (client_error_raises_type_error
              float_of_digits (fun _ => 0)
              (fun _ => Responded (mkResponse 404 "no such record" []))
              (RetryHandler.mk 3 1 (3 # 2) 60) true
              (mkWorld (RateLimiter.init 3 1 0) [])
              (mkResponse 404 "no such record" [])
              Hc ltac:(discriminate) eq_refl ltac:(cbn; lia) ltac:(discriminate))
    as [Hrun _].
  rewrite Hrun. reflexivity.
Defined.

(** C3.  Against a transport that answers every call with status 503, a
    request core with [max_retries = 3], a limiter of non-zero capacity
    and window and a schedule whose first three powers are within the
    double range performs exactly this: acquire, call, wait, three times
    over, then a fourth acquire and a fourth call, after which it raises
    [ServiceUnavailableError] ("Server error: 503", retry after 60
    seconds).  Four HTTP attempts and no fifth; before each of them one
    unit is taken from the limiter, which goes through the four
    corresponding states: each time it is refilled for the time elapsed
    and then either gives up one token or, holding less than one, makes
    the caller sleep and is left at 0. *)
Theorem always_503_makes_four_attempts
        (float_of_str : string -> option Q) (monotonic : nat -> Q)
        (send : nat -> Outcome) (h : RetryHandler.t)
        (retry_on_rate_limit : bool) (w : World) :
  configured (rate_limiter w) ->
  RetryHandler.max_retries h = 3%Z ->
  (forall attempt, (attempt < 3)%nat ->
     in_double_range (RetryHandler.backoff_factor h ^ Z.of_nat attempt)) ->
  (forall attempt, exists r, send attempt = Responded r /\ status_code r = 503%Z) ->
  let delay := RetryHandler.spec_delay (RetryHandler.base_delay h)
                                       (RetryHandler.backoff_factor h)
                                       (RetryHandler.max_delay h) in
  exists w' a0 a1 a2 a3 l1 l2 l3,
    _request float_of_str monotonic send h retry_on_rate_limit w
    = (Raise (service_unavailable 503), w') /\
    trace w'
    = (trace w
       ++ [EvAcquire a0; EvHttp 0; EvRetryWait 0 (delay 0%nat);
           EvAcquire a1; EvHttp 1; EvRetryWait 1 (delay 1%nat);
           EvAcquire a2; EvHttp 2; EvRetryWait 2 (delay 2%nat);
           EvAcquire a3; EvHttp 3])%list /\
    took_one_unit (rate_limiter w) (monotonic 0%nat) a0 l1 /\
    took_one_unit l1 (monotonic 1%nat) a1 l2 /\
    took_one_unit l2 (monotonic 2%nat) a2 l3 /\
    took_one_unit l3 (monotonic 3%nat) a3 (rate_limiter w') /\
    http_attempts w' = (http_attempts w + 4)%nat /\
    units_acquired w' = (units_acquired w + 4)%nat.
Proof.
  intros Hc Hm Hrange H503 delay.
  assert (Hdelay : forall i, (i < 3)%nat ->
                             RetryHandler.get_delay h i = Ok (delay i)).
  { intros i Hi. apply RetryHandlerSpec.get_delay_in_range, Hrange, Hi. }
  set (w1 := log (sent monotonic 0 w) (EvRetryWait 0 (delay 0%nat))).
  set (w2 := log (sent monotonic 1 w1) (EvRetryWait 1 (delay 1%nat))).
  set (w3 := log (sent monotonic 2 w2) (EvRetryWait 2 (delay 2%nat))).
  set (w4 := sent monotonic 3 w3).
  assert (Hc1 : configured (rate_limiter w1)) by now apply sent_configured.
  assert (Hc2 : configured (rate_limiter w2)) by now apply sent_configured.
  assert (Hc3 : configured (rate_limiter w3)) by now apply sent_configured.
  assert (Htrace :
            trace w4
            = (trace w
               ++ [EvAcquire (slept (acquire (rate_limiter w) (monotonic 0%nat)));
                   EvHttp 0; EvRetryWait 0 (delay 0%nat);
                   EvAcquire (slept (acquire (rate_limiter w1) (monotonic 1%nat)));
                   EvHttp 1; EvRetryWait 1 (delay 1%nat);
                   EvAcquire (slept (acquire (rate_limiter w2) (monotonic 2%nat)));
                   EvHttp 2; EvRetryWait 2 (delay 2%nat);
                   EvAcquire (slept (acquire (rate_limiter w3) (monotonic 3%nat)));
                   EvHttp 3])%list).
  { subst w4 w3 w2 w1.
    repeat (rewrite sent_trace || rewrite log_trace).
    rewrite <- !app_assoc. reflexivity. }
  exists w4. do 4 eexists.
  exists (rate_limiter w1), (rate_limiter w2), (rate_limiter w3).
  split; [|split; [exact Htrace|]].
  - unfold _request. rewrite Hm. change (Z.to_nat (3 + 1)) with 4%nat.
    assert (Hremain : forall n, (n < 3)%nat -> retries_remain h n = true).
    { intros n Hn. unfold retries_remain. rewrite Hm. apply Z.ltb_lt. lia. }
    assert (Hlast : retries_remain h 3 = false).
    { unfold retries_remain. now rewrite Hm. }
    rewrite (request_loop_503_retry _ _ _ _ _ _ _ _ (delay 0%nat) Hc (H503 _))
      by (apply Hremain || apply Hdelay; lia).
    fold w1.
    rewrite (request_loop_503_retry _ _ _ _ _ _ _ _ (delay 1%nat) Hc1 (H503 _))
      by (apply Hremain || apply Hdelay; lia).
    fold w2.
    rewrite (request_loop_503_retry _ _ _ _ _ _ _ _ (delay 2%nat) Hc2 (H503 _))
      by (apply Hremain || apply Hdelay; lia).
    fold w3.
    now rewrite (request_loop_503_last _ _ _ _ _ _ _ _ Hc3 (H503 _)) by exact Hlast.
  - split; [exact (sent_took_one_unit monotonic 0 w Hc)|].
    split; [exact (sent_took_one_unit monotonic 1 w1 Hc1)|].
    split; [exact (sent_took_one_unit monotonic 2 w2 Hc2)|].
    split; [exact (sent_took_one_unit monotonic 3 w3 Hc3)|].
    split.
    + unfold http_attempts. rewrite Htrace, List.filter_app, length_app.
      reflexivity.
    + unfold units_acquired. rewrite Htrace, List.filter_app, length_app.
      reflexivity.
Qed.

(** The client's own configuration (three tokens a second, three
    retries, factor 1.5) against a server that is down, the clock standing
    still: the three tokens go one by one, and the fourth attempt has to
    sleep a third of a second for its unit. *)
Lemma always_503_makes_four_attempts_witness :
  exists w',
    _request float_of_digits (fun _ => 0)
             (fun _ => Responded (mkResponse 503 "Service Unavailable" []))
             (RetryHandler.mk 3 1 (3 # 2) 60) true
             (mkWorld (RateLimiter.init 3 1 0) [])
    = (Raise (service_unavailable 503), w') /\
    http_attempts w' = 4%nat /\
    trace w' = [EvAcquire None; EvHttp 0; EvRetryWait 0 1;
                EvAcquire None; EvHttp 1; EvRetryWait 1 (3 # 2);
                EvAcquire None; EvHttp 2; EvRetryWait 2 (9 # 4);
                EvAcquire (Some (1 # 3)); EvHttp 3] /\
    tokens (rate_limiter w') = 0.
Proof.
  assert (Hc : configured (rate_limiter (mkWorld (RateLimiter.init 3 1 0) []))).
  { split; [discriminate | intros H; discriminate H]. }
  destruct (always_503_makes_four_attempts
              float_of_digits (fun _ => 0)
              (fun _ => Responded (mkResponse 503 "Service Unavailable" []))
              (RetryHandler.mk 3 1 (3 # 2) 60) true
              (mkWorld (RateLimiter.init 3 1 0) [])
              Hc eq_refl)
    as (w' & a0 & a1 & a2 & a3 & l1 & l2 & l3 & Hrun & _ & _ & _ & _ & _ & Hh & _).
  - intros [|[|[|n]]] Hn; [reflexivity | reflexivity | reflexivity | lia].
  - intros n. eexists. split; reflexivity.
  - exists w'. split; [exact Hrun|]. split; [exact Hh|].
    vm_compute in Hrun. injection Hrun as <-. split; reflexivity.
Defined.

(** C2 (as the code has it).  A 429 response, while retries remain and
    retrying on rate limits is enabled, is followed by a wait of
    [get_delay(attempt)] from the backoff schedule, whatever headers the
    response carries, and the loop goes on (if [get_delay] raises
    [OverflowError], so does the request).  When no retries remain (or
    retrying on rate limits is disabled) the attempt fails with a
    [RateLimitError] whose [retry_after] is 60 when the response has no
    [Retry-After] header and otherwise the number [float] reads from the
    header's value (the values of repeated lines joined by a comma and a
    space); when [float] rejects that value the attempt fails with
    [ValueError] instead. *)
Theorem rate_limited_response
        (float_of_str : string -> option Q) (monotonic : nat -> Q)
        (send : nat -> Outcome) (h : RetryHandler.t)
        (retry_on_rate_limit : bool) (attempt : nat) (w : World) (r : Response) :
  configured (rate_limiter w) ->
  send attempt = Responded r ->
  status_code r = 429%Z ->
  let run := attempt_once float_of_str monotonic send h retry_on_rate_limit attempt w in
  let w2 := sent monotonic attempt w in
  (retry_on_rate_limit = true -> retries_remain h attempt = true ->
     (forall delay,
        RetryHandler.get_delay h attempt = Ok delay ->
        run = (Continue, log w2 (EvRetryWait attempt delay))) /\
     (RetryHandler.get_delay h attempt = Raise OverflowError ->
        run = (Fail OverflowError, w2))) /\
  (retry_on_rate_limit && retries_remain h attempt = false ->
     (headers_get (headers r) "Retry-After" = None ->
        run = (Fail (rate_limit_exceeded 60), w2)) /\
     (forall s hint,
        headers_get (headers r) "Retry-After" = Some s ->
        float_of_str s = Some hint ->
        run = (Fail (rate_limit_exceeded hint), w2)) /\
     (forall s,
        headers_get (headers r) "Retry-After" = Some s ->
        float_of_str s = None ->
        run = (Fail (ValueError s), w2))).
Proof.
  intros Hc Hs Hr run w2. subst run w2.
  rewrite (attempt_once_sent _ _ _ _ _ _ _ Hc), Hs.
  rewrite (classify_rate_limited _ _ _ _ _ _ Hr).
  split.
  - intros -> ->. cbn [andb]. split.
    + intros delay Hd. now apply backoff_waits.
    + intros Hd. now apply backoff_raises.
  - intros ->. split; [|split].
    + intros Hh. unfold retry_after_of. rewrite Hh.
      unfold mbind, result_bind, rbind.
      now rewrite new_rate_limit_exceeded.
    + intros s hint Hh Hf. unfold retry_after_of. rewrite Hh, Hf.
      unfold mbind, result_bind, rbind.
      now rewrite new_rate_limit_exceeded.
    + intros s Hh Hf. unfold retry_after_of. now rewrite Hh, Hf.
Qed.

(** The server asks for seven seconds: the first attempt is followed by
    the schedule's one second, and the last attempt reports the seven.
    The server sends two [Retry-After] lines, 5 and 7: the last attempt
    reads "5, 7" and fails with [ValueError]. *)
Lemma rate_limited_response_witness :
  let r := mkResponse 429 "" [("retry-after", "7")] in
  let r2 := mkResponse 429 "" [("Retry-After", "5"); ("Retry-After", "7")] in
  let h := RetryHandler.mk 3 1 2 60 in
  let w := mkWorld (RateLimiter.init 3 1 0) [] in
  attempt_once float_of_digits (fun _ => 0) (fun _ => Responded r) h true 0 w
  = (Continue, log (sent (fun _ => 0) 0 w) (EvRetryWait 0 1)) /\
  attempt_once float_of_digits (fun _ => 0) (fun _ => Responded r) h true 3 w
  = (Fail (rate_limit_exceeded 7), sent (fun _ => 0) 3 w) /\
  attempt_once float_of_digits (fun _ => 0) (fun _ => Responded r2) h true 3 w
  = (Fail (ValueError "5, 7"), sent (fun _ => 0) 3 w).
Proof.
  intros r r2 h w.
  assert (Hc : configured (rate_limiter w)).
  { split; [discriminate | intros H; discriminate H]. }
  split; [|split].
  - destruct (rate_limited_response float_of_digits (fun _ => 0)
                (fun _ => Responded r) h true 0 w r Hc eq_refl eq_refl)
      as [Hretry _].
    destruct (Hretry eq_refl eq_refl) as [Hwait _].
    exact (Hwait 1 eq_refl).
  - destruct (rate_limited_response float_of_digits (fun _ => 0)
                (fun _ => Responded r) h true 3 w r Hc eq_refl eq_refl)
      as [_ Hlast].
    destruct (Hlast eq_refl) as (_ & Hhint & _).
    exact (Hhint "7" 7 eq_refl eq_refl).
  - destruct (rate_limited_response float_of_digits (fun _ => 0)
                (fun _ => Responded r2) h true 3 w r2 Hc eq_refl eq_refl)
      as [_ Hlast].
    destruct (Hlast eq_refl) as (_ & _ & Hbad).
    exact (Hbad "5, 7" eq_refl eq_refl).
Defined.

(** C2 as stated does not hold: with a [Retry-After: 7] header and
    retries left, the wait after the first attempt is the schedule's one
    second, not the seven the server asked for. *)
Lemma server_hint_ignored : ~ waits_for_server_hint.
Proof.
  intros Hclaim.
  assert (Hc : configured (rate_limiter (mkWorld (RateLimiter.init 3 1 0) []))).
  { split; [discriminate | intros H; discriminate H]. }
  destruct (Hclaim float_of_digits (fun _ => 0)
              (fun _ => Responded (mkResponse 429 "" [("Retry-After", "7")]))
              (RetryHandler.mk 3 1 2 60) O
              (mkWorld (RateLimiter.init 3 1 0) [])
              (mkResponse 429 "" [("Retry-After", "7")]) "7" 7
              Hc eq_refl eq_refl eq_refl eq_refl eq_refl)
    as (w' & delay & Hrun & Hlast & Hd).
  vm_compute in Hrun. injection Hrun as <-.
  cbn in Hlast. injection Hlast as <-.
  discriminate Hd.
Qed.

End RequestCoreSpec.

(** ** The session manager *)

Module SessionManagerFacts.
Import ErrorHandler SessionManager.

Lemma new_pubmed_error (message : string) :
  BaseClient.raised (new PubMedError [("message", PyStr message)])
  = pubmed_error message.
Proof. vm_compute. reflexivity. Qed.

Lemma one_to_S (n : nat) : one_to (S n) = (one_to n ++ [Z.of_nat (S n)])%list.
Proof.
  unfold one_to. rewrite seq_S, fmap_app. reflexivity.
Qed.

Lemma start_session_appended (c : Client) (db query : string) (w : World) :
  appended (start_session c db query w).1 (mgr w) (mgr (start_session c db query w).2).
Proof.
  unfold start_session.
  destruct (search c (net w) db query true) as [result|e]; cbn; [|auto].
  destruct (negb _ || negb _); cbn; auto.
Qed.

Lemma add_search_step_appended (c : Client) (db query : string)
      (cw : option string) (op : string) (w : World) :
  appended (add_search_step c db query cw op w).1 (mgr w)
           (mgr (add_search_step c db query cw op w).2).
Proof.
  unfold add_search_step.
  destruct (negb (truthy (web_env (mgr w)))); [apply start_session_appended|].
  destruct (search c (net w) db _ true) as [result|e]; cbn; auto.
Qed.

Lemma add_link_step_appended (c : Client) (from_db to_db : string)
      (ln : option string) (fs : option Z) (w : World) :
  appended (add_link_step c from_db to_db ln fs w).1 (mgr w)
           (mgr (add_link_step c from_db to_db ln fs w).2).
Proof.
  unfold add_link_step.
  destruct (negb (truthy (web_env (mgr w)))); cbn; [auto|].
  destruct (resolve_query_key (mgr w) fs) as [qk|e]; cbn; [|auto].
  destruct (link c (net w) from_db to_db _ qk _ _) as [result|e]; cbn; auto.
Qed.

Lemma run_call_appended (c : Client) (call : Call) (w : World) :
  appended (run_call c call w).1 (mgr w) (mgr (run_call c call w).2).
Proof.
  destruct call; cbn [run_call].
  - apply start_session_appended.
  - apply add_search_step_appended.
  - apply add_link_step_appended.
Qed.

(** Every call keeps the numbering discipline, whether it succeeds or not. *)
Lemma appended_numbered (r : Result PipelineStep) (m m' : t) :
  appended r m m' -> numbered m -> numbered m'.
Proof.
  intros Ha [Hn Hc]. destruct r as [step|e]; cbn in Ha.
  - destruct Ha as (Hs & Hnum & Hc'). unfold numbered.
    rewrite Hs, fmap_app, length_app, Hn. cbn [length fmap list_fmap].
    rewrite Nat.add_1_r, one_to_S, Hnum, Hc, Hc'. split; [do 2 f_equal | rewrite Hc]; lia.
  - destruct Ha as (Hs & Hc'). unfold numbered. now rewrite Hs, Hc'.
Qed.

Lemma appended_steps (r : Result PipelineStep) (m m' : t) :
  appended r m m' -> steps m' = (steps m ++ returned [r])%list.
Proof.
  destruct r as [step|e]; cbn; intros Ha.
  - apply Ha.
  - rewrite app_nil_r. apply Ha.
Qed.

Lemma returned_cons (r : Result PipelineStep) (rs : list (Result PipelineStep)) :
  returned (r :: rs) = (returned [r] ++ returned rs)%list.
Proof. destruct r; reflexivity. Qed.

Lemma run_calls_cons (c : Client) (call : Call) (rest : list Call) (w : World) :
  run_calls c (call :: rest) w
  = ((run_call c call w).1 :: (run_calls c rest (run_call c call w).2).1,
     (run_calls c rest (run_call c call w).2).2).
Proof.
  cbn [run_calls]. destruct (run_call c call w) as [r w1]. cbn.
  destruct (run_calls c rest w1) as [rs w2]. reflexivity.
Qed.

Lemma run_calls_steps (c : Client) (calls : list Call) (w : World) :
  numbered (mgr w) ->
  numbered (mgr (run_calls c calls w).2) /\
  steps (mgr (run_calls c calls w).2)
  = (steps (mgr w) ++ returned (run_calls c calls w).1)%list /\
  length (run_calls c calls w).1 = length calls.
Proof.
  revert w. induction calls as [|call rest IH]; intros w Hn.
  - cbn. rewrite app_nil_r. auto.
  - rewrite run_calls_cons. cbn [fst snd].
    pose proof (run_call_appended c call w) as Ha.
    destruct (IH _ (appended_numbered _ _ _ Ha Hn)) as (Hn' & Hs & Hl).
    split; [exact Hn'|]. split.
    + rewrite Hs, (appended_steps _ _ _ Ha), <- app_assoc.
      f_equal. symmetry. apply returned_cons.
    + cbn [length]. now rewrite Hl.
Qed.

Lemma returned_all (rs : list (Result PipelineStep)) :
  forallb succeeded rs = true -> length (returned rs) = length rs.
Proof.
  induction rs as [|r rs IH]; [reflexivity|].
  destruct r as [s|e]; cbn; [|discriminate].
  intros H. f_equal. now apply IH.
Qed.

(** [if from_step:] takes step number 0 for "not given": the last step
    is used. *)
Lemma resolve_query_key_zero (m : t) :
  resolve_query_key m (Some 0%Z) = resolve_query_key m None.
Proof. reflexivity. Qed.

(** A search result without handle or without query key: the handle is
    stored all the same before the error is raised. *)
Lemma start_session_no_history (c : Client) (db query : string) (w : World)
      (result : gmap string PyVal) :
  search c (net w) db query true = Ok result ->
  negb (truthy (dict_get result "web_env" PyNone))
  || negb (truthy (dict_get result "query_key" PyNone)) = true ->
  start_session c db query w
  = (Raise (pubmed_error "Failed to start session: no History data returned"),
     mkWorld (mk (dict_get result "web_env" PyNone)
                 (steps (mgr w)) (_step_counter (mgr w)))
             (net w ++ [CallSearch db query true])).
Proof.
  intros Hs Hk. unfold start_session. rewrite Hs, Hk.
  now rewrite new_pubmed_error.
Qed.

(** [reset()] gives back the manager a constructor gives, so numbering
    starts at 1 again. *)
Lemma reset_init (m : t) : reset m = init.
Proof. reflexivity. Qed.

Lemma numbered_init : numbered init.
Proof. split; reflexivity. Qed.

End SessionManagerFacts.

Module SessionManagerSpec.
Import ErrorHandler SessionManager SessionManagerFacts.

(** C7.  On one manager, starting fresh, any sequence of
    [start_session] / [add_search_step] / [add_link_step] calls leaves as
    step list exactly the steps the successful calls returned, in call
    order, numbered 1, 2, 3, ... without gaps whatever the operation; when
    all calls succeed there is one step per call.  In particular a start,
    two search steps and a link step that all succeed give steps 1, 2, 3,
    4, and with the example client they do. *)
Theorem steps_numbered_in_call_order :
  (forall (c : Client) (calls : list Call),
      let rs := (run_calls c calls fresh).1 in
      let m := mgr (run_calls c calls fresh).2 in
      steps m = returned rs /\
      step_number <$> steps m = one_to (length (steps m)) /\
      (forallb succeeded rs = true -> length (steps m) = length calls)) /\
  (forall (c : Client) (db1 q1 db2 q2 db3 q3 op2 op3 from_db to_db : string)
          (cw2 cw3 link_name : option string) (from_step : option Z),
      let calls := [StartSession db1 q1; AddSearchStep db2 q2 cw2 op2;
                    AddSearchStep db3 q3 cw3 op3;
                    AddLinkStep from_db to_db link_name from_step] in
      forallb succeeded (run_calls c calls fresh).1 = true ->
      step_number <$> steps (mgr (run_calls c calls fresh).2)
      = [1; 2; 3; 4]%Z) /\
  (let calls := [StartSession "pubmed" "cancer";
                 AddSearchStep "pubmed" "therapy" (Some "1") "AND";
                 AddSearchStep "pubmed" "review" None "AND";
                 AddLinkStep "pubmed" "pmc" None None] in
   let m := mgr (run_calls example_client calls fresh).2 in
   step_number <$> steps m = [1; 2; 3; 4]%Z /\
   operation <$> steps m = ["search"; "search"; "search"; "link"]).
Proof.
  assert (Hgen : forall (c : Client) (calls : list Call),
             let rs := (run_calls c calls fresh).1 in
             let m := mgr (run_calls c calls fresh).2 in
             steps m = returned rs /\
             step_number <$> steps m = one_to (length (steps m)) /\
             (forallb succeeded rs = true -> length (steps m) = length calls)).
  { intros c calls rs m.
    destruct (run_calls_steps c calls fresh numbered_init) as ([Hnum _] & Hs & Hl).
    cbn [fresh mgr init steps app] in Hs. fold rs m in Hs, Hl, Hnum.
    split; [exact Hs|]. split; [exact Hnum|].
    intros Hall. rewrite Hs, (returned_all _ Hall). exact Hl. }
  split; [exact Hgen|]. split.
  - intros c db1 q1 db2 q2 db3 q3 op2 op3 from_db to_db cw2 cw3 ln fs calls Hall.
    destruct (Hgen c calls) as (_ & Hnum & Hlen).
    rewrite Hnum, (Hlen Hall). reflexivity.
  - split; vm_compute; reflexivity.
Qed.

(** The two usage errors of [add_link_step] as far as they go.  On a
    manager without session handle, [add_link_step] raises
    [PubMedError] "Cannot add link step: no active session" and leaves the
    manager and the log of client calls as they were: no call is made.  On
    a manager with a handle, a non-zero [from_step] that no step carries
    raises "Step N not found in pipeline", again at once and without any
    call or change. *)
Theorem add_link_step_usage_errors
        (c : Client) (from_db to_db : string) (link_name : option string)
        (w : World) :
  (forall from_step : option Z,
      truthy (web_env (mgr w)) = false ->
      add_link_step c from_db to_db link_name from_step w
      = (Raise (pubmed_error "Cannot add link step: no active session"), w)) /\
  (forall n : Z,
      truthy (web_env (mgr w)) = true ->
      n <> 0%Z ->
      (forall s, In s (steps (mgr w)) -> step_number s <> n) ->
      add_link_step c from_db to_db link_name (Some n) w
      = (Raise (pubmed_error ("Step " ++ str_of_int n ++ " not found in pipeline")),
         w)).
Proof.
  split.
  - intros fs Hidle. unfold add_link_step. rewrite Hidle. cbn [negb].
    unfold no_active_session. now rewrite new_pubmed_error.
  - intros n Hact Hn Habs. unfold add_link_step. rewrite Hact. cbn [negb].
    unfold resolve_query_key. cbn [py_opt_int truthy default option_rect from_option].
    destruct (Z.eqb_spec n 0) as [|_]; [contradiction|]. cbn [negb default from_option].
    destruct (List.find _ (steps (mgr w))) as [s|] eqn:Hfind.
    + apply List.find_some in Hfind as [Hin Heq].
      apply Z.eqb_eq in Heq. exfalso. exact (Habs s Hin Heq).
    + unfold step_not_found. now rewrite new_pubmed_error.
Qed.

(** An idle manager, and an active one with a single step asked for
    step 7. *)
Lemma add_link_step_usage_errors_witness :
  add_link_step example_client "pubmed" "pmc" None None fresh
  = (Raise (pubmed_error "Cannot add link step: no active session"), fresh) /\
  (let w := (start_session example_client "pubmed" "cancer" fresh).2 in
   add_link_step example_client "pubmed" "pmc" None (Some 7%Z) w
   = (Raise (pubmed_error "Step 7 not found in pipeline"), w)).
Proof.
  split.
  - destruct (add_link_step_usage_errors example_client "pubmed" "pmc" None fresh)
      as [Hidle _].
    exact (Hidle None eq_refl).
  - intros w.
    destruct (add_link_step_usage_errors example_client "pubmed" "pmc" None w)
      as [_ Hstep].
    apply (Hstep 7%Z eq_refl); [discriminate|].
    intros s [<- | []]. discriminate.
Defined.

(** C8 (what the code does for step number 0).  On a manager with a
    session handle and at least one step, all numbered otherwise,
    [add_link_step(from_step=0)] does not fail with "Step 0 not found in
    pipeline": [if from_step:] takes 0 for "not given", so the call goes
    to the client with the query key of the last step, and when the
    client answers, a new step is appended and returned. *)
Theorem add_link_step_step_zero
        (c : Client) (from_db to_db : string) (link_name : option string)
        (w : World) (s : PipelineStep) :
  truthy (web_env (mgr w)) = true ->
  last (steps (mgr w)) = Some s ->
  (forall s', In s' (steps (mgr w)) -> step_number s' <> 0%Z) ->
  let run := add_link_step c from_db to_db link_name (Some 0%Z) w in
  let answer := link c (net w) from_db to_db "neighbor_history" (query_key s)
                     (web_env (mgr w)) (py_opt_str link_name) in
  net run.2
  = (net w ++ [CallLink from_db to_db "neighbor_history" (query_key s)
                        (web_env (mgr w)) (py_opt_str link_name)])%list /\
  (forall e, answer = Raise e -> run.1 = Raise e /\ mgr run.2 = mgr w) /\
  (forall result, answer = Ok result ->
     exists step,
       run.1 = Ok step /\
       step_number step = (_step_counter (mgr w) + 1)%Z /\
       operation step = "link" /\
       parameters step !! "from_step" = Some (PyInt 0) /\
       steps (mgr run.2) = (steps (mgr w) ++ [step])%list).
Proof.
  intros Hact Hlast _ run answer. subst run answer.
  unfold add_link_step. rewrite Hact. cbn [negb].
  rewrite resolve_query_key_zero. unfold resolve_query_key.
  cbn [py_opt_int truthy]. rewrite Hlast.
  destruct (link c (net w) from_db to_db "neighbor_history" (query_key s)
                 (web_env (mgr w)) (py_opt_str link_name)) as [result|e];
    cbn [fst snd net mgr].
  - split; [reflexivity|]. split; [discriminate|].
    intros result' [= <-]. eexists. split; [reflexivity|].
    cbn [step_number operation parameters steps]. repeat split; reflexivity.
  - split; [reflexivity|]. split; [|discriminate].
    intros e' [= <-]. split; reflexivity.
Qed.

(** A started session, linked "from step 0": the client is called and
    step 2 is appended. *)
Lemma add_link_step_step_zero_witness :
  let w := (start_session example_client "pubmed" "cancer" fresh).2 in
  let run := add_link_step example_client "pubmed" "pmc" None (Some 0%Z) w in
  net run.2 = [CallSearch "pubmed" "cancer" true;
               CallLink "pubmed" "pmc" "neighbor_history" (PyStr "1")
                        (PyStr "ENV1") PyNone] /\
  exists step, run.1 = Ok step /\ step_number step = 2%Z /\
               length (steps (mgr run.2)) = 2%nat.
Proof.
  intros w run.
  destruct (add_link_step_step_zero
              example_client "pubmed" "pmc" None w
              (mkStep 1 "search" "pubmed" (PyStr "1") (PyInt 500)
                      {[ "query" := PyStr "cancer" ]})
              eq_refl eq_refl)
    as (Hnet & _ & Hok).
  - intros s' [<- | []]. discriminate.
  - split; [exact Hnet|].
    destruct (Hok _ eq_refl) as (step & Hr & Hn & _ & _ & Hs).
    exists step. split; [exact Hr|]. split; [exact Hn|].
    fold run in Hs. rewrite Hs, length_app. reflexivity.
Defined.

(** C9.  There is a search result with a session handle and no query key
    (the one [keyless_client] returns) such that, for every client
    answering the first search with it, [start_session] on a fresh manager
    raises "Failed to start session: no History data returned" and yet
    leaves a changed manager: [web_env] is the returned handle, the step
    list is empty and the counter is 0.  A following [add_link_step]
    without [from_step] then gets past the session check and raises "No
    previous steps in pipeline", making no call. *)
Theorem failed_start_keeps_handle :
  exists result : gmap string PyVal,
    result !! "web_env" = Some (PyStr "ENV1") /\
    result !! "query_key" = None /\
    search keyless_client [] "pubmed" "cancer" true = Ok result /\
    forall (c : Client) (db query : string),
      search c [] db query true = Ok result ->
      let r := (start_session c db query fresh).1 in
      let w1 := (start_session c db query fresh).2 in
      r = Raise (pubmed_error "Failed to start session: no History data returned") /\
      web_env (mgr w1) = PyStr "ENV1" /\
      steps (mgr w1) = [] /\
      _step_counter (mgr w1) = 0%Z /\
      mgr w1 <> mgr fresh /\
      forall (from_db to_db : string) (link_name : option string),
        add_link_step c from_db to_db link_name None w1
        = (Raise (pubmed_error "No previous steps in pipeline"), w1).
Proof.
  exists {[ "web_env" := PyStr "ENV1" ]}.
  split; [reflexivity|]. split; [reflexivity|]. split; [reflexivity|].
  intros c db query Hsearch r w1. subst r w1.
  rewrite (start_session_no_history c db query fresh _ Hsearch eq_refl).
  cbn [fst snd].
  split; [reflexivity|]. split; [reflexivity|]. split; [reflexivity|].
  split; [reflexivity|]. split; [discriminate|].
  intros from_db to_db link_name. unfold add_link_step.
  cbn [mgr web_env steps dict_get]. reflexivity.
Qed.

(** C10.  On a manager with a session handle, whatever dictionary the
    client's search returns, [add_search_step] appends a step: there is
    no check of the query key.  The step's number and the counter are one
    more than the counter was, its [query_key] is the dictionary's entry
    and [None] when the dictionary has none, and the pipeline summary
    lists it as its last step. *)
Theorem add_search_step_appends_unchecked
        (c : Client) (db query : string) (combine_with : option string)
        (combine_operator : string) (w : World) (result : gmap string PyVal) :
  truthy (web_env (mgr w)) = true ->
  search c (net w) db (combined_query query combine_with combine_operator) true
  = Ok result ->
  exists step w',
    add_search_step c db query combine_with combine_operator w = (Ok step, w') /\
    steps (mgr w') = (steps (mgr w) ++ [step])%list /\
    step_number step = (_step_counter (mgr w) + 1)%Z /\
    _step_counter (mgr w') = (_step_counter (mgr w) + 1)%Z /\
    operation step = "search" /\
    query_key step = dict_get result "query_key" PyNone /\
    (result !! "query_key" = None -> query_key step = PyNone) /\
    summary_steps (get_pipeline_summary (mgr w'))
    = (summary_steps (get_pipeline_summary (mgr w)) ++ [step])%list /\
    total_steps (get_pipeline_summary (mgr w'))
    = (total_steps (get_pipeline_summary (mgr w)) + 1)%Z /\
    final_result_count (get_pipeline_summary (mgr w')) = result_count step.
Proof.
  intros Hact Hsearch. unfold add_search_step.
  rewrite Hact, Hsearch. cbn [negb].
  do 2 eexists. split; [reflexivity|].
  cbn [mgr steps _step_counter step_number operation query_key result_count
       get_pipeline_summary summary_steps total_steps final_result_count].
  repeat (split; [reflexivity|]).
  split; [|split; [reflexivity|split]].
  - intros Hnone. unfold dict_get. now rewrite Hnone.
  - rewrite length_app. cbn [length]. lia.
  - now rewrite last_snoc.
Qed.

(** An active session whose next search answer has no query key: step 2
    is appended with [query_key = None]. *)
Lemma add_search_step_appends_unchecked_witness :
  let w := (start_session example_client "pubmed" "cancer" fresh).2 in
  exists step w',
    add_search_step keyless_client "pubmed" "therapy" None "AND" w = (Ok step, w') /\
    step_number step = 2%Z /\
    query_key step = PyNone /\
    step_number <$> summary_steps (get_pipeline_summary (mgr w')) = [1; 2]%Z.
Proof.
  intros w.
  destruct (add_search_step_appends_unchecked
              keyless_client "pubmed" "therapy" None "AND" w
              {[ "web_env" := PyStr "ENV1" ]} eq_refl eq_refl)
    as (step & w' & Hrun & _ & Hnum & _ & _ & _ & Hkey & Hsum & _).
  exists step, w'. split; [exact Hrun|]. split; [exact Hnum|].
  split; [exact (Hkey eq_refl)|].
  rewrite Hsum, fmap_app. cbn [fmap list_fmap]. rewrite Hnum. reflexivity.
Defined.

End SessionManagerSpec.

(** * Further properties *)

(** ** Bursts, throttling and refill of the token bucket *)

Module RateLimiterMore.
Import RateLimiter RateLimiterFacts RateLimiterInvariant Burst.

(** The two branches of [acquire] on a configured limiter. *)
Lemma acquire_sleeps (l : t) (now : Q) :
  configured l ->
  let C := inject_Z (max_requests l) in
  let level := py_min C (tokens l + (now - last_update l) * (C / window l)) in
  level < 1 ->
  acquire l now
  = mkAcquired (Ok tt) (mk (max_requests l) (window l) 0 now)
               (Some ((1 - level) * (window l / C))).
Proof.
  intros [HC HW] C level Hlt. unfold acquire.
  rewrite (py_div_ok _ _ HW), (py_div_ok _ _ (inject_Z_nonzero _ HC)).
  fold C level. destruct (Qlt_le_dec level 1); [reflexivity | lra].
Qed.

Lemma acquire_takes (l : t) (now : Q) :
  ~ window l == 0 ->
  let C := inject_Z (max_requests l) in
  let level := py_min C (tokens l + (now - last_update l) * (C / window l)) in
  1 <= level ->
  acquire l now
  = mkAcquired (Ok tt) (mk (max_requests l) (window l) (level - 1) now) None.
Proof.
  intros HW C level Hge. unfold acquire.
  rewrite (py_div_ok _ _ HW).
  fold C level. destruct (Qlt_le_dec level 1); [lra | reflexivity].
Qed.

Lemma inject_Z_pred (z : Z) : inject_Z (z - 1) == inject_Z z - 1.
Proof. unfold Qeq, Qminus, Qplus, Qopp. cbn. lia. Qed.

Lemma acquire_all_S (k : nat) (l : t) (now : Q) :
  acquire_all (S k) l now
  = ((acquire_all k (after (acquire l now)) now).1,
     slept (acquire l now) :: (acquire_all k (after (acquire l now)) now).2).
Proof.
  cbn [acquire_all]. now destruct (acquire_all k _ now).
Qed.

(** An [acquire] at the instant of the last update on a bucket holding at
    least one token (and no more than its capacity) takes one at once. *)
Lemma acquire_same_instant (l : t) (now level : Q) :
  (0 < max_requests l)%Z -> 0 < window l -> last_update l = now ->
  tokens l == level -> 1 <= level -> level <= inject_Z (max_requests l) ->
  let a := acquire l now in
  slept a = None /\
  tokens (after a) == level - 1 /\
  max_requests (after a) = max_requests l /\
  window (after a) = window l /\
  last_update (after a) = now.
Proof.
  intros HC HW Hu Ht H1 HlC a. subst a.
  set (C := inject_Z (max_requests l)) in *.
  assert (Hre : py_min C (tokens l + (now - last_update l) * (C / window l))
                == level).
  { rewrite py_min_Qmin, Hu.
    assert (E : tokens l + (now - now) * (C / window l) == level).
    { rewrite Ht. field. lra. }
    rewrite E. apply Q.min_r. exact HlC. }
  rewrite acquire_takes; [| lra | fold C; rewrite Hre; exact H1].
  cbn. fold C. repeat split; try reflexivity. now rewrite Hre.
Qed.

Lemma acquire_all_burst (k : nat) :
  forall (l : t) (now : Q) (level : nat),
    (0 < max_requests l)%Z -> 0 < window l -> last_update l = now ->
    tokens l == inject_Z (Z.of_nat level) ->
    (k <= level)%nat -> (Z.of_nat level <= max_requests l)%Z ->
    let run := acquire_all k l now in
    run.2 = replicate k None /\
    tokens run.1 == inject_Z (Z.of_nat (level - k)) /\
    max_requests run.1 = max_requests l /\
    window run.1 = window l /\
    last_update run.1 = now.
Proof.
  induction k as [|k IH]; intros l now level HC HW Hu Ht Hk Hl run; subst run.
  - cbn. rewrite Nat.sub_0_r. auto.
  - rewrite acquire_all_S. cbn [fst snd].
    destruct (acquire_same_instant l now (inject_Z (Z.of_nat level)) HC HW Hu Ht)
      as (Hs & Ht' & Hm & Hw & Hu').
    { change 1 with (inject_Z 1). rewrite <- Zle_Qle. lia. }
    { rewrite <- Zle_Qle. exact Hl. }
    set (l1 := after (acquire l now)) in *.
    destruct (IH l1 now (level - 1)%nat) as (Hs2 & Ht2 & Hm2 & Hw2 & Hu2).
    + now rewrite Hm.
    + now rewrite Hw.
    + exact Hu'.
    + rewrite Ht'. replace (Z.of_nat (level - 1)) with (Z.of_nat level - 1)%Z by lia.
      now rewrite inject_Z_pred.
    + lia.
    + rewrite Hm. lia.
    + rewrite Hs, Hs2. split; [reflexivity|].
      split; [|rewrite Hm2, Hw2, Hu2; auto].
      rewrite Ht2. now replace (level - 1 - k)%nat with (level - S k)%nat by lia.
Qed.

(** X1.  A new limiter of capacity [C >= 1] and positive window lets
    any [k <= C] back-to-back [acquire] calls (no time passing) through
    without sleeping and is left with [C - k] tokens; once all [C] are
    spent the next call sleeps exactly [window / C] and leaves the bucket
    at 0. *)
Theorem burst_then_throttle (capacity : nat) (W now : Q) (k : nat) :
  (0 < capacity)%nat -> 0 < W -> (k <= capacity)%nat ->
  let C := Z.of_nat capacity in
  let run := acquire_all k (init C W now) now in
  run.2 = replicate k None /\
  tokens run.1 == inject_Z (Z.of_nat (capacity - k)) /\
  (k = capacity ->
     exists d, slept (acquire run.1 now) = Some d /\
               d == W / inject_Z C /\
               tokens (after (acquire run.1 now)) = 0).
Proof.
  intros Hcap HW Hk C run.
  destruct (acquire_all_burst k (init C W now) now capacity)
    as (Hs & Ht & Hm & Hw & Hu);
    try (cbn; subst C; (lia || lra || reflexivity)).
  fold run in Hs, Ht, Hm, Hw, Hu.
  split; [exact Hs|]. split; [exact Ht|].
  intros ->. rewrite Nat.sub_diag in Ht.
  assert (Hcfg : configured run.1).
  { split; [rewrite Hm; cbn; subst C; lia | rewrite Hw; cbn; lra]. }
  assert (Hlevel : py_min (inject_Z (max_requests run.1))
                          (tokens run.1 + (now - last_update run.1)
                                          * (inject_Z (max_requests run.1) / window run.1))
                   == 0).
  { rewrite py_min_Qmin, Hu, Hm, Hw, Ht. cbn [init max_requests window].
    assert (E : inject_Z (Z.of_nat 0) + (now - now) * (inject_Z C / W) == 0).
    { change (inject_Z (Z.of_nat 0)) with 0. field. lra. }
    rewrite E. apply Q.min_r.
    change 0 with (inject_Z 0). rewrite <- Zle_Qle. subst C. lia. }
  rewrite (acquire_sleeps run.1 now Hcfg) by (rewrite Hlevel; reflexivity).
  cbn [slept after tokens]. eexists. split; [reflexivity|]. split; [|reflexivity].
  rewrite Hlevel, Hm, Hw. cbn [init max_requests window]. field.
  apply inject_Z_nonzero. subst C. lia.
Qed.

Lemma burst_then_throttle_witness :
  (acquire_all 3 (init 3 1 0) 0).2 = [None; None; None] /\
  exists d, slept (acquire (acquire_all 3 (init 3 1 0) 0).1 0) = Some d /\
            d == 1 / 3.
Proof.
  destruct (burst_then_throttle 3 1 0 3 ltac:(lia) eq_refl ltac:(lia))
    as (Hnaps & _ & Hnext).
  split; [exact Hnaps|].
  destruct (Hnext eq_refl) as (d & Hd & Hv & _).
  exists d. split; [exact Hd | exact Hv].
Defined.

(** X2.  An [acquire] that has to sleep stamps [last_update] with the
    clock reading taken before the sleep and leaves the bucket at 0.  So
    when the sleep ends, the time slept counts as refill once more: the
    bucket then reads [1 - level] tokens instead of none, [level] being
    what the sleeper found, and the caller that arrives at that moment
    waits less than the [window / capacity] a token takes to accrue
    (values in exact arithmetic). *)
Theorem slept_time_is_credited_again (l : t) (now : Q) :
  (0 < max_requests l)%Z -> 0 < window l ->
  0 <= tokens l -> last_update l <= now ->
  let C := inject_Z (max_requests l) in
  let level := py_min C (tokens l + (now - last_update l) * (C / window l)) in
  level < 1 ->
  exists d,
    slept (acquire l now) = Some d /\
    d == (1 - level) * window l / C /\
    tokens (after (acquire l now)) = 0 /\
    last_update (after (acquire l now)) = now /\
    (exists v, available_tokens (after (acquire l now)) (now + d) = Ok v /\
               v == 1 - level) /\
    (let next := acquire (after (acquire l now)) (now + d) in
     match slept next with
     | Some d' => d'
     | None => 0
     end < window l / C).
Proof.
  intros HC HW Ht Hu C level Hlt.
  assert (Hcfg : configured l) by (split; [lia | lra]).
  pose proof (inject_Z_pos _ HC) as HC'. fold C in HC'.
  assert (H1C : 1 <= C).
  { subst C. change 1 with (inject_Z 1). rewrite <- Zle_Qle. lia. }
  assert (Hlevel0 : 0 <= level).
  { apply (refill_bounds (window l) l now now HW); [|lra].
    repeat split; auto. }
  rewrite (acquire_sleeps l now Hcfg Hlt). fold C level.
  cbn [slept after tokens last_update].
  set (d := (1 - level) * (window l / C)).
  assert (Hr : 0 < window l / C) by now apply rate_pos.
  assert (Hgain : 0 + (now + d - now) * (C / window l) == 1 - level).
  { subst d. field. split; lra. }
  assert (Hv : py_min C (0 + (now + d - now) * (C / window l)) == 1 - level).
  { rewrite py_min_Qmin, Hgain. apply Q.min_r. lra. }
  exists d. split; [reflexivity|].
  split; [subst d; field; lra|].
  split; [reflexivity|]. split; [reflexivity|]. split.
  - eexists. unfold available_tokens. cbn [max_requests window tokens last_update].
    rewrite (py_div_ok _ (window l)) by lra. split; [reflexivity|]. exact Hv.
  - cbn zeta.
    set (l1 := mk (max_requests l) (window l) 0 now).
    assert (Hcfg1 : configured l1) by (split; cbn; [lia | lra]).
    destruct (Qlt_le_dec
                (py_min C (tokens l1 + (now + d - last_update l1) * (C / window l1))) 1)
      as [Hlow | Hhigh].
    + rewrite (acquire_sleeps l1 (now + d) Hcfg1 Hlow).
      cbn [slept l1 max_requests window tokens last_update]. fold C.
      rewrite Hv.
      assert (E : (1 - (1 - level)) * (window l / C) == level * (window l / C)) by ring.
      rewrite E.
      assert (level * (window l / C) < 1 * (window l / C))
        by (apply Qmult_lt_compat_r; lra).
      lra.
    + rewrite (acquire_takes l1 (now + d)) by (cbn; lra || exact Hhigh).
      cbn [slept]. exact Hr.
Qed.

(** An empty three-per-second bucket whose clock has stood still: the
    caller sleeps a third of a second, and at the end of it the bucket
    reads one token. *)
Lemma slept_time_is_credited_again_witness :
  slept (acquire (mk 3 1 0 0) 0) = Some (1 # 3) /\
  exists v, available_tokens (after (acquire (mk 3 1 0 0) 0)) (0 + (1 # 3)) = Ok v /\
            v == 1 - 0.
Proof.
  destruct (slept_time_is_credited_again (mk 3 1 0 0) 0
              eq_refl eq_refl ltac:(discriminate) ltac:(discriminate) eq_refl)
    as (d & Hd & _ & _ & _ & Hread & _).
  split; [reflexivity|].
  assert (E : d = 1 # 3) by (cbn in Hd; now injection Hd).
  now rewrite E in Hread.
Defined.

(** X3.  Time to refill.  On a limiter with positive capacity [C] and
    window [W] holding [tokens] between 0 and [C], what
    [available_tokens] reads [d >= 0] seconds after the last update
    grows linearly, [tokens + d * C / W], until it reaches [C], which
    happens exactly when [d >= (C - tokens) * W / C]; an empty bucket is
    full again after one whole window and not before. *)
Theorem refill_is_linear_until_full (l : t) (d : Q) :
  (0 < max_requests l)%Z -> 0 < window l ->
  0 <= tokens l <= inject_Z (max_requests l) -> 0 <= d ->
  let C := inject_Z (max_requests l) in
  exists v,
    available_tokens l (last_update l + d) = Ok v /\
    (d <= (C - tokens l) * window l / C -> v == tokens l + d * C / window l) /\
    ((C - tokens l) * window l / C <= d <-> v == C).
Proof.
  intros HC HW [Ht0 HtC] Hd C.
  pose proof (inject_Z_pos _ HC) as HC'. fold C in HC', HtC.
  unfold available_tokens. rewrite (py_div_ok _ (window l)) by lra.
  fold C. eexists. split; [reflexivity|].
  rewrite py_min_Qmin.
  set (W := window l) in *.
  assert (Hgrow : tokens l + (last_update l + d - last_update l) * (C / W)
                  == tokens l + d * C / W) by (field; lra).
  rewrite Hgrow.
  assert (Hr : 0 < C / W) by now apply rate_pos.
  assert (E1 : (C - tokens l) * W / C * (C / W) == C - tokens l)
    by (field; split; lra).
  assert (E2 : d * C / W == d * (C / W)) by (field; lra).
  assert (Hthr : (C - tokens l) * W / C <= d <-> C <= tokens l + d * C / W).
  { rewrite <- (Qmult_le_r _ _ (C / W) Hr), E1, E2. split; intros H; lra. }
  assert (Hbelow : d <= (C - tokens l) * W / C -> tokens l + d * C / W <= C).
  { rewrite <- (Qmult_le_r _ _ (C / W) Hr), E1, E2. intros H. lra. }
  split.
  - intros Hle. apply Q.min_r. now apply Hbelow.
  - rewrite Hthr. split; intros H.
    + apply Q.min_l. exact H.
    + destruct (Qlt_le_dec (tokens l + d * C / W) C) as [Hlt | Hge]; [|exact Hge].
      rewrite Q.min_r in H by lra. lra.
Qed.

(** From empty, a three-per-second bucket reads 3 again after one second. *)
Lemma refill_is_linear_until_full_witness :
  exists v, available_tokens (mk 3 1 0 5) (5 + 1) = Ok v /\ v == 3.
Proof.
  destruct (refill_is_linear_until_full (mk 3 1 0 5) 1
              eq_refl eq_refl ltac:(split; discriminate) ltac:(discriminate))
    as (v & Hv & _ & Hfull).
  exists v. split; [exact Hv|]. apply Hfull. discriminate.
Defined.

End RateLimiterMore.

(** ** Growth of the retry schedule *)

Module RetryHandlerMore.
Import RetryHandler.

Lemma get_delay_ok_inv (h : t) (attempt : nat) (d : Q) :
  get_delay h attempt = Ok d ->
  in_double_range (backoff_factor h ^ Z.of_nat attempt) /\
  d = spec_delay (base_delay h) (backoff_factor h) (max_delay h) attempt.
Proof.
  unfold get_delay, py_pow, in_double_range.
  destruct (Qlt_le_dec _ double_overflow) as [Hlt | _]; [|discriminate].
  cbn. intros [= <-]. split; [exact Hlt|]. unfold spec_delay. apply py_min_Qmin.
Qed.

Lemma get_delay_raise_inv (h : t) (attempt : nat) (e : Exn) :
  get_delay h attempt = Raise e ->
  ~ in_double_range (backoff_factor h ^ Z.of_nat attempt) /\ e = OverflowError.
Proof.
  unfold get_delay, py_pow, in_double_range.
  destruct (Qlt_le_dec _ double_overflow) as [_ | Hge]; [discriminate|].
  cbn. intros [= <-]. split; [|reflexivity].
  intros Hlt. apply (Qlt_irrefl double_overflow). eapply Qle_lt_trans; eauto.
Qed.

(** X4.  With a non-negative base delay and a backoff factor of at least
    1: whenever [get_delay] returns for an attempt it has returned for the
    attempt before, with a delay no larger; the later delay is at most
    [max_delay], and equals it if the earlier one did.  Every delay
    [get_delay] returns is at most [max_delay].  And once [get_delay]
    raises [OverflowError] for an attempt it raises it for the next one
    as well. *)
Theorem get_delay_grows_to_cap (h : t) (attempt : nat) :
  0 <= base_delay h -> 1 <= backoff_factor h ->
  (forall later,
      get_delay h (S attempt) = Ok later ->
      exists earlier,
        get_delay h attempt = Ok earlier /\
        earlier <= later /\ later <= max_delay h /\
        (earlier == max_delay h -> later == max_delay h)) /\
  (forall d, get_delay h attempt = Ok d -> d <= max_delay h) /\
  (get_delay h attempt = Raise OverflowError ->
   get_delay h (S attempt) = Raise OverflowError).
Proof.
  intros Hb Hf.
  assert (Hpow : backoff_factor h ^ Z.of_nat attempt
                 <= backoff_factor h ^ Z.of_nat (S attempt)).
  { apply Qpower_le_compat_l; [lia | exact Hf]. }
  assert (Hpos : 0 <= backoff_factor h ^ Z.of_nat attempt).
  { apply Qpower_0_le. lra. }
  assert (Hrange : in_double_range (backoff_factor h ^ Z.of_nat (S attempt)) ->
                   in_double_range (backoff_factor h ^ Z.of_nat attempt)).
  { unfold in_double_range. rewrite !Qabs_pos by lra. intros H. lra. }
  assert (Hgrow : base_delay h * backoff_factor h ^ Z.of_nat attempt
                  <= base_delay h * backoff_factor h ^ Z.of_nat (S attempt)).
  { rewrite !(Qmult_comm (base_delay h)). now apply Qmult_le_compat_r. }
  assert (Hmono : spec_delay (base_delay h) (backoff_factor h) (max_delay h) attempt
                  <= spec_delay (base_delay h) (backoff_factor h) (max_delay h)
                                (S attempt)).
  { unfold spec_delay. now apply Q.min_le_compat_r. }
  split; [|split].
  - intros later Hlater.
    apply get_delay_ok_inv in Hlater as [Hr ->].
    eexists. split; [apply RetryHandlerSpec.get_delay_in_range, Hrange, Hr|].
    split; [exact Hmono|]. split; [apply Q.le_min_r|].
    intros Hcap. apply Qle_antisym; [apply Q.le_min_r|].
    rewrite <- Hcap at 1. exact Hmono.
  - intros d Hd. apply get_delay_ok_inv in Hd as [_ ->]. apply Q.le_min_r.
  - intros Hraise. apply get_delay_raise_inv in Hraise as [Hout _].
    apply RetryHandlerSpec.get_delay_overflow. intros Hin. apply Hout, Hrange, Hin.
Qed.

(** The client's own schedule (base 1 s, factor 1.5, cap 60 s) between
    the second and the third retry, and a factor-2 schedule past the end
    of the double range. *)
Lemma get_delay_grows_to_cap_witness :
  (exists earlier,
      get_delay (mk 3 1 (3 # 2) 60) 1 = Ok earlier /\ earlier <= 9 # 4) /\
  get_delay (mk 3 1 2 60) 1025 = Raise OverflowError.
Proof.
  split.
  - destruct (get_delay_grows_to_cap (mk 3 1 (3 # 2) 60) 1
                ltac:(discriminate) ltac:(discriminate))
      as (Hgrow & _ & _).
    destruct (Hgrow (9 # 4) eq_refl) as (earlier & He & Hle & _).
    exists earlier. split; [exact He | exact Hle].
  - destruct (get_delay_grows_to_cap (mk 3 1 2 60) 1024
                ltac:(discriminate) ltac:(discriminate))
      as (_ & _ & Hover).
    apply Hover. vm_compute. reflexivity.
Defined.

End RetryHandlerMore.

(** ** The request loop against an arbitrary transport *)

Module RequestCoreMore.
Import ErrorHandler BaseClient ErrorHandlerFacts BaseClientFacts RequestLog.
Import RateLimiter RateLimiterFacts.

Lemma new_network_error (message original_error : string) :
  new NetworkError [("message", PyStr message); ("original_error", PyStr original_error)]
  = Ok (network_error message original_error).
Proof. vm_compute. reflexivity. Qed.

Lemma new_max_retries_exceeded :
  raised (new PubMedError [("message", PyStr "Max retries exceeded")])
  = max_retries_exceeded.
Proof. vm_compute. reflexivity. Qed.

Section Loop.
Variable float_of_str : string -> option Q.
Variable monotonic : nat -> Q.
Variable send : nat -> Outcome.
Variable h : RetryHandler.t.
Variable retry_on_rate_limit : bool.

Local Abbreviation attempt_once :=
  (attempt_once float_of_str monotonic send h retry_on_rate_limit).
Local Abbreviation classify := (classify float_of_str h retry_on_rate_limit).
Local Abbreviation request_loop :=
  (request_loop float_of_str monotonic send h retry_on_rate_limit).
Local Abbreviation _request :=
  (_request float_of_str monotonic send h retry_on_rate_limit).
Local Abbreviation sent := (sent monotonic).
Local Abbreviation retryable := (retryable retry_on_rate_limit).
Local Abbreviation wait_after attempt delay w :=
  (log (sent attempt w) (EvRetryWait attempt delay)).
Local Abbreviation delay_of attempt :=
  (RetryHandler.spec_delay (RetryHandler.base_delay h) (RetryHandler.backoff_factor h)
                           (RetryHandler.max_delay h) attempt).
Local Abbreviation in_range attempt :=
  (in_double_range (RetryHandler.backoff_factor h ^ Z.of_nat attempt)).

Lemma units_acquired_sent (attempt : nat) (w : World) :
  units_acquired (sent attempt w) = S (units_acquired w).
Proof.
  unfold units_acquired. rewrite sent_trace, List.filter_app, length_app.
  cbn. lia.
Qed.

Lemma units_acquired_log_wait (attempt : nat) (d : Q) (w : World) :
  units_acquired (log w (EvRetryWait attempt d)) = units_acquired w.
Proof.
  unfold units_acquired. rewrite log_trace, List.filter_app, length_app.
  cbn. lia.
Qed.

Lemma retry_waits_sent (attempt : nat) (w : World) :
  retry_waits (sent attempt w) = retry_waits w.
Proof.
  unfold retry_waits. rewrite sent_trace, omap_app. cbn. now rewrite app_nil_r.
Qed.

Lemma retry_waits_log_wait (attempt : nat) (d : Q) (w : World) :
  retry_waits (log w (EvRetryWait attempt d)) = (retry_waits w ++ [d])%list.
Proof.
  unfold retry_waits. now rewrite log_trace, omap_app.
Qed.

Lemma classify_success (attempt : nat) (r : Response) (w : World) :
  (status_code r < 400)%Z -> classify attempt r w = (Return r, w).
Proof.
  intros Hr. unfold BaseClient.classify.
  destruct (Z.eqb_spec (status_code r) 429); [lia|].
  destruct (Z.leb_spec 500 (status_code r)); [lia|].
  destruct (Z.leb_spec 400 (status_code r)); [lia|].
  reflexivity.
Qed.

Lemma terminal_429_not_exhaustion (r : Response) :
  raised (retry_after ← retry_after_of float_of_str r;
          new RateLimitError
              [("message", PyStr "Rate limit exceeded after retries");
               ("retry_after", PyFloat retry_after)])
  <> max_retries_exceeded.
Proof.
  unfold retry_after_of, mbind, result_bind, rbind.
  destruct (headers_get (headers r) "Retry-After") as [s|].
  - destruct (float_of_str s); [|discriminate].
    rewrite new_rate_limit_exceeded. discriminate.
  - rewrite new_rate_limit_exceeded. discriminate.
Qed.

(** After a retryable outcome, while retries remain, an iteration goes
    into the backoff wait. *)
Lemma attempt_once_retry (attempt : nat) (w : World) :
  configured (rate_limiter w) ->
  retries_remain h attempt = true ->
  retryable (send attempt) = true ->
  attempt_once attempt w = backoff h attempt (sent attempt w).
Proof.
  intros Hc Hrem Hret. rewrite (attempt_once_sent _ _ _ _ _ _ _ Hc).
  unfold RequestLog.retryable in Hret.
  destruct (send attempt) as [r | t | t]; [|now rewrite Hrem..].
  destruct (Z.eqb_spec (status_code r) 429) as [E429 | N429].
  - now rewrite (classify_rate_limited _ _ _ _ _ _ E429), Hrem, Hret.
  - apply Z.leb_le in Hret.
    now rewrite (classify_server_error _ _ _ _ _ _ Hret), Hrem.
Qed.

Lemma attempt_once_goes_on (attempt : nat) (w : World) :
  configured (rate_limiter w) ->
  retries_remain h attempt = true ->
  retryable (send attempt) = true ->
  in_range attempt ->
  attempt_once attempt w = (Continue, wait_after attempt (delay_of attempt) w).
Proof.
  intros Hc Hrem Hret Hin. rewrite (attempt_once_retry attempt w Hc Hrem Hret).
  apply backoff_waits, RetryHandlerSpec.get_delay_in_range, Hin.
Qed.

(** In every other case it ends the loop, in the world reached by its
    HTTP call. *)
Lemma attempt_once_terminal (attempt : nat) (w : World) :
  configured (rate_limiter w) ->
  retryable (send attempt) && retries_remain h attempt = false ->
  exists s,
    attempt_once attempt w = (s, sent attempt w) /\
    s <> Continue /\
    (forall e, s = Fail e -> e <> max_retries_exceeded) /\
    (retryable (send attempt) = false ->
     forall r, send attempt = Responded r -> (status_code r < 400)%Z ->
               s = Return r).
Proof.
  intros Hc. rewrite (attempt_once_sent _ _ _ _ _ _ _ Hc).
  unfold RequestLog.retryable.
  destruct (send attempt) as [r | e | e].
  - unfold BaseClient.classify.
    destruct (Z.eqb_spec (status_code r) 429) as [E429 | N429].
    + intros ->. eexists. split; [reflexivity|]. split; [discriminate|].
      split; [|intros _ r' [= <-]; lia].
      intros e [= <-]. apply terminal_429_not_exhaustion.
    + destruct (Z.leb_spec 500 (status_code r)) as [H5 | H5]; cbn [andb].
      * intros ->. rewrite new_service_unavailable.
        eexists. split; [reflexivity|]. split; [discriminate|].
        split; [|discriminate].
        intros e [= <-]. discriminate.
      * intros _. destruct (Z.leb_spec 400 (status_code r)) as [H4 | H4].
        -- eexists. split; [reflexivity|]. split; [discriminate|].
           split; [|intros _ r' [= <-]; lia].
           intros e [= <-]. discriminate.
        -- eexists. split; [reflexivity|]. split; [discriminate|].
           split; [discriminate|].
           now intros _ r' [= <-].
  - cbn [andb]. intros ->. rewrite new_network_error.
    eexists. split; [reflexivity|]. split; [discriminate|].
    split; [|discriminate].
    intros e' [= <-]. discriminate.
  - cbn [andb]. intros ->. rewrite new_network_error.
    eexists. split; [reflexivity|]. split; [discriminate|].
    split; [|discriminate].
    intros e' [= <-]. discriminate.
Qed.

(** What one iteration can do.  Either it ends the loop, in the world
    reached by its HTTP call, or it waits and goes on, which it only
    does after a retryable outcome, while retries remain and when the
    delay can be computed. *)
Lemma attempt_once_cases (attempt : nat) (w : World) :
  configured (rate_limiter w) ->
  (exists s,
      attempt_once attempt w = (s, sent attempt w) /\
      s <> Continue /\
      (forall e, s = Fail e -> e <> max_retries_exceeded) /\
      (retryable (send attempt) = true ->
       retries_remain h attempt = false \/
       RetryHandler.get_delay h attempt = Raise OverflowError) /\
      (retryable (send attempt) = false ->
         forall r, send attempt = Responded r -> (status_code r < 400)%Z ->
                   s = Return r)) \/
  (exists delay,
      RetryHandler.get_delay h attempt = Ok delay /\
      attempt_once attempt w = (Continue, wait_after attempt delay w) /\
      retries_remain h attempt = true /\
      retryable (send attempt) = true).
Proof.
  intros Hc.
  destruct (retryable (send attempt) && retries_remain h attempt) eqn:Hgo.
  - apply andb_true_iff in Hgo as [Hret Hrem].
    rewrite (attempt_once_retry attempt w Hc Hrem Hret).
    destruct (RetryHandler.get_delay h attempt) as [delay | e] eqn:Hd.
    + right. exists delay. rewrite (backoff_waits _ _ _ _ Hd). auto.
    + left. destruct (RetryHandlerMore.get_delay_raise_inv _ _ _ Hd) as [_ ->].
      rewrite (backoff_raises _ _ _ _ Hd).
      eexists. split; [reflexivity|]. split; [discriminate|].
      split; [intros e [= <-]; discriminate|].
      split; [intros _; right; reflexivity|].
      intros Hf. rewrite Hret in Hf. discriminate Hf.
  - left. destruct (attempt_once_terminal attempt w Hc Hgo)
      as (s & Hrun & Hs & Hexn & Hok).
    exists s. split; [exact Hrun|]. split; [exact Hs|]. split; [exact Hexn|].
    split; [|exact Hok].
    intros Hret. left. now rewrite Hret in Hgo.
Qed.

Lemma request_loop_S (remaining attempt : nat) (w : World) :
  request_loop (S remaining) attempt w
  = match attempt_once attempt w with
    | (Return r, w') => (Ok r, w')
    | (Fail e, w') => (Raise e, w')
    | (Continue, w') => request_loop remaining (S attempt) w'
    end.
Proof. reflexivity. Qed.

(** What a run of iterations adds up to. *)
Lemma attempts_run_counts (attempt n : nat) (l l' : RateLimiter.t)
      (events : list Event) :
  attempts_run monotonic h attempt n l events l' ->
  (1 <= n)%nat /\
  length (List.filter is_http events) = n /\
  length (List.filter is_acquire events) = n /\
  length (omap (fun e => match e with
                         | EvRetryWait _ d => Some d
                         | _ => None
                         end) events) = (n - 1)%nat /\
  max_requests l' = max_requests l /\
  window l' = window l.
Proof.
  induction 1 as [attempt l l' nap Hunit
                 | attempt calls l l' l'' nap delay events Hunit Hd Hrest IH].
  - destruct Hunit as (Hcap & Hwin & _). cbn. repeat split; auto.
  - destruct Hunit as (Hcap & Hwin & _).
    destruct IH as (Hn & Hh & Hu & Hw & Hcap' & Hwin'). cbn.
    rewrite Hh, Hu, Hw. repeat split; try lia; congruence.
Qed.

Lemma run_counts (w w' : World) (attempt n : nat) (events : list Event) :
  trace w' = (trace w ++ events)%list ->
  attempts_run monotonic h attempt n (rate_limiter w) events (rate_limiter w') ->
  http_attempts w' = (http_attempts w + n)%nat /\
  units_acquired w' = (units_acquired w + n)%nat /\
  length (retry_waits w') = (length (retry_waits w) + (n - 1))%nat.
Proof.
  intros Ht Hrun.
  destruct (attempts_run_counts _ _ _ _ _ Hrun) as (_ & Hh & Hu & Hw & _).
  unfold http_attempts, units_acquired, retry_waits.
  rewrite Ht, !List.filter_app, omap_app, !length_app. lia.
Qed.

Lemma run_ends (attempt : nat) (w : World) :
  configured (rate_limiter w) ->
  exists events,
    trace (sent attempt w) = (trace w ++ events)%list /\
    attempts_run monotonic h attempt 1 (rate_limiter w) events
                 (rate_limiter (sent attempt w)) /\
    omap (fun e => match e with
                   | EvRetryWait _ d => Some d
                   | _ => None
                   end) events = [].
Proof.
  intros Hc. eexists. split; [apply sent_trace|]. split; [|reflexivity].
  apply run_last, sent_took_one_unit, Hc.
Qed.

Lemma run_goes_on (attempt n : nat) (delay : Q) (w w' : World)
      (events : list Event) :
  configured (rate_limiter w) ->
  RetryHandler.get_delay h attempt = Ok delay ->
  trace w' = (trace (wait_after attempt delay w) ++ events)%list ->
  attempts_run monotonic h (S attempt) n
               (rate_limiter (wait_after attempt delay w)) events
               (rate_limiter w') ->
  exists events',
    trace w' = (trace w ++ events')%list /\
    attempts_run monotonic h attempt (S n) (rate_limiter w) events'
                 (rate_limiter w') /\
    omap (fun e => match e with
                   | EvRetryWait _ d => Some d
                   | _ => None
                   end) events'
    = delay :: omap (fun e => match e with
                              | EvRetryWait _ d => Some d
                              | _ => None
                              end) events.
Proof.
  intros Hc Hd Ht Hrun. eexists. split; [|split].
  - rewrite Ht, log_trace, sent_trace, <- !app_assoc. cbn [app]. reflexivity.
  - eapply run_more; [apply sent_took_one_unit, Hc | exact Hd | exact Hrun].
  - reflexivity.
Qed.

(** The budget of the loop when [remaining] iterations cover the
    attempts up to [max_retries]. *)
Lemma request_loop_budget (remaining : nat) :
  forall (attempt : nat) (w : World),
    configured (rate_limiter w) ->
    (Z.of_nat attempt + Z.of_nat (S remaining)
     = RetryHandler.max_retries h + 1)%Z ->
    let run := request_loop (S remaining) attempt w in
    exists (n : nat) (events : list Event),
      (1 <= n <= S remaining)%nat /\
      trace run.2 = (trace w ++ events)%list /\
      attempts_run monotonic h attempt n (rate_limiter w) events
                   (rate_limiter run.2) /\
      run.1 <> Raise max_retries_exceeded.
Proof.
  assert (Hend : forall attempt w s,
             configured (rate_limiter w) ->
             s <> Continue ->
             (forall e, s = Fail e -> e <> max_retries_exceeded) ->
             forall k, (1 <= S k)%nat ->
             let run := match s with
                        | Return r => (Ok r, sent attempt w)
                        | Fail e => (Raise e, sent attempt w)
                        | Continue => request_loop k (S attempt) (sent attempt w)
                        end in
             exists (n : nat) (events : list Event),
               (1 <= n <= S k)%nat /\
               trace run.2 = (trace w ++ events)%list /\
               attempts_run monotonic h attempt n (rate_limiter w) events
                            (rate_limiter run.2) /\
               run.1 <> Raise max_retries_exceeded).
  { intros attempt w s Hc Hs Hexn k Hk run.
    destruct (run_ends attempt w Hc) as (events & Ht & Hrun & _).
    exists 1%nat, events.
    destruct s as [r | e |]; [| |contradiction]; subst run; cbn [fst snd];
      (split; [lia|]); (split; [exact Ht|]); (split; [exact Hrun|]).
    - discriminate.
    - intros [= He]. exact (Hexn e eq_refl He). }
  induction remaining as [|k IH]; intros attempt w Hc Hsum run; subst run;
    rewrite request_loop_S;
    destruct (attempt_once_cases attempt w Hc)
      as [(s & Hrun & Hs & Hexn & _) | (delay & Hd & Hrun & Hrem & _)];
    rewrite Hrun.
  - apply (Hend attempt w s Hc Hs Hexn 0%nat). lia.
  - exfalso. unfold retries_remain in Hrem. apply Z.ltb_lt in Hrem. lia.
  - apply (Hend attempt w s Hc Hs Hexn (S k)). lia.
  - destruct (IH (S attempt) (wait_after attempt delay w))
      as (n & events & Hn & Ht & Hruns & Hr).
    + apply log_configured, sent_configured, Hc.
    + lia.
    + destruct (run_goes_on attempt n delay w _ events Hc Hd Ht Hruns)
        as (events' & Ht' & Hruns' & _).
      exists (S n), events'. split; [lia|]. auto.
Qed.

(** X5.  Against any transport, with a limiter whose capacity and
    window are non-zero and [max_retries >= 0], [_request] runs
    between one and [max_retries + 1] iterations and adds their
    effects to the log in order: every iteration takes one unit from
    the limiter as that iteration's clock reading finds it (the unit
    is deducted, or the caller sleeps for it and the bucket is left
    empty) and then makes its HTTP call, and every iteration but the
    last then waits the backoff delay of its attempt; the limiter
    [_request] leaves is the one the last iteration left.  So there
    is one limiter unit per HTTP call and one backoff wait between two
    consecutive calls, and the run never ends in the "Max retries
    exceeded" error. *)
Theorem request_attempt_budget (w : World) :
  configured (rate_limiter w) ->
  (0 <= RetryHandler.max_retries h)%Z ->
  exists (n : nat) (events : list Event),
    (1 <= Z.of_nat n <= RetryHandler.max_retries h + 1)%Z /\
    trace (_request w).2 = (trace w ++ events)%list /\
    attempts_run monotonic h 0 n (rate_limiter w) events
                 (rate_limiter (_request w).2) /\
    http_attempts (_request w).2 = (http_attempts w + n)%nat /\
    units_acquired (_request w).2 = (units_acquired w + n)%nat /\
    length (retry_waits (_request w).2) = (length (retry_waits w) + (n - 1))%nat /\
    (_request w).1 <> Raise max_retries_exceeded.
Proof.
  intros Hc Hm. unfold BaseClient._request.
  destruct (Z.to_nat (RetryHandler.max_retries h + 1)) as [|k] eqn:Hk; [lia|].
  destruct (request_loop_budget k O w Hc ltac:(lia))
    as (n & events & Hn & Ht & Hrun & Hr).
  destruct (run_counts _ _ _ _ _ Ht Hrun) as (Hh & Hu & Hw).
  exists n, events. split; [lia|]. auto 10.
Qed.

(** X6.  The exhaustion error at the end of [_request] is what a
    negative [max_retries] gives: the loop body never runs, nothing is
    acquired or sent, and the world is left as it was. *)
Theorem negative_max_retries_sends_nothing (w : World) :
  (RetryHandler.max_retries h < 0)%Z ->
  _request w = (Raise max_retries_exceeded, w).
Proof.
  intros Hm. unfold BaseClient._request.
  replace (Z.to_nat (RetryHandler.max_retries h + 1)) with O by lia.
  cbn [BaseClient.request_loop]. now rewrite new_max_retries_exceeded.
Qed.

Lemma request_loop_recovers (failures : nat) :
  forall (attempt remaining : nat) (w : World) (r : Response),
    configured (rate_limiter w) ->
    (failures <= remaining)%nat ->
    (Z.of_nat (attempt + failures) <= RetryHandler.max_retries h)%Z ->
    (forall i, (attempt <= i < attempt + failures)%nat ->
               retryable (send i) = true) ->
    (forall i, (attempt <= i < attempt + failures)%nat -> in_range i) ->
    send (attempt + failures)%nat = Responded r ->
    (status_code r < 400)%Z ->
    let run := request_loop (S remaining) attempt w in
    run.1 = Ok r /\
    exists events,
      trace run.2 = (trace w ++ events)%list /\
      attempts_run monotonic h attempt (S failures) (rate_limiter w) events
                   (rate_limiter run.2) /\
      omap (fun e => match e with
                     | EvRetryWait _ d => Some d
                     | _ => None
                     end) events
      = (fun i => delay_of i) <$> seq attempt failures.
Proof.
  induction failures as [|j IH];
    intros attempt remaining w r Hc Hle Hmax Hfail Hin Hsend Hstatus run; subst run;
    rewrite request_loop_S.
  - rewrite Nat.add_0_r in Hsend.
    rewrite (attempt_once_sent _ _ _ _ _ _ _ Hc), Hsend, classify_success by exact Hstatus.
    cbn [fst snd]. split; [reflexivity|]. apply run_ends, Hc.
  - rewrite attempt_once_goes_on; [|exact Hc| |apply Hfail; lia|apply Hin; lia].
    2:{ unfold retries_remain. apply Z.ltb_lt. lia. }
    destruct remaining as [|remaining']; [lia|].
    destruct (IH (S attempt) remaining' (wait_after attempt (delay_of attempt) w) r)
      as (Hr & events & Ht & Hruns & Hw).
    + apply log_configured, sent_configured, Hc.
    + lia.
    + replace (S attempt + j)%nat with (attempt + S j)%nat by lia. exact Hmax.
    + intros i Hi. apply Hfail. lia.
    + intros i Hi. apply Hin. lia.
    + replace (S attempt + j)%nat with (attempt + S j)%nat by lia. exact Hsend.
    + exact Hstatus.
    + split; [exact Hr|].
      destruct (run_goes_on attempt (S j) (delay_of attempt) w _ events Hc
                            (RetryHandlerSpec.get_delay_in_range h attempt
                               (Hin attempt ltac:(lia))) Ht Hruns)
        as (events' & Ht' & Hruns' & Hw').
      exists events'. split; [exact Ht'|]. split; [exact Hruns'|].
      rewrite Hw', Hw. reflexivity.
Qed.

(** X7.  Recovery.  If the first [failures] attempts end in retryable
    outcomes (429 with retrying enabled, a 5xx status, a timeout, a
    request error), [failures <= max_retries], the powers
    [backoff_factor^i] of those attempts lie within the double range,
    and the next attempt is answered with a status below 400, then
    [_request] returns that very response after [failures + 1]
    iterations, whose effects it adds to the log in order: each takes
    one unit from the limiter as its clock reading finds it and then
    makes its HTTP call, and each but the last then waits; the waits
    are [min(base_delay * backoff_factor^i, max_delay)] for
    [i = 0, ..., failures - 1].  With [failures = 0]: a first response
    below 400 is returned at once. *)
Theorem request_recovers (failures : nat) (w : World) (r : Response) :
  configured (rate_limiter w) ->
  (Z.of_nat failures <= RetryHandler.max_retries h)%Z ->
  (forall i, (i < failures)%nat -> retryable (send i) = true) ->
  (forall i, (i < failures)%nat -> in_range i) ->
  send failures = Responded r ->
  (status_code r < 400)%Z ->
  (_request w).1 = Ok r /\
  (exists events,
      trace (_request w).2 = (trace w ++ events)%list /\
      attempts_run monotonic h 0 (S failures) (rate_limiter w) events
                   (rate_limiter (_request w).2)) /\
  http_attempts (_request w).2 = (http_attempts w + S failures)%nat /\
  units_acquired (_request w).2 = (units_acquired w + S failures)%nat /\
  retry_waits (_request w).2
  = (retry_waits w ++ ((fun i => delay_of i) <$> seq 0 failures))%list.
Proof.
  intros Hc Hmax Hfail Hin Hsend Hstatus. unfold BaseClient._request.
  destruct (Z.to_nat (RetryHandler.max_retries h + 1)) as [|k] eqn:Hk; [lia|].
  destruct (request_loop_recovers failures O k w r Hc)
    as (Hr & events & Ht & Hrun & Hw); auto; try lia.
  { intros i Hi. apply Hfail. lia. }
  { intros i Hi. apply Hin. lia. }
  destruct (run_counts _ _ _ _ _ Ht Hrun) as (Hh & Hu & _).
  split; [exact Hr|]. split; [exists events; auto|].
  split; [exact Hh|]. split; [exact Hu|].
  unfold retry_waits. now rewrite Ht, omap_app, Hw.
Qed.

(** The last iteration after a retryable outcome. *)
Lemma last_attempt_fails (attempt : nat) (w : World) :
  configured (rate_limiter w) ->
  retries_remain h attempt = false ->
  retryable (send attempt) = true ->
  exists e,
    attempt_once attempt w = (Fail e, sent attempt w) /\
    (forall t, send attempt = TimeoutException t ->
               e = network_error "Request timed out" t) /\
    (forall t, send attempt = RequestError t ->
               e = network_error "Network request failed" t) /\
    (forall r, send attempt = Responded r -> (500 <= status_code r)%Z ->
               e = service_unavailable (status_code r)) /\
    (forall r q, send attempt = Responded r -> status_code r = 429%Z ->
                 retry_after_of float_of_str r = Ok q ->
                 e = rate_limit_exceeded q) /\
    (forall r e', send attempt = Responded r -> status_code r = 429%Z ->
                  retry_after_of float_of_str r = Raise e' ->
                  e = e').
Proof.
  intros Hc Hrem Hret. rewrite (attempt_once_sent _ _ _ _ _ _ _ Hc).
  unfold RequestLog.retryable in Hret.
  destruct (send attempt) as [r | t | t].
  - destruct (Z.eqb_spec (status_code r) 429) as [E429 | N429].
    + rewrite (classify_rate_limited _ _ _ _ _ _ E429), Hrem, andb_false_r.
      eexists. split; [reflexivity|].
      split; [discriminate|]. split; [discriminate|]. split; [|split].
      * intros r' [= <-] H5. lia.
      * intros r' q [= <-] _ Hq. rewrite Hq.
        unfold mbind, result_bind, rbind. now rewrite new_rate_limit_exceeded.
      * intros r' e' [= <-] _ Hq. now rewrite Hq.
    + apply Z.leb_le in Hret.
      rewrite (classify_server_error _ _ _ _ _ _ Hret), Hrem.
      eexists. split; [reflexivity|].
      split; [discriminate|]. split; [discriminate|]. split; [|split].
      * now intros r' [= <-] _.
      * intros r' q [= <-] E. contradiction.
      * intros r' e' [= <-] E. contradiction.
  - rewrite Hrem, new_network_error. eexists. split; [reflexivity|].
    split; [now intros t' [= <-]|]. split; [discriminate|].
    split; [discriminate|]. split; discriminate.
  - rewrite Hrem, new_network_error. eexists. split; [reflexivity|].
    split; [discriminate|]. split; [now intros t' [= <-]|].
    split; [discriminate|]. split; discriminate.
Qed.

Lemma request_loop_exhausts (remaining : nat) :
  forall (attempt : nat) (w : World),
    configured (rate_limiter w) ->
    (Z.of_nat attempt + Z.of_nat (S remaining)
     = RetryHandler.max_retries h + 1)%Z ->
    (forall i, retryable (send i) = true) ->
    (forall i, (Z.of_nat i < RetryHandler.max_retries h)%Z -> in_range i) ->
    let run := request_loop (S remaining) attempt w in
    let last := (attempt + remaining)%nat in
    (exists events,
        trace run.2 = (trace w ++ events)%list /\
        attempts_run monotonic h attempt (S remaining) (rate_limiter w) events
                     (rate_limiter run.2) /\
        omap (fun e => match e with
                       | EvRetryWait _ d => Some d
                       | _ => None
                       end) events
        = (fun i => delay_of i) <$> seq attempt remaining) /\
    exists e,
      run.1 = Raise e /\
      (forall t, send last = TimeoutException t ->
                 e = network_error "Request timed out" t) /\
      (forall t, send last = RequestError t ->
                 e = network_error "Network request failed" t) /\
      (forall r, send last = Responded r -> (500 <= status_code r)%Z ->
                 e = service_unavailable (status_code r)) /\
      (forall r q, send last = Responded r -> status_code r = 429%Z ->
                   retry_after_of float_of_str r = Ok q ->
                   e = rate_limit_exceeded q) /\
      (forall r e', send last = Responded r -> status_code r = 429%Z ->
                    retry_after_of float_of_str r = Raise e' ->
                    e = e').
Proof.
  induction remaining as [|k IH]; intros attempt w Hc Hsum Hall Hin run last;
    subst run last; rewrite request_loop_S.
  - rewrite Nat.add_0_r.
    destruct (last_attempt_fails attempt w Hc) as (e & Hrun & He).
    { unfold retries_remain. apply Z.ltb_ge. lia. }
    { apply Hall. }
    rewrite Hrun. cbn [fst snd].
    split; [apply run_ends, Hc|].
    exists e. split; [reflexivity | exact He].
  - rewrite attempt_once_goes_on; [|exact Hc| |apply Hall|apply Hin; lia].
    2:{ unfold retries_remain. apply Z.ltb_lt. lia. }
    destruct (IH (S attempt) (wait_after attempt (delay_of attempt) w))
      as ((events & Ht & Hruns & Hw) & He).
    + apply log_configured, sent_configured, Hc.
    + lia.
    + exact Hall.
    + exact Hin.
    + split.
      * destruct (run_goes_on attempt (S k) (delay_of attempt) w _ events Hc
                              (RetryHandlerSpec.get_delay_in_range h attempt
                                 (Hin attempt ltac:(lia))) Ht Hruns)
          as (events' & Ht' & Hruns' & Hw').
        exists events'. split; [exact Ht'|]. split; [exact Hruns'|].
        rewrite Hw', Hw. reflexivity.
      * replace (attempt + S k)%nat with (S attempt + k)%nat by lia.
        exact He.
Qed.

(** X8.  Persistent failure.  If every attempt ends in a retryable
    outcome and the powers [backoff_factor^i] for [i < max_retries]
    lie within the double range, [_request] uses its whole budget of
    [max_retries + 1] iterations, whose effects it adds to the log in
    order: each takes one unit from the limiter as its clock reading
    finds it and then makes its HTTP call, and each but the last then
    waits [min(base_delay * backoff_factor^i, max_delay)].  It then
    raises the error of the last outcome: [NetworkError] "Request timed
    out" or "Network request failed" carrying the text of the last
    exception, [ServiceUnavailableError] for a last status of 500 or
    more, and for a last 429 [RateLimitError] with the [float] of the
    response's [Retry-After] value (all lines of that name joined with
    a comma; 60 without one), or what [float] raised on that value. *)
Theorem request_exhausts_budget (w : World) :
  configured (rate_limiter w) ->
  (0 <= RetryHandler.max_retries h)%Z ->
  (forall i, retryable (send i) = true) ->
  (forall i, (Z.of_nat i < RetryHandler.max_retries h)%Z -> in_range i) ->
  let budget := Z.to_nat (RetryHandler.max_retries h) in
  (exists events,
      trace (_request w).2 = (trace w ++ events)%list /\
      attempts_run monotonic h 0 (S budget) (rate_limiter w) events
                   (rate_limiter (_request w).2)) /\
  http_attempts (_request w).2 = (http_attempts w + S budget)%nat /\
  units_acquired (_request w).2 = (units_acquired w + S budget)%nat /\
  retry_waits (_request w).2
  = (retry_waits w ++ ((fun i => delay_of i) <$> seq 0 budget))%list /\
  exists e,
    (_request w).1 = Raise e /\
    (forall t, send budget = TimeoutException t ->
               e = network_error "Request timed out" t) /\
    (forall t, send budget = RequestError t ->
               e = network_error "Network request failed" t) /\
    (forall r, send budget = Responded r -> (500 <= status_code r)%Z ->
               e = service_unavailable (status_code r)) /\
    (forall r q, send budget = Responded r -> status_code r = 429%Z ->
                 retry_after_of float_of_str r = Ok q ->
                 e = rate_limit_exceeded q) /\
    (forall r e', send budget = Responded r -> status_code r = 429%Z ->
                  retry_after_of float_of_str r = Raise e' ->
                  e = e').
Proof.
  intros Hc Hm Hall Hin budget. unfold BaseClient._request.
  replace (Z.to_nat (RetryHandler.max_retries h + 1)) with (S budget)
    by (subst budget; lia).
  destruct (request_loop_exhausts budget O w Hc)
    as ((events & Ht & Hrun & Hw) & He);
    [subst budget; lia | exact Hall | exact Hin |].
  destruct (run_counts _ _ _ _ _ Ht Hrun) as (Hh & Hu & _).
  split; [exists events; auto|].
  split; [exact Hh|]. split; [exact Hu|].
  split; [|exact He].
  unfold retry_waits. now rewrite Ht, omap_app, Hw.
Qed.

End Loop.

(** The limiter and schedule a client without API key is created with. *)
Lemma default_world_configured :
  configured (rate_limiter (mkWorld (RateLimiter.init 3 1 0) [])).
Proof. split; [discriminate | intros H; discriminate H]. Qed.

(** A timeout followed by a 200. *)
Lemma request_attempt_budget_witness :
  exists (n : nat) (events : list Event),
    (1 <= Z.of_nat n <= 3 + 1)%Z /\
    trace
      (_request float_of_digits (fun _ => 0)
                (fun i => match i with
                          | O => TimeoutException "read timeout"
                          | _ => Responded (mkResponse 200 "ok" [])
                          end)
                (RetryHandler.mk 3 1 (3 # 2) 60) true
                (mkWorld (RateLimiter.init 3 1 0) [])).2
    = ([] ++ events)%list /\
    attempts_run (fun _ => 0) (RetryHandler.mk 3 1 (3 # 2) 60) 0 n
                 (RateLimiter.init 3 1 0) events
                 (rate_limiter
                    (_request float_of_digits (fun _ => 0)
                              (fun i => match i with
                                        | O => TimeoutException "read timeout"
                                        | _ => Responded (mkResponse 200 "ok" [])
                                        end)
                              (RetryHandler.mk 3 1 (3 # 2) 60) true
                              (mkWorld (RateLimiter.init 3 1 0) [])).2).
Proof.
  destruct (request_attempt_budget
              float_of_digits (fun _ => 0)
              (fun i => match i with
                        | O => TimeoutException "read timeout"
                        | _ => Responded (mkResponse 200 "ok" [])
                        end)
              (RetryHandler.mk 3 1 (3 # 2) 60) true
              (mkWorld (RateLimiter.init 3 1 0) [])
              default_world_configured ltac:(discriminate))
    as (n & events & Hn & Ht & Hrun & _).
  exists n, events. split; [exact Hn|]. split; [exact Ht | exact Hrun].
Defined.

Lemma negative_max_retries_sends_nothing_witness :
  _request float_of_digits (fun _ => 0)
           (fun _ => Responded (mkResponse 200 "ok" []))
           (RetryHandler.mk (-1) 1 2 60) true
           (mkWorld (RateLimiter.init 3 1 0) [])
  = (Raise max_retries_exceeded, mkWorld (RateLimiter.init 3 1 0) []).
Proof.
  exact (negative_max_retries_sends_nothing
           float_of_digits (fun _ => 0)
           (fun _ => Responded (mkResponse 200 "ok" []))
           (RetryHandler.mk (-1) 1 2 60) true
           (mkWorld (RateLimiter.init 3 1 0) []) eq_refl).
Defined.

(** A 503, then a timeout, then a 200: the client's schedule waits 1 s
    and 1.5 s and the third call's response comes back. *)
Lemma request_recovers_witness :
  let send := fun i => match i with
                       | O => Responded (mkResponse 503 "busy" [])
                       | S O => TimeoutException "read timeout"
                       | _ => Responded (mkResponse 200 "ok" [])
                       end in
  let run := _request float_of_digits (fun _ => 0) send
                      (RetryHandler.mk 3 1 (3 # 2) 60) true
                      (mkWorld (RateLimiter.init 3 1 0) []) in
  run.1 = Ok (mkResponse 200 "ok" []) /\
  http_attempts run.2 = 3%nat /\
  units_acquired run.2 = 3%nat /\
  retry_waits run.2 = [RetryHandler.spec_delay 1 (3 # 2) 60 0;
                       RetryHandler.spec_delay 1 (3 # 2) 60 1].
Proof.
  intros send run.
  destruct (request_recovers
              float_of_digits (fun _ => 0) send
              (RetryHandler.mk 3 1 (3 # 2) 60) true 2
              (mkWorld (RateLimiter.init 3 1 0) [])
              (mkResponse 200 "ok" [])
              default_world_configured ltac:(discriminate))
    as (Hr & _ & Hh & Hu & Hw).
  - intros [|[|i]] Hi; [reflexivity | reflexivity | lia].
  - intros [|[|i]] Hi; [vm_compute; reflexivity | vm_compute; reflexivity | lia].
  - reflexivity.
  - cbn. lia.
  - split; [exact Hr|]. split; [exact Hh|]. split; [exact Hu | exact Hw].
Defined.

(** A server that never answers in time. *)
Lemma request_exhausts_budget_witness :
  let run := _request float_of_digits (fun _ => 0)
                      (fun _ => TimeoutException "read timeout")
                      (RetryHandler.mk 3 1 (3 # 2) 60) true
                      (mkWorld (RateLimiter.init 3 1 0) []) in
  http_attempts run.2 = 4%nat /\
  units_acquired run.2 = 4%nat /\
  retry_waits run.2 = [RetryHandler.spec_delay 1 (3 # 2) 60 0;
                       RetryHandler.spec_delay 1 (3 # 2) 60 1;
                       RetryHandler.spec_delay 1 (3 # 2) 60 2] /\
  run.1 = Raise (network_error "Request timed out" "read timeout").
Proof.
  intros run.
  destruct (request_exhausts_budget
              float_of_digits (fun _ => 0)
              (fun _ => TimeoutException "read timeout")
              (RetryHandler.mk 3 1 (3 # 2) 60) true
              (mkWorld (RateLimiter.init 3 1 0) [])
              default_world_configured ltac:(discriminate) (fun _ => eq_refl))
    as (_ & Hh & Hu & Hw & e & He & Htime & _).
  - intros [|[|[|i]]] Hi; [vm_compute; reflexivity.. | cbn in Hi; lia].
  - split; [exact Hh|]. split; [exact Hu|]. split; [exact Hw|].
    fold run in He. rewrite He.
    now rewrite (Htime "read timeout" eq_refl).
Defined.

(** X22.  [update_limit(0)] does not pause a limiter, it breaks it: from
    then on every [acquire] raises [ZeroDivisionError], whatever the
    bucket holds and whatever the clock reads, and a request through
    such a limiter fails with that error on its first iteration without
    any HTTP call and without retrying. *)
Theorem zero_limit_breaks_requests
        (float_of_str : string -> option Q) (monotonic : nat -> Q)
        (send : nat -> Outcome) (h : RetryHandler.t)
        (retry_on_rate_limit : bool) (l : RateLimiter.t) (events : list Event) :
  (forall now, result (acquire (update_limit l 0) now) = Raise ZeroDivisionError) /\
  ((0 <= RetryHandler.max_retries h)%Z ->
   let run := _request float_of_str monotonic send h retry_on_rate_limit
                       (mkWorld (update_limit l 0) events) in
   run.1 = Raise ZeroDivisionError /\
   http_attempts run.2 = http_attempts (mkWorld (update_limit l 0) events) /\
   retry_waits run.2 = retry_waits (mkWorld (update_limit l 0) events)).
Proof.
  assert (Hacq : forall now,
             result (acquire (update_limit l 0) now) = Raise ZeroDivisionError).
  { intros now. unfold acquire, update_limit.
    cbn [max_requests window tokens last_update].
    unfold py_div at 1.
    destruct (Qeq_bool (window l) 0); [reflexivity|].
    destruct (Qlt_le_dec _ 1) as [Hlt | Hge].
    - reflexivity.
    - exfalso. rewrite py_min_Qmin in Hge.
      pose proof (Q.le_min_l (inject_Z 0)
                    (tokens l + (now - last_update l) * (inject_Z 0 / window l))).
      change (inject_Z 0) with 0 in *. lra. }
  split; [exact Hacq|].
  intros Hm run. subst run. unfold _request.
  destruct (Z.to_nat (RetryHandler.max_retries h + 1)) as [|k] eqn:Hk; [lia|].
  cbn [request_loop]. unfold attempt_once. cbn [rate_limiter].
  rewrite Hacq. cbn [fst snd].
  unfold http_attempts, retry_waits. cbn [trace].
  rewrite List.filter_app, omap_app, length_app. cbn.
  rewrite app_nil_r, Nat.add_0_r. auto.
Qed.

Lemma zero_limit_breaks_requests_witness :
  (_request float_of_digits (fun _ => 0)
            (fun _ => Responded (mkResponse 200 "ok" []))
            (RetryHandler.mk 3 1 (3 # 2) 60) true
            (mkWorld (update_limit (RateLimiter.init 3 1 0) 0) [])).1
  = Raise ZeroDivisionError.
Proof.
  destruct (zero_limit_breaks_requests
              float_of_digits (fun _ => 0)
              (fun _ => Responded (mkResponse 200 "ok" []))
              (RetryHandler.mk 3 1 (3 # 2) 60) true (RateLimiter.init 3 1 0) [])
    as [_ Hrun].
  destruct (Hrun ltac:(discriminate)) as [Hr _]. exact Hr.
Defined.

End RequestCoreMore.

(** ** Constructors and [to_dict] of the error classes *)

Module ErrorDictFacts.
Import ErrorHandler ErrorDict.

Lemma check_keywords_undeclared (callee : string) (params : list string)
      (kwargs : list (string * PyVal)) (k : string) :
  In k (fst <$> kwargs) ->
  existsb (String.eqb k) params = false ->
  exists k', check_keywords callee params kwargs
             = Raise (TypeError (UnexpectedKeyword callee k')).
Proof.
  induction kwargs as [|[k0 v] rest IH]; intros Hin Hk; [destruct Hin|].
  cbn [check_keywords]. cbn in Hin.
  destruct (existsb (String.eqb k0) params) eqn:E0.
  - destruct Hin as [-> | Hin]; [congruence|]. now apply IH.
  - eauto.
Qed.

(** X9.  Only [PubMedError] itself takes a [details] keyword.  Creating
    an instance of any of its seven subclasses with [details=...] among
    the keyword arguments raises [TypeError] (unexpected keyword
    argument) instead of returning the error object, as every
    [raise InvalidQueryError(message=..., details=...)] in the clients
    does; [PubMedError(message=..., details=...)] stores both. *)
Theorem details_keyword_only_for_base :
  (forall (c : ErrClass) (kwargs : list (string * PyVal)),
      c <> PubMedError ->
      In "details" (fst <$> kwargs) ->
      exists k, new c kwargs
                = Raise (TypeError
                           (UnexpectedKeyword (class_name c ++ ".__init__") k))) /\
  (forall message details : PyVal,
      new PubMedError [("message", message); ("details", details)]
      = Ok (Instance "PubMedError"
                     {[ "message" := message; "details" := details ]})).
Proof.
  split.
  - intros c kwargs Hc Hin. unfold new.
    destruct (check_keywords_undeclared
                (class_name c ++ ".__init__") (fst <$> init_signature c)
                kwargs "details" Hin) as (k & Hk).
    { destruct c; [contradiction|..]; reflexivity. }
    exists k. now rewrite Hk.
  - intros message details. vm_compute. reflexivity.
Qed.

(** The call the E-utilities client makes when a search result does not
    parse. *)
Lemma details_keyword_only_for_base_witness :
  exists k,
    new InvalidQueryError
        [("message", PyStr "Failed to parse search results");
         ("details", PyStr "Expecting value: line 1 column 1 (char 0)")]
    = Raise (TypeError (UnexpectedKeyword "InvalidQueryError.__init__" k)).
Proof.
  destruct details_keyword_only_for_base as [Hsub _].
  apply (Hsub InvalidQueryError); [discriminate|].
  right. left. reflexivity.
Defined.

Lemma new_attrs (c : ErrClass) (kwargs : list (string * PyVal))
      (name : string) (attrs : gmap string PyVal) :
  new c kwargs = Ok (Instance name attrs) ->
  name = class_name c /\
  (c <> PubMedError -> attrs !! "details" = Some PyNone).
Proof.
  unfold new, mbind, result_bind, rbind.
  destruct (check_keywords _ _ kwargs); [|discriminate].
  destruct (bind_params _ _ kwargs) as [bound|]; [|discriminate].
  intros [= <- <-]. split; [reflexivity|].
  intros Hc. destruct c; [contradiction|..]; apply lookup_insert_eq.
Qed.

Ltac to_dict_cases :=
  unfold to_dict, base_to_dict, own_fields; cbn [foldl];
  repeat match goal with
         | |- context [if truthy ?v then _ else _] => destruct (truthy v) eqn:?
         end;
  simplify_map_eq; try reflexivity; try congruence.

(** X10.  The dictionary [to_dict] builds for an error object that a
    constructor returned: it always names the class under ["error"] and
    the message under ["message"]; each class-specific attribute appears
    under its key exactly when it is truthy, so a [retry_after] of 0, an
    empty string or [None] is left out; and for the seven subclasses
    there never is a ["details"] entry. *)
Theorem to_dict_entries (c : ErrClass) (kwargs : list (string * PyVal))
        (name : string) (attrs : gmap string PyVal) :
  new c kwargs = Ok (Instance name attrs) ->
  to_dict c attrs !! "error" = Some (PyStr name) /\
  to_dict c attrs !! "message" = Some (dict_get attrs "message" PyNone) /\
  (forall attr key,
      In (attr, key) (own_fields c) ->
      to_dict c attrs !! key
      = if truthy (dict_get attrs attr PyNone)
        then Some (dict_get attrs attr PyNone) else None) /\
  (c <> PubMedError -> to_dict c attrs !! "details" = None).
Proof.
  intros Hnew. destruct (new_attrs c kwargs name attrs Hnew) as [-> Hdet].
  split; [|split; [|split]].
  - destruct c; to_dict_cases.
  - destruct c; to_dict_cases.
  - intros attr key Hin.
    destruct c; cbn [own_fields] in Hin;
      repeat (destruct Hin as [[= <- <-] | Hin]; [to_dict_cases|]);
      destruct Hin.
  - intros Hc. specialize (Hdet Hc).
    assert (Hd : dict_get attrs "details" PyNone = PyNone)
      by (unfold dict_get; now rewrite Hdet).
    destruct c; [contradiction|..];
      unfold to_dict, base_to_dict, own_fields; rewrite Hd; cbn [truthy foldl];
      repeat match goal with
             | |- context [if truthy ?v then _ else _] => destruct (truthy v)
             end;
      simplify_map_eq; reflexivity.
Qed.

(** A [RateLimitError] told to retry after 0 seconds: no
    ["retry_after_seconds"] and no ["details"]. *)
Lemma to_dict_entries_witness :
  let attrs : gmap string PyVal :=
    {[ "message" := PyStr "Rate limit exceeded after retries";
       "details" := PyNone; "retry_after" := PyFloat 0 ]} in
  to_dict RateLimitError attrs !! "error" = Some (PyStr "RateLimitError") /\
  to_dict RateLimitError attrs !! "retry_after_seconds" = None /\
  to_dict RateLimitError attrs !! "details" = None.
Proof.
  intros attrs.
  destruct (to_dict_entries
              RateLimitError
              [("message", PyStr "Rate limit exceeded after retries");
               ("retry_after", PyFloat 0)]
              "RateLimitError" attrs eq_refl)
    as (Herr & _ & Hown & Hdet).
  split; [exact Herr|]. split.
  - exact (Hown "retry_after" "retry_after_seconds" (or_introl eq_refl)).
  - apply Hdet. discriminate.
Defined.

End ErrorDictFacts.

(** ** Client construction and request parameters *)

Module ClientSetupFacts.
Import BaseClient RequestLog RateLimiterFacts RequestCoreMore.
Import ClientSetup.


(** The client the constructor builds meets what the request theorems
    ask of a limiter and of a schedule: capacity and window are not zero,
    and the powers of its backoff factor for the attempts it can retry
    are far inside the double range. *)
Lemma init_configured (cfg : Config) (key : option string) (now : Q) :
  RateLimiter.configured (rate_limiter (init cfg key now)).
Proof.
  unfold init. destruct (truthy _); split; cbn;
    (discriminate || (intros H; discriminate H)).
Qed.

Lemma init_schedule_in_range (cfg : Config) (key : option string) (now : Q)
      (attempt : nat) :
  (Z.of_nat attempt < RetryHandler.max_retries (retry_handler (init cfg key now)))%Z ->
  in_double_range
    (RetryHandler.backoff_factor (retry_handler (init cfg key now)) ^ Z.of_nat attempt).
Proof.
  cbn. unfold MAX_RETRIES. intros H.
  destruct attempt as [|[|[|n]]]; [vm_compute; reflexivity.. | lia].
Qed.



Section Params.
Variable str_of_float : Q -> string.

Lemma add_param_lookup (params : gmap string string) (k0 : string) (a : Arg)
      (k : string) :
  add_param str_of_float params (k0, a) !! k
  = if decide (k0 = k)
    then match rendered str_of_float a with
         | Some s => Some s
         | None => params !! k
         end
    else params !! k.
Proof.
  unfold add_param, rendered. cbn [fst snd].
  destruct a as [[] | items]; case_decide; simplify_map_eq; reflexivity.
Qed.

Lemma foldl_add_param_lookup (kwargs : list (string * Arg)) :
  forall (params : gmap string string) (k : string),
    NoDup (fst <$> kwargs) ->
    foldl (add_param str_of_float) params kwargs !! k
    = match (list_to_map kwargs : gmap string Arg) !! k
            ≫= rendered str_of_float with
      | Some s => Some s
      | None => params !! k
      end.
Proof.
  induction kwargs as [|[k0 a] rest IH]; intros params k Hnd; [reflexivity|].
  cbn [foldl]. apply NoDup_cons in Hnd as [Hk0 Hnd].
  rewrite (IH _ k Hnd), add_param_lookup. cbn [list_to_map foldr fst snd].
  case_decide as Hk.
  - subst k0. rewrite lookup_insert_eq.
    rewrite (not_elem_of_list_to_map_1 (M := gmap string) rest k Hk0).
    reflexivity.
  - now rewrite lookup_insert_ne.
Qed.

Lemma build_params_lookup_gen (cfg : Config) (c : Client)
      (kwargs : list (string * Arg)) (k : string) :
  NoDup (fst <$> kwargs) ->
  _build_params str_of_float cfg c kwargs !! k
  = match (list_to_map kwargs : gmap string Arg) !! k
          ≫= rendered str_of_float with
    | Some s => Some s
    | None =>
        if decide (k = "tool") then Some (TOOL_NAME cfg)
        else if decide (k = "email") then Some (TOOL_EMAIL cfg)
        else if decide (k = "api_key")
             then match api_key c with
                  | Some key => if truthy (PyStr key) then Some key else None
                  | None => None
                  end
             else None
    end.
Proof.
  intros Hnd. unfold _build_params.
  rewrite (foldl_add_param_lookup kwargs _ k Hnd).
  destruct (_ ≫= _) as [s|]; [reflexivity|].
  destruct (api_key c) as [key|]; [destruct (truthy (PyStr key))|];
    (destruct (decide (k = "tool")) as [-> | Htool]; [reflexivity|]);
    (destruct (decide (k = "email")) as [-> | Hemail]; [reflexivity|]);
    (destruct (decide (k = "api_key")) as [-> | Hkey]; [reflexivity|]);
    rewrite ?lookup_insert_ne by congruence;
    rewrite lookup_singleton_ne by congruence; reflexivity.
Qed.

(** X12.  What [_build_params] sends for a key.  A keyword argument
    that is not [None] is sent under its name, a bool as "y" or "n", a
    list as the comma-joined [str] of its items, anything else as its
    [str]; it replaces the identity field of the same name.  A key
    whose argument is [None] or missing keeps the identity value:
    ["tool"] and ["email"] from the configuration, ["api_key"] when the
    client has a non-empty key, and nothing for any other key. *)
Theorem build_params_lookup (cfg : Config) (c : Client)
        (kwargs : list (string * Arg)) (k : string) :
  NoDup (fst <$> kwargs) ->
  _build_params str_of_float cfg c kwargs !! k
  = match (list_to_map kwargs : gmap string Arg) !! k
          ≫= rendered str_of_float with
    | Some s => Some s
    | None =>
        if decide (k = "tool") then Some (TOOL_NAME cfg)
        else if decide (k = "email") then Some (TOOL_EMAIL cfg)
        else if decide (k = "api_key")
             then match api_key c with
                  | Some key => if truthy (PyStr key) then Some key else None
                  | None => None
                  end
             else None
    end.
Proof. apply build_params_lookup_gen. Qed.

End Params.

(** The parameters of an ESearch call by a client with a key: the flag
    goes out as "y", the missing date filter not at all, the identity
    fields are added. *)
Lemma build_params_lookup_witness :
  let cfg := mkConfig None "pubmed-mcp-server" "pubmed-mcp@example.com" in
  let c := init cfg (Some "KEY") 0 in
  let kwargs := [("db", ArgVal (PyStr "pubmed")); ("retmax", ArgVal (PyInt 50));
                 ("usehistory", ArgVal (PyBool true));
                 ("mindate", ArgVal PyNone)] in
  let params := _build_params (fun _ => "") cfg c kwargs in
  params !! "usehistory" = Some "y" /\
  params !! "retmax" = Some "50" /\
  params !! "mindate" = None /\
  params !! "api_key" = Some "KEY" /\
  params !! "tool" = Some "pubmed-mcp-server".
Proof.
  intros cfg c kwargs params.
  assert (Hnd : NoDup (fst <$> kwargs)).
  { apply (bool_decide_unpack (NoDup (fst <$> kwargs))). vm_compute. exact I. }
  pose proof (fun k => build_params_lookup (fun _ => "") cfg c kwargs k Hnd) as H.
  subst params. rewrite !H. repeat split; reflexivity.
Defined.

End ClientSetupFacts.

(** ** What the E-utilities client puts on the wire *)

Module EUtilitiesFacts.
Import ClientSetup ClientSetupFacts EUtilities.

Ltac keys_distinct :=
  match goal with
  | |- NoDup ?l => apply (bool_decide_unpack (NoDup l)); vm_compute; exact I
  end.

Section Sent.
Variable str_of_float : Q -> string.
Variable cfg : Config.
Variable c : Client.

Local Abbreviation lookup_sent :=
  (build_params_lookup_gen str_of_float cfg c).

(** X13.  The source of an EFetch request.  A non-empty id list wins:
    the request carries ["id"] (the ids joined by commas) and neither
    ["query_key"] nor ["WebEnv"], whatever history reference was passed
    along.  Without ids, a history reference is used only when query key
    and WebEnv are both truthy.  In every other case [fetch] raises
    [ValueError] before anything is sent. *)
Theorem fetch_source (db : string) (ids : option (list string))
        (rettype retmode : string) (query_key web_env : PyVal)
        (retmax retstart : Z) :
  let sent := fetch_params str_of_float cfg c db ids rettype retmode
                           query_key web_env retmax retstart in
  (has_ids ids = true ->
     exists params,
       sent = Ok params /\
       params !! "id" = Some (join "," (default [] ids)) /\
       params !! "query_key" = None /\ params !! "WebEnv" = None) /\
  (has_ids ids = false -> truthy query_key && truthy web_env = true ->
     exists params,
       sent = Ok params /\
       params !! "id" = None /\
       params !! "query_key" = rendered str_of_float (ArgVal query_key) /\
       params !! "WebEnv" = rendered str_of_float (ArgVal web_env)) /\
  (has_ids ids = false -> truthy query_key && truthy web_env = false ->
     sent = Raise (ValueError "Either ids or query_key/web_env must be provided")).
Proof.
  intros sent. subst sent. unfold fetch_params, fetch_kwargs, source_kwargs.
  split; [|split].
  - intros ->. eexists. split; [reflexivity|].
    rewrite !lookup_sent by keys_distinct. repeat split; reflexivity.
  - intros -> ->. eexists. split; [reflexivity|].
    rewrite !lookup_sent by keys_distinct.
    split; [reflexivity|]. split.
    + replace (list_to_map _ !! "query_key") with (Some (ArgVal query_key))
        by reflexivity.
      cbn [mbind option_bind].
      now destruct (rendered str_of_float (ArgVal query_key)).
    + replace (list_to_map _ !! "WebEnv") with (Some (ArgVal web_env))
        by reflexivity.
      cbn [mbind option_bind].
      now destruct (rendered str_of_float (ArgVal web_env)).
  - intros -> ->. reflexivity.
Qed.

Lemma link_params_no_source (dbfrom db : string) (ids : option (list string))
      (cmd : string) (linkname : option string)
      (query_key web_env : PyVal) (retmode : string) :
  has_ids ids = false ->
  truthy query_key && truthy web_env = false ->
  let params := link_params str_of_float cfg c dbfrom db ids cmd linkname
                            query_key web_env retmode in
  params !! "id" = None /\
  params !! "query_key" = None /\
  params !! "WebEnv" = None /\
  params !! "dbfrom" = Some dbfrom /\
  params !! "db" = Some db /\
  params !! "cmd" = Some cmd /\
  params !! "retmode" = Some retmode.
Proof.
  intros Hids Hsrc params. subst params.
  unfold link_params, link_kwargs, source_kwargs, opt_arg.
  rewrite Hids, Hsrc.
  destruct (truthy (SessionManager.py_opt_str linkname));
    rewrite !lookup_sent by keys_distinct; repeat split; reflexivity.
Qed.

(** X14.  The source of an ELink request is chosen the same way, but
    where [fetch] raises, [link] goes on: when there are no ids and the
    query key or the WebEnv is [None] or empty, the request is sent with
    ["dbfrom"], ["db"], ["cmd"] and ["retmode"] and with no ["id"],
    ["query_key"] or ["WebEnv"] at all. *)
Theorem link_without_source (dbfrom db : string) (ids : option (list string))
        (cmd : string) (linkname : option string)
        (query_key web_env : PyVal) (retmode : string) :
  has_ids ids = false ->
  truthy query_key && truthy web_env = false ->
  let params := link_params str_of_float cfg c dbfrom db ids cmd linkname
                            query_key web_env retmode in
  params !! "id" = None /\
  params !! "query_key" = None /\
  params !! "WebEnv" = None /\
  params !! "dbfrom" = Some dbfrom /\
  params !! "db" = Some db /\
  params !! "cmd" = Some cmd /\
  params !! "retmode" = Some retmode.
Proof. apply link_params_no_source. Qed.

(** X15.  The ESearch request: the term is the query as given, the
    number of ids asked for is capped at 10000, the history flag goes
    out as "y" or "n", and each date filter is sent exactly when it is a
    non-empty string. *)
Theorem search_request (db query : string) (retmax retstart : Z)
        (sort : string) (usehistory : bool) (rettype : string)
        (datetype mindate maxdate : option string) :
  let params := search_params str_of_float cfg c db query retmax retstart sort
                              usehistory rettype datetype mindate maxdate in
  let filter (o : option string) :=
    if truthy (SessionManager.py_opt_str o) then o else None in
  params !! "db" = Some db /\
  params !! "term" = Some query /\
  params !! "retmax" = Some (str_of_int (Z.min retmax 10000)) /\
  params !! "usehistory" = Some (if usehistory then "y" else "n") /\
  params !! "datetype" = filter datetype /\
  params !! "mindate" = filter mindate /\
  params !! "maxdate" = filter maxdate.
Proof.
  intros params filter. subst params filter.
  unfold search_params, search_kwargs, opt_arg.
  destruct datetype as [dt|], mindate as [mi|], maxdate as [ma|];
    cbn [SessionManager.py_opt_str truthy];
    repeat match goal with
           | |- context [negb (String.eqb ?s "")] =>
               destruct (negb (String.eqb s "")) eqn:?
           end;
    rewrite !lookup_sent by keys_distinct;
    destruct usehistory; repeat split; reflexivity.
Qed.

End Sent.

(** Ids and a history reference together: the ids go out. *)
Lemma fetch_source_witness :
  exists params,
    fetch_params (fun _ => "") (mkConfig None "tool" "mail") (init (mkConfig None "tool" "mail") None 0)
                 "pubmed" (Some ["1"; "22"]) "abstract" "xml"
                 (PyStr "3") (PyStr "ENV1") 500 0
    = Ok params /\
    params !! "id" = Some "1,22" /\ params !! "query_key" = None.
Proof.
  destruct (fetch_source (fun _ => "") (mkConfig None "tool" "mail")
                         (init (mkConfig None "tool" "mail") None 0)
                         "pubmed" (Some ["1"; "22"]) "abstract" "xml"
                         (PyStr "3") (PyStr "ENV1") 500 0)
    as [Hids _].
  destruct (Hids eq_refl) as (params & Hp & Hid & Hqk & _).
  exists params. split; [exact Hp|]. split; [exact Hid | exact Hqk].
Defined.

(** A link from a step without query key. *)
Lemma link_without_source_witness :
  let params :=
    link_params (fun _ => "") (mkConfig None "tool" "mail")
                (init (mkConfig None "tool" "mail") None 0)
                "pubmed" "pmc" None "neighbor_history" None
                PyNone (PyStr "ENV1") "json" in
  params !! "query_key" = None /\ params !! "WebEnv" = None /\
  params !! "cmd" = Some "neighbor_history".
Proof.
  intros params.
  destruct (link_without_source (fun _ => "") (mkConfig None "tool" "mail")
                                (init (mkConfig None "tool" "mail") None 0)
                                "pubmed" "pmc" None "neighbor_history" None
                                PyNone (PyStr "ENV1") "json" eq_refl eq_refl)
    as (_ & Hqk & Hwe & _ & _ & Hcmd & _).
  split; [exact Hqk|]. split; [exact Hwe | exact Hcmd].
Defined.

End EUtilitiesFacts.

(** ** More of the session manager *)

Module SessionManagerMore.
Import ErrorHandler SessionManager SessionManagerFacts SessionFetch.

Lemma new_no_steps : no_steps = pubmed_error "No steps in pipeline".
Proof. vm_compute. reflexivity. Qed.

Lemma new_cannot_fetch : cannot_fetch = pubmed_error "Cannot fetch: no active session".
Proof. vm_compute. reflexivity. Qed.

Lemma new_step_not_found (n : Z) :
  step_not_found n = pubmed_error ("Step " ++ str_of_int n ++ " not found in pipeline").
Proof. unfold step_not_found. apply new_pubmed_error. Qed.

(** In a numbered list the step found under number [i + 1] is the one at
    index [i]. *)
Lemma find_numbered (l : list PipelineStep) :
  forall (offset i : nat) (s : PipelineStep),
    step_number <$> l = Z.of_nat <$> seq (S offset) (length l) ->
    l !! i = Some s ->
    List.find (fun s' => (step_number s' =? Z.of_nat (S offset + i))%Z) l = Some s.
Proof.
  induction l as [|s0 l IH]; intros offset i s Hnum Hi; [discriminate|].
  cbn in Hnum. injection Hnum as H0 Hrest.
  cbn [List.find]. destruct i as [|i].
  - cbn in Hi. injection Hi as <-.
    rewrite Nat.add_0_r, H0, Z.eqb_refl. reflexivity.
  - cbn in Hi.
    destruct (Z.eqb_spec (step_number s0) (Z.of_nat (S offset + S i))) as [E|_]; [lia|].
    replace (S offset + S i)%nat with (S (S offset) + i)%nat by lia.
    now apply IH.
Qed.

(** X16.  [fetch_results] resolves its step before it calls the client.
    Without session handle it raises "Cannot fetch: no active session";
    with a non-zero step number that no step carries, "Step N not found
    in pipeline"; without a step number (or with 0) on an empty step
    list, "No steps in pipeline"; in all three cases the client is not
    called.  Otherwise the client's [fetch] is called once, for the
    database and query key of the last step, or on a manager that keeps
    the numbering discipline of the step at position [n] when [n] is
    given, together with the current session handle and the paging
    arguments, and its result or exception is passed on unchanged. *)
Theorem fetch_results_resolution
        (fetch : FetchRequest -> Result string) (m : t)
        (retmax retstart : Z) (rettype retmode : string) :
  let run step := fetch_results fetch m step retmax retstart rettype retmode in
  let request s := mkFetchRequest (database s) (query_key s) (web_env m)
                                  retmax retstart rettype retmode in
  (forall step, truthy (web_env m) = false ->
      run step = (Raise (pubmed_error "Cannot fetch: no active session"), [])) /\
  (forall n, truthy (web_env m) = true -> n <> 0%Z ->
      (forall s, In s (steps m) -> step_number s <> n) ->
      run (Some n)
      = (Raise (pubmed_error ("Step " ++ str_of_int n ++ " not found in pipeline")),
         [])) /\
  (forall step, truthy (web_env m) = true ->
      step = None \/ step = Some 0%Z ->
      (steps m = [] ->
         run step = (Raise (pubmed_error "No steps in pipeline"), [])) /\
      (forall s, last (steps m) = Some s ->
         run step = (fetch (request s), [request s]))) /\
  (forall (i : nat) s, truthy (web_env m) = true -> numbered m ->
      steps m !! i = Some s ->
      run (Some (Z.of_nat (S i))) = (fetch (request s), [request s])).
Proof.
  intros run request. subst run request. unfold fetch_results.
  split; [|split; [|split]].
  - intros step ->. cbn [negb]. now rewrite new_cannot_fetch.
  - intros n -> Hn Habs. cbn [negb]. unfold resolve_step.
    cbn [py_opt_int truthy default from_option].
    destruct (Z.eqb_spec n 0) as [|_]; [contradiction|]. cbn [negb].
    destruct (List.find _ (steps m)) as [s|] eqn:Hfind.
    + apply List.find_some in Hfind as [Hin Heq].
      apply Z.eqb_eq in Heq. exfalso. exact (Habs s Hin Heq).
    + now rewrite new_step_not_found.
  - intros step -> Hstep. cbn [negb].
    assert (Hres : resolve_step m step
                   = match last (steps m) with
                     | None => Raise no_steps
                     | Some s => Ok s
                     end).
    { destruct Hstep as [-> | ->]; reflexivity. }
    rewrite Hres. split.
    + intros ->. cbn [last]. now rewrite new_no_steps.
    + intros s ->. reflexivity.
  - intros i s -> [Hnum _] Hi. cbn [negb]. unfold resolve_step.
    cbn [py_opt_int truthy default from_option].
    destruct (Z.eqb_spec (Z.of_nat (S i)) 0) as [|_]; [lia|]. cbn [negb].
    pose proof (find_numbered (steps m) 0 i s Hnum Hi) as Hfind.
    cbn [Nat.add] in Hfind. unfold id. now rewrite Hfind.
Qed.

(** The manager after one start with the example client. *)
Lemma fetch_results_resolution_witness :
  let m := mgr (start_session example_client "pubmed" "cancer" fresh).2 in
  let fetch := fun _ : FetchRequest => Ok "<PubmedArticleSet/>" in
  fetch_results fetch m (Some 7%Z) 500 0 "abstract" "xml"
  = (Raise (pubmed_error "Step 7 not found in pipeline"), []) /\
  fetch_results fetch m None 500 0 "abstract" "xml"
  = (Ok "<PubmedArticleSet/>",
     [mkFetchRequest "pubmed" (PyStr "1") (PyStr "ENV1") 500 0 "abstract" "xml"]).
Proof.
  intros m fetch.
  destruct (fetch_results_resolution fetch m 500 0 "abstract" "xml")
    as (_ & Habsent & Hlast & _).
  split.
  - apply (Habsent 7%Z eq_refl); [discriminate|].
    intros s [<- | []]. discriminate.
  - destruct (Hlast None eq_refl (or_introl eq_refl)) as [_ Hs].
    exact (Hs _ eq_refl).
Defined.

(** X17.  A step recorded without query key is a dead end for the
    E-utilities client.  When the last step of a manager with a session
    handle has a [None] or empty query key (as [add_search_step] may
    record), [fetch_results] hands the client a request from which
    [EUtilitiesClient.fetch] raises [ValueError] before sending anything,
    and [add_link_step] makes a link call from which
    [EUtilitiesClient.link] builds a request with no ["id"],
    ["query_key"] or ["WebEnv"]. *)
Theorem keyless_step_is_a_dead_end
        (c : Client) (fetch : FetchRequest -> Result string) (w : World)
        (s : PipelineStep) :
  truthy (web_env (mgr w)) = true ->
  last (steps (mgr w)) = Some s ->
  truthy (query_key s) = false ->
  (forall retmax retstart rettype retmode,
      exists request,
        (fetch_results fetch (mgr w) None retmax retstart rettype retmode).2
        = [request] /\
        client_fetch_kwargs request
        = Raise (ValueError "Either ids or query_key/web_env must be provided")) /\
  (forall from_db to_db link_name,
      exists call kwargs,
        net (add_link_step c from_db to_db link_name None w).2
        = (net w ++ [call])%list /\
        client_link_kwargs call = Some kwargs /\
        forall str_of_float cfg client,
          let params := ClientSetup._build_params str_of_float cfg client kwargs in
          params !! "id" = None /\ params !! "query_key" = None /\
          params !! "WebEnv" = None /\
          params !! "cmd" = Some "neighbor_history").
Proof.
  intros Hact Hlast Hkey. split.
  - intros retmax retstart rettype retmode.
    unfold fetch_results, resolve_step. rewrite Hact, Hlast. cbn [negb py_opt_int truthy snd].
    eexists. split; [reflexivity|].
    unfold client_fetch_kwargs, EUtilities.fetch_kwargs, EUtilities.source_kwargs.
    cbn [fetch_db fetch_query_key fetch_web_env EUtilities.has_ids].
    now rewrite Hkey.
  - intros from_db to_db link_name.
    assert (Hnet : exists r,
               add_link_step c from_db to_db link_name None w
               = (r, mkWorld (mgr (add_link_step c from_db to_db link_name None w).2)
                             (net w ++ [CallLink from_db to_db "neighbor_history"
                                                 (query_key s) (web_env (mgr w))
                                                 (py_opt_str link_name)]))).
    { unfold add_link_step, resolve_query_key. rewrite Hact, Hlast.
      cbn [negb py_opt_int truthy].
      destruct (link c (net w) from_db to_db "neighbor_history" (query_key s)
                     (web_env (mgr w)) (py_opt_str link_name));
        eexists; reflexivity. }
    destruct Hnet as (r & Hrun). rewrite Hrun. cbn [snd net].
    do 2 eexists. split; [reflexivity|]. split; [reflexivity|].
    intros str_of_float cfg client.
    assert (Hsrc : truthy (query_key s) && truthy (web_env (mgr w)) = false)
      by now rewrite Hkey.
    destruct (EUtilitiesFacts.link_params_no_source
                str_of_float cfg client from_db to_db None "neighbor_history"
                (match py_opt_str link_name with PyStr s' => Some s' | _ => None end)
                (query_key s) (web_env (mgr w)) "json" eq_refl Hsrc)
      as (Hid & Hqk & Hwe & _ & _ & Hcmd & _).
    auto.
Qed.

(** A started session whose second search came back without query key. *)
Lemma keyless_step_is_a_dead_end_witness :
  let w1 := (start_session example_client "pubmed" "cancer" fresh).2 in
  let w := (add_search_step keyless_client "pubmed" "therapy" None "AND" w1).2 in
  exists request,
    (fetch_results (fun _ => Ok "") (mgr w) None 100 0 "abstract" "xml").2 = [request] /\
    client_fetch_kwargs request
    = Raise (ValueError "Either ids or query_key/web_env must be provided").
Proof.
  intros w1 w.
  destruct (keyless_step_is_a_dead_end
              keyless_client (fun _ => Ok "") w
              (mkStep 2 "search" "pubmed" PyNone (PyInt 0)
                      {[ "query" := PyStr "therapy"; "combined_with" := PyNone;
                         "operator" := PyStr "AND" ]})
              eq_refl eq_refl eq_refl)
    as [Hfetch _].
  exact (Hfetch 100%Z 0%Z "abstract" "xml").
Defined.

(** X18.  A start that fails for want of a session handle drops the
    handle the manager had.  When [start_session] is called on any
    manager and the search result has no truthy [web_env], it raises
    "Failed to start session", keeps the steps and the counter, and
    leaves [web_env] falsy: every following [add_link_step] and
    [fetch_results] reports "no active session" although the steps are
    still there, and the manager has issued exactly the one search. *)
Theorem failed_restart_drops_handle
        (c : Client) (db query : string) (w : World) (result : gmap string PyVal) :
  search c (net w) db query true = Ok result ->
  truthy (dict_get result "web_env" PyNone) = false ->
  let run := start_session c db query w in
  run.1 = Raise (pubmed_error "Failed to start session: no History data returned") /\
  steps (mgr run.2) = steps (mgr w) /\
  _step_counter (mgr run.2) = _step_counter (mgr w) /\
  truthy (web_env (mgr run.2)) = false /\
  net run.2 = (net w ++ [CallSearch db query true])%list /\
  (forall from_db to_db link_name from_step,
      add_link_step c from_db to_db link_name from_step run.2
      = (Raise (pubmed_error "Cannot add link step: no active session"), run.2)) /\
  (forall fetch step retmax retstart rettype retmode,
      fetch_results fetch (mgr run.2) step retmax retstart rettype retmode
      = (Raise (pubmed_error "Cannot fetch: no active session"), [])).
Proof.
  intros Hsearch Hweb run. subst run.
  rewrite (start_session_no_history c db query w result Hsearch)
    by (now rewrite Hweb).
  cbn [fst snd mgr net steps _step_counter web_env].
  do 3 (split; [reflexivity|]). split; [exact Hweb|]. split; [reflexivity|].
  split.
  - intros from_db to_db link_name from_step.
    unfold add_link_step. cbn [mgr web_env]. rewrite Hweb. cbn [negb].
    unfold no_active_session. now rewrite new_pubmed_error.
  - intros fetch step retmax retstart rettype retmode.
    unfold fetch_results. cbn [web_env]. rewrite Hweb. cbn [negb].
    now rewrite new_cannot_fetch.
Qed.

(** A running session restarted against a server that returns nothing. *)
Lemma failed_restart_drops_handle_witness :
  let w := (start_session example_client "pubmed" "cancer" fresh).2 in
  let silent := mkClient (fun _ _ _ _ => Ok ∅)
                         (fun _ _ _ _ _ _ _ => Ok (mkLinkResult None)) in
  let run := start_session silent "pubmed" "therapy" w in
  length (steps (mgr run.2)) = 1%nat /\
  web_env (mgr run.2) = PyNone /\
  add_link_step silent "pubmed" "pmc" None None run.2
  = (Raise (pubmed_error "Cannot add link step: no active session"), run.2).
Proof.
  intros w silent run.
  destruct (failed_restart_drops_handle silent "pubmed" "therapy" w ∅
                                        eq_refl eq_refl)
    as (_ & Hsteps & _ & _ & _ & Hlink & _).
  fold run in Hsteps, Hlink.
  split; [now rewrite Hsteps|]. split; [reflexivity|]. apply Hlink.
Defined.

(** X19.  [reset] starts the numbering over.  After any sequence of
    calls, a [reset] and any further calls, the step list holds exactly
    the steps the further calls returned, numbered from 1 again; right
    after the [reset] the summary shows no handle, no steps and a final
    count of 0.  The client is not told: the calls it has seen stay what
    they were. *)
Theorem reset_restarts_numbering (c : Client) (calls more : list Call) :
  let w := (run_calls c calls fresh).2 in
  let w0 := mkWorld (reset (mgr w)) (net w) in
  let run := run_calls c more w0 in
  steps (mgr run.2) = returned run.1 /\
  step_number <$> steps (mgr run.2) = one_to (length (returned run.1)) /\
  _step_counter (mgr run.2) = Z.of_nat (length (returned run.1)) /\
  get_pipeline_summary (mgr w0) = mkSummary PyNone 0 [] (PyInt 0) /\
  run_reset_run c calls more = run.2.
Proof.
  intros w w0 run.
  destruct (run_calls_steps c more w0 numbered_init) as ([Hnum Hcount] & Hs & _).
  fold run in Hnum, Hcount, Hs. cbn [w0 mgr reset steps app] in Hs.
  split; [exact Hs|]. rewrite <- Hs.
  split; [exact Hnum|]. split; [exact Hcount|]. split; reflexivity.
Qed.

(** X20.  The summary of a pipeline run from a fresh manager:
    [total_steps] is the number of calls that succeeded, which is also
    the step counter and the number of the last step, and
    [final_result_count] is the result count of the step the last
    successful call returned, or 0 when none succeeded. *)
Theorem summary_of_run (c : Client) (calls : list Call) :
  let run := run_calls c calls fresh in
  let summary := get_pipeline_summary (mgr run.2) in
  total_steps summary = Z.of_nat (length (returned run.1)) /\
  total_steps summary = _step_counter (mgr run.2) /\
  summary_steps summary = returned run.1 /\
  (step_number <$> last (returned run.1)) = (if returned run.1 is [] then None
                                            else Some (total_steps summary)) /\
  final_result_count summary
  = match last (returned run.1) with
    | Some s => result_count s
    | None => PyInt 0
    end.
Proof.
  intros run summary. subst summary.
  destruct (run_calls_steps c calls fresh numbered_init) as ([Hnum Hcount] & Hs & _).
  fold run in Hnum, Hcount, Hs. cbn [fresh mgr init steps app] in Hs.
  unfold get_pipeline_summary.
  cbn [total_steps summary_steps final_result_count].
  rewrite Hcount, Hs. split; [reflexivity|]. split; [reflexivity|].
  split; [reflexivity|]. split; [|reflexivity].
  rewrite Hs in Hnum.
  destruct (returned run.1) as [|s0 rest] using rev_ind; [reflexivity|].
  rewrite last_snoc, length_app. cbn [length fmap option_fmap option_map].
  rewrite fmap_app, length_app in Hnum. cbn [length fmap list_fmap] in Hnum.
  rewrite Nat.add_1_r in Hnum. rewrite one_to_S in Hnum.
  apply app_inj_tail in Hnum as [_ Hlast]. rewrite Hlast.
  destruct (rest ++ [s0])%list eqn:E; [now destruct rest|].
  f_equal. lia.
Qed.

(** X21.  The query key of a link step is made up from the step list: on
    a manager run from fresh, a successful [add_link_step] returns a step
    whose [query_key] is the decimal of its own step number, whatever the
    server answered, with operation "link", the target database and the
    total number of linked ids as result count; it leaves [web_env]
    unchanged and has called the client once, in "neighbor_history"
    mode. *)
Theorem link_step_key (c : Client) (calls : list Call)
        (from_db to_db : string) (link_name : option string)
        (from_step : option Z) (step : PipelineStep) (w' : World) :
  let w := (run_calls c calls fresh).2 in
  add_link_step c from_db to_db link_name from_step w = (Ok step, w') ->
  query_key step = PyStr (str_of_int (step_number step)) /\
  operation step = "link" /\
  database step = to_db /\
  web_env (mgr w') = web_env (mgr w) /\
  exists source_key result,
    net w' = (net w ++ [CallLink from_db to_db "neighbor_history" source_key
                                 (web_env (mgr w)) (py_opt_str link_name)])%list /\
    link c (net w) from_db to_db "neighbor_history" source_key
         (web_env (mgr w)) (py_opt_str link_name) = Ok result /\
    result_count step = PyInt (total_linked result).
Proof.
  intros w.
  destruct (run_calls_steps c calls fresh numbered_init) as ([_ Hcount] & _).
  fold w in Hcount.
  unfold add_link_step.
  destruct (negb (truthy (web_env (mgr w)))); [discriminate|].
  destruct (resolve_query_key (mgr w) from_step) as [qk|]; [|discriminate].
  destruct (link c (net w) from_db to_db "neighbor_history" qk
                 (web_env (mgr w)) (py_opt_str link_name)) as [result|] eqn:Hlink;
    [|discriminate].
  intros [= <- <-]. cbn [query_key step_number operation database mgr web_env net
                          result_count].
  rewrite Hcount. do 4 (split; [reflexivity|]).
  exists qk, result. auto.
Qed.

Lemma link_step_key_witness :
  let calls := [StartSession "pubmed" "cancer"] in
  exists step w',
    add_link_step example_client "pubmed" "pmc" None None
                  (run_calls example_client calls fresh).2 = (Ok step, w') /\
    query_key step = PyStr "2" /\ step_number step = 2%Z.
Proof.
  intros calls.
  destruct (add_link_step example_client "pubmed" "pmc" None None
                          (run_calls example_client calls fresh).2)
    as [[step|e] w'] eqn:Hrun; [|discriminate Hrun].
  exists step, w'. split; [reflexivity|].
  destruct (link_step_key example_client calls "pubmed" "pmc" None None step w' Hrun)
    as (Hkey & _).
  assert (Hn : step_number step = 2%Z) by (now injection Hrun as <- _).
  split; [|exact Hn]. now rewrite Hkey, Hn.
Defined.

End SessionManagerMore.
